(** * The automatic function-calling loop of [examples/ollama_chat_automatic_function_calling.py]

    A shallow embedding of [ollama_automatic_function_calling] and of its
    local helpers, followed by the properties of the turn loop.

    Python values are a small universe of immutable trees; the one object
    the function mutates, the [messages] list, lives in a store and is
    passed around by reference.  The chat backend, the tools and every other
    callable are collaborators: their behaviour is a parameter of the
    development (an interpreter record), a function of the call's arguments
    and of a state of their own that they may change at each call.  They
    read the transcript they are given and do not write to it: during an
    invocation the transcript is the function's to change. *)

From Stdlib Require Import ZArith Ascii String List Lia.
From stdpp Require Import base gmap strings list pretty.

Set Warnings "-register-all".

Local Open Scope Z_scope.
Local Open Scope string_scope.
Local Open Scope list_scope.

(** ** Values *)

(** [VObj id call attrs] is an object with identity [id], data attributes
    [attrs], and [call = true] when it is callable (a function, a bound
    method).  Dictionaries keep their insertion order. *)
Inductive value : Type :=
| VNone
| VBool (b : bool)
| VInt (n : Z)
| VStr (s : string)
| VList (xs : list value)
| VDict (kvs : list (value * value))
| VObj (id : nat) (call : bool) (attrs : list (string * value)).

Inductive exn_class : Type :=
| ValueError
| TypeError
| AttributeError
| OtherException
| SystemExiting.

(** An exception: its class and its text, [str(e)]. *)
Record exn : Type := Exn { exn_cls : exn_class; exn_msg : string }.

(** [isinstance(e, Exception)]: false for [KeyboardInterrupt], [SystemExit]
    and the like, which derive from [BaseException] only. *)
Definition is_Exception (e : exn) : bool :=
  match exn_cls e with
  | SystemExiting => false
  | _ => true
  end.

Inductive result (A : Type) : Type :=
| Ret (a : A)
| Raise (e : exn).
Arguments Ret {A} a.
Arguments Raise {A} e.

(** ** Built-in operations *)

Definition is_none (v : value) : bool :=
  match v with VNone => true | _ => false end.

Definition is_dict (v : value) : bool :=
  match v with VDict _ => true | _ => false end.

Definition is_str (v : value) : bool :=
  match v with VStr _ => true | _ => false end.

Definition callable (v : value) : bool :=
  match v with VObj _ c _ => c | _ => false end.

(** Truth value of [v] ([bool(v)]); plain objects are true. *)
Definition py_truthy (v : value) : bool :=
  match v with
  | VNone => false
  | VBool b => b
  | VInt n => negb (n =? 0)%Z
  | VStr s => negb (String.eqb s "")
  | VList xs => match xs with [] => false | _ => true end
  | VDict kvs => match kvs with [] => false | _ => true end
  | VObj _ _ _ => true
  end.

(** [a or b] *)
Definition py_or (a b : value) : value := if py_truthy a then a else b.

Fixpoint assoc {A : Type} (k : string) (l : list (string * A)) : option A :=
  match l with
  | [] => None
  | (k', v) :: l' => if String.eqb k k' then Some v else assoc k l'
  end.

(** [getattr(v, a, default)].  Only objects carry the attributes this
    program reads. *)
Definition getattr (v : value) (a : string) (default : value) : value :=
  match v with
  | VObj _ _ attrs => match assoc a attrs with Some x => x | None => default end
  | _ => default
  end.

Definition hasattr (v : value) (a : string) : bool :=
  match v with
  | VObj _ _ attrs => match assoc a attrs with Some _ => true | None => false end
  | _ => false
  end.

(** Lists and dictionaries are unhashable. *)
Definition hashable (k : value) : bool :=
  match k with
  | VList _ | VDict _ => false
  | _ => true
  end.

(** Equality of dictionary keys: [True == 1], [False == 0], objects by
    identity. *)
Definition key_eqb (a b : value) : bool :=
  match a, b with
  | VNone, VNone => true
  | VBool x, VBool y => Bool.eqb x y
  | VBool x, VInt y | VInt y, VBool x => (Z.b2z x =? y)%Z
  | VInt x, VInt y => (x =? y)%Z
  | VStr x, VStr y => String.eqb x y
  | VObj i _ _, VObj j _ _ => Nat.eqb i j
  | _, _ => false
  end.

Fixpoint dict_lookup (kvs : list (value * value)) (k : value) : option value :=
  match kvs with
  | [] => None
  | (k', v) :: kvs' => if key_eqb k k' then Some v else dict_lookup kvs' k
  end.

(** [d[k] = v] on the entries of a dictionary: an existing key keeps its
    position, a new one goes last. *)
Fixpoint dict_store (kvs : list (value * value)) (k v : value) : list (value * value) :=
  match kvs with
  | [] => [(k, v)]
  | (k', v') :: kvs' =>
      if key_eqb k k' then (k', v) :: kvs' else (k', v') :: dict_store kvs' k v
  end.

(** [d.get(k, default)] for a string [k], on any value: what is not a
    dictionary is never asked in the program, and yields the default. *)
Definition dict_get_str (d : value) (k : string) (default : value) : value :=
  match d with
  | VDict kvs => match dict_lookup kvs (VStr k) with Some x => x | None => default end
  | _ => default
  end.

(** The elements a [for] loop sees; [None] when the value is not iterable.
    A string yields its characters, a dictionary its keys. *)
Definition py_iter (v : value) : option (list value) :=
  match v with
  | VList xs => Some xs
  | VDict kvs => Some (map fst kvs)
  | VStr s => Some (map (fun c => VStr (String c EmptyString)) (list_ascii_of_string s))
  | _ => None
  end.

(** [**d]: the keyword arguments of a dictionary whose keys are all
    strings; [None] for anything else. *)
Fixpoint kwargs_of_entries (kvs : list (value * value)) : option (list (string * value)) :=
  match kvs with
  | [] => Some []
  | (VStr k, v) :: kvs' =>
      match kwargs_of_entries kvs' with
      | Some r => Some ((k, v) :: r)
      | None => None
      end
  | _ => None
  end.

Definition kwargs_of (v : value) : option (gmap string value) :=
  match v with
  | VDict kvs =>
      match kwargs_of_entries kvs with
      | Some r => Some (list_to_map r)
      | None => None
      end
  | _ => None
  end.

(** ** Collaborators and the store *)

(** One invocation of the chat backend, as the call expression writes it:
    [client_fn(model=.., tools=.., messages=.., options=.., **chat_kwargs)].
    [cc_messages] is the content of the transcript at the time of the
    call. *)
Record chat_call : Type := ChatCall {
  cc_model : value;
  cc_tools : value;
  cc_messages : list value;
  cc_options : value;
  cc_extra : gmap string value
}.

Definition call_kwargs (c : chat_call) : gmap string value :=
  <["model" := cc_model c]>
    (<["tools" := cc_tools c]>
       (<["messages" := VList (cc_messages c)]>
          (<["options" := cc_options c]> (cc_extra c)))).

(** What the program takes from the Python run time and its libraries.
    [W] is the state of the collaborators. *)
Record interp (W : Type) : Type := Interp {
  (** calling the callable object [id] with positional and keyword
      arguments *)
  call : nat -> list value -> gmap string value -> W -> result value * W;
  (** [json.loads] on a text; [None] when it raises: its decode error, or
      the [ValueError] of an integer literal that is too long *)
  json_loads : string -> option value;
  (** [str] of a list, a dictionary or an object, which runs their
      [__str__] or [__repr__] and may raise *)
  str_compound : value -> result string;
  (** [sys.get_int_max_str_digits()]: the longest integer, in decimal
      digits, that [str] writes; 0 when there is no limit *)
  int_max_str_digits : Z;
  (** text of an error the interpreter raises about a value *)
  errtext : exn_class -> value -> string
}.
Arguments call {W} _ _ _ _ _.
Arguments json_loads {W} _ _.
Arguments str_compound {W} _ _.
Arguments int_max_str_digits {W} _.
Arguments errtext {W} _ _ _.

Definition loc : Type := nat.

(** The store holds the lists that are shared by reference; [calls] records
    the backend invocations made so far, oldest first. *)
Record state (W : Type) : Type := State {
  heap : gmap loc (list value);
  world : W;
  calls : list chat_call
}.
Arguments State {W} _ _ _.
Arguments heap {W} _.
Arguments world {W} _.
Arguments calls {W} _.

(** Computations that read and write the state and may raise. *)
Definition M (W A : Type) : Type := state W -> result A * state W.

Definition ret {W A} (a : A) : M W A := fun st => (Ret a, st).

Definition raise {W A} (e : exn) : M W A := fun st => (Raise e, st).

Definition bind {W A B} (m : M W A) (k : A -> M W B) : M W B :=
  fun st =>
    match m st with
    | (Ret a, st') => k a st'
    | (Raise e, st') => (Raise e, st')
    end.

Notation "'let*' x ':=' m 'in' k" := (bind m (fun x => k))
  (at level 10, x pattern, m at level 100, k at level 200).

Definition lift_result {W A} (r : result A) : M W A := fun st => (r, st).

(** [l.append(x)] on the list stored at [l]. *)
Definition append {W} (l : loc) (x : value) : M W unit :=
  fun st => (Ret tt, State (alter (fun xs => xs ++ [x]) l (heap st)) (world st) (calls st)).

(** [try: m  except Exception as e: h e] *)
Definition try_except {W A} (m : M W A) (h : exn -> M W A) : M W A :=
  fun st =>
    match m st with
    | (Ret a, st') => (Ret a, st')
    | (Raise e, st') => if is_Exception e then h e st' else (Raise e, st')
    end.

(** ** The program *)

(** The set literal of line 84. *)
Definition reserved : gset string :=
  {[ "model"; "tools"; "messages"; "options"; "max_turns"; "tool_map" ]}.

(** [kwargs.get(k, default)] *)
Definition kwargs_get (kwargs : gmap string value) (k : string) (default : value) : value :=
  match kwargs !! k with Some v => v | None => default end.

(** [{k: v for k, v in kwargs.items() if k not in reserved}] *)
Definition chat_kwargs_of (kwargs : gmap string value) : gmap string value :=
  filter (fun kv => kv.1 ∉ reserved) kwargs.

(** The number of decimal digits of the integer [n]. *)
Definition int_digits (n : Z) : Z := Z.of_nat (String.length (pretty (Z.abs n))).

Section Driver.
Context {W : Type} (env : interp W).

(** [str(v)], also what an f-string puts for [{v}].  An integer with more
    digits than the interpreter's limit makes it raise [ValueError]. *)
Definition py_str (v : value) : result string :=
  match v with
  | VNone => Ret "None"
  | VBool true => Ret "True"
  | VBool false => Ret "False"
  | VInt n =>
      if ((0 <? int_max_str_digits env)%Z && (int_max_str_digits env <? int_digits n)%Z)%bool
      then Raise (Exn ValueError (errtext env ValueError v))
      else Ret (pretty n)
  | VStr s => Ret s
  | _ => str_compound env v
  end.

(** An error of the interpreter itself, about the value [v]. *)
Definition raise_about {A} (c : exn_class) (v : value) : M W A :=
  raise (Exn c (errtext env c v)).

(** Calling [f] with positional arguments [args] and keyword arguments
    [kw]; a [TypeError] when [f] is not callable. *)
Definition call_value (f : value) (args : list value) (kw : gmap string value) : M W value :=
  match f with
  | VObj id true _ =>
      fun st =>
        let (r, w) := call env id args kw (world st) in
        (r, State (heap st) w (calls st))
  | _ => raise_about TypeError f
  end.

(** [v.a], an error when the attribute is missing *)
Definition attr (v : value) (a : string) : M W value :=
  if hasattr v a then ret (getattr v a VNone) else raise_about AttributeError v.

(** Lines 36-44. *)
Definition _to_msg_dict (msg : value) : M W value :=
  if hasattr msg "model_dump" then
    call_value (getattr msg "model_dump" VNone) [] {[ "exclude_none" := VBool true ]}
  else if is_dict msg then ret msg
  else ret (VDict [ (VStr "role", getattr msg "role" (VStr "assistant"));
                    (VStr "content", getattr msg "content" (VStr "")) ]).

(** Lines 46-58. *)
Definition _extract_tool_call_parts (tool_call : value) : value * value :=
  let function := getattr tool_call "function" VNone in
  let function :=
    if is_none function && is_dict tool_call
    then dict_get_str tool_call "function" (VDict [])
    else function in
  if is_dict function then
    (dict_get_str function "name" VNone,
     py_or (dict_get_str function "arguments" VNone) (VDict []))
  else
    (getattr function "name" VNone,
     py_or (getattr function "arguments" VNone) (VDict [])).

(** Lines 60-68. *)
Definition _infer_tool_name (t : value) : value :=
  if is_none t then VNone
  else if is_dict t then
    let fn := py_or (dict_get_str t "function" VNone) (VDict []) in
    if is_dict fn then dict_get_str fn "name" VNone else VNone
  else py_or (getattr t "name" VNone) (getattr t "__name__" VNone).

(** Lines 70-72. *)
Definition _resolve_callable (fn : value) : value :=
  let wrapped := getattr fn "__wrapped__" VNone in
  if callable wrapped then wrapped else fn.

(** Lines 76-79: the loop that fills the registry, [acc] being the
    dictionary built so far. *)
Fixpoint build_tool_map (ts : list value) (acc : list (value * value))
  : result (list (value * value)) :=
  match ts with
  | [] => Ret acc
  | t :: ts' =>
      let name := _infer_tool_name t in
      if py_truthy name then
        if hashable name then build_tool_map ts' (dict_store acc name t)
        else Raise (Exn TypeError (errtext env TypeError name))
      else build_tool_map ts' acc
  end.

(** Lines 74-79. *)
Definition init_tool_map (tool_map tools : value) : result value :=
  if is_none tool_map && py_truthy tools then
    match py_iter tools with
    | Some ts =>
        match build_tool_map ts [] with
        | Ret kvs => Ret (VDict kvs)
        | Raise e => Raise e
        end
    | None => Raise (Exn TypeError (errtext env TypeError tools))
    end
  else Ret tool_map.

(** Line 105: [tool_map.get(tool_name) if tool_map else None]. *)
Definition registry_get (tool_map tool_name : value) : M W value :=
  if py_truthy tool_map then
    match tool_map with
    | VDict kvs =>
        if hashable tool_name
        then ret (match dict_lookup kvs tool_name with Some x => x | None => VNone end)
        else raise_about TypeError tool_name
    | VObj _ _ _ =>
        if hasattr tool_map "get"
        then call_value (getattr tool_map "get" VNone) [tool_name] ∅
        else raise_about AttributeError tool_map
    | _ => raise_about AttributeError tool_map
    end
  else ret VNone.

(** Lines 117-123. *)
Definition decode_arguments (tool_args : value) : value :=
  match tool_args with
  | VStr s =>
      match json_loads env s with
      | Some v => v
      | None => VDict []
      end
  | _ => tool_args
  end.

(** Lines 125-129: the content of the tool message.  [str(result)] is
    inside the [try] block; the f-string of line 129 is in the handler, where
    nothing catches what writing the name raises. *)
Definition invoke_tool (tool_name tool_fn tool_args : value) : M W string :=
  try_except
    (match kwargs_of (py_or tool_args (VDict [])) with
     | Some kw =>
         let* result := call_value (_resolve_callable tool_fn) [] kw in
         lift_result (py_str result)
     | None => raise_about TypeError tool_args
     end)
    (fun e =>
       let* name := lift_result (py_str tool_name) in
       ret ("Tool '" +:+ name +:+ "' execution failed: " +:+ exn_msg e)).

(** The dictionary literal of lines 109-113 and 132-136. *)
Definition tool_message (content tool_name : value) : value :=
  VDict [ (VStr "role", VStr "tool");
          (VStr "content", content);
          (VStr "tool_name", tool_name) ].

(** Lines 104-137: the body of the loop over the requested calls. *)
Definition handle_tool_call (messages : loc) (tool_map tool_call : value) : M W unit :=
  let '(tool_name, tool_args) := _extract_tool_call_parts tool_call in
  let* tool_fn := registry_get tool_map tool_name in
  if negb (callable tool_fn) then
    let* name := lift_result (py_str tool_name) in
    append messages
      (tool_message (VStr ("Tool '" +:+ name +:+ "' not found."))
                    (py_or tool_name (VStr "unknown_tool")))
  else
    let tool_args := if is_str tool_args then decode_arguments tool_args else tool_args in
    let* content := invoke_tool tool_name tool_fn tool_args in
    append messages (tool_message (VStr content) tool_name).

(** Line 103. *)
Fixpoint run_tool_calls (messages : loc) (tool_map : value) (tool_calls : list value)
  : M W unit :=
  match tool_calls with
  | [] => ret tt
  | tool_call :: rest =>
      let* _ := handle_tool_call messages tool_map tool_call in
      run_tool_calls messages tool_map rest
  end.

(** Lines 88-94.  The backend gets the transcript itself; it reads it as it
    is at the call. *)
Definition call_backend (client_fn : value) (messages : loc)
    (model tools options : value) (chat_kwargs : gmap string value) : M W value :=
  match client_fn with
  | VObj id true _ =>
      fun st =>
        let c := ChatCall model tools (default [] (heap st !! messages)) options chat_kwargs in
        let (r, w) := call env id [] (call_kwargs c) (world st) in
        (r, State (heap st) w (calls st ++ [c]))
  | _ => raise_about TypeError client_fn
  end.

(** Lines 88-137: one turn.  The boolean tells whether the function returns
    at line 101. *)
Definition chat_turn (client_fn : value) (messages : loc)
    (model tools options tool_map : value) (chat_kwargs : gmap string value)
  : M W (value * bool) :=
  let* response := call_backend client_fn messages model tools options chat_kwargs in
  let* assistant_msg := attr response "message" in
  let* entry := _to_msg_dict assistant_msg in
  let* _ := append messages entry in
  let tool_calls := py_or (getattr assistant_msg "tool_calls" VNone) (VList []) in
  if negb (py_truthy tool_calls) then ret (response, true)
  else
    match py_iter tool_calls with
    | Some tcs =>
        let* _ := run_tool_calls messages tool_map tcs in
        ret (response, false)
    | None => raise_about TypeError tool_calls
    end.

(** Lines 87-140: [n] turns are left, [last_response] is the variable of
    that name. *)
Fixpoint chat_loop (n : nat) (client_fn : value) (messages : loc)
    (model tools options tool_map : value) (chat_kwargs : gmap string value)
    (last_response : value) : M W value :=
  match n with
  | O => ret last_response
  | S n' =>
      let* turn := chat_turn client_fn messages model tools options tool_map chat_kwargs in
      if turn.2 then ret turn.1
      else chat_loop n' client_fn messages model tools options tool_map chat_kwargs turn.1
  end.

(** [len(range(max_turns))]; [range] takes integers, booleans included. *)
Definition range_len (max_turns : value) : M W nat :=
  match max_turns with
  | VInt n => ret (Z.to_nat n)
  | VBool b => ret (if b then 1%nat else 0%nat)
  | _ => raise_about TypeError max_turns
  end.

(** Lines 4-140.  [messages] is the reference the caller holds. *)
Definition ollama_automatic_function_calling
    (client_fn : value) (messages : loc) (options : value)
    (kwargs : gmap string value) : M W (value * loc) :=
  let model := kwargs_get kwargs "model" VNone in
  if is_none model then raise (Exn ValueError "model must be specified")
  else
    let max_turns := kwargs_get kwargs "max_turns" (VInt 20) in
    let tools := kwargs_get kwargs "tools" VNone in
    let tool_map := kwargs_get kwargs "tool_map" VNone in
    let* tool_map := lift_result (init_tool_map tool_map tools) in
    if negb (callable client_fn) then raise (Exn ValueError "client_fn must be a callable")
    else
      let chat_kwargs := chat_kwargs_of kwargs in
      let* n := range_len max_turns in
      let* last_response :=
        chat_loop n client_fn messages model tools options tool_map chat_kwargs VNone in
      ret (last_response, messages).

End Driver.

(** ** A decoder for a fragment of JSON

    [json.loads] belongs to the Python library, and the development takes it
    from the interpreter record.  This decoder serves as that component in
    the concrete interpreters below.  It reads the JSON texts made of
    objects, arrays, strings without escapes, integers of at most
    [max_digits] digits, [true], [false] and [null], and gives [None] on
    everything else; texts with fractional numbers, [NaN], [Infinity] or
    escapes are outside what it describes. *)
Module Json.

(** The default of [sys.get_int_max_str_digits()]: a longer integer literal
    makes [json.loads] raise [ValueError]. *)
Definition max_digits : Z := 4300.

Definition is_ws (c : ascii) : bool :=
  match c with
  | " "%char | "009"%char | "010"%char | "013"%char => true
  | _ => false
  end.

Fixpoint skip_ws (s : list ascii) : list ascii :=
  match s with
  | c :: s' => if is_ws c then skip_ws s' else s
  | [] => []
  end.

Definition digit_of (c : ascii) : option Z :=
  let n := Z.of_nat (nat_of_ascii c) in
  if ((48 <=? n)%Z && (n <=? 57)%Z)%bool then Some (n - 48)%Z else None.

(** The integer written by the leading digits of [s], after [count] digits
    that gave [acc]; the number of digits read; what follows them. *)
Fixpoint digits (s : list ascii) (acc count : Z) : Z * Z * list ascii :=
  match s with
  | c :: s' =>
      match digit_of c with
      | Some d => digits s' (10 * acc + d)%Z (count + 1)%Z
      | None => (acc, count, s)
      end
  | [] => (acc, count, [])
  end.

(** After the digits of an integer: a fraction or an exponent would make
    the number a float. *)
Definition ends_integer (s : list ascii) : bool :=
  match s with
  | "."%char :: _ | "e"%char :: _ | "E"%char :: _ => false
  | _ => true
  end.

Definition natural (s : list ascii) : option (Z * list ascii) :=
  match s with
  | "0"%char :: s' => if ends_integer s' then Some (0, s') else None
  | c :: s' =>
      match digit_of c with
      | Some d =>
          let '(n, count, r) := digits s' d 1 in
          if (ends_integer r && (count <=? max_digits)%Z)%bool then Some (n, r) else None
      | None => None
      end
  | [] => None
  end.

(** The characters of a string up to its closing quote. *)
Fixpoint string_body (s : list ascii) : option (string * list ascii) :=
  match s with
  | [] => None
  | "034"%char :: s' => Some (EmptyString, s')
  | "\"%char :: _ => None
  | c :: s' =>
      if (Z.of_nat (nat_of_ascii c) <? 32)%Z then None
      else
        match string_body s' with
        | Some (t, r) => Some (String c t, r)
        | None => None
        end
  end.

Fixpoint parse_value (fuel : nat) (s : list ascii) : option (value * list ascii) :=
  match fuel with
  | O => None
  | S fuel' =>
      match skip_ws s with
      | "n"%char :: "u"%char :: "l"%char :: "l"%char :: r => Some (VNone, r)
      | "t"%char :: "r"%char :: "u"%char :: "e"%char :: r => Some (VBool true, r)
      | "f"%char :: "a"%char :: "l"%char :: "s"%char :: "e"%char :: r => Some (VBool false, r)
      | "034"%char :: r =>
          match string_body r with
          | Some (t, r') => Some (VStr t, r')
          | None => None
          end
      | "-"%char :: r =>
          match natural r with
          | Some (n, r') => Some (VInt (- n)%Z, r')
          | None => None
          end
      | "["%char :: r =>
          match skip_ws r with
          | "]"%char :: r' => Some (VList [], r')
          | _ => parse_elements fuel' r []
          end
      | "{"%char :: r =>
          match skip_ws r with
          | "}"%char :: r' => Some (VDict [], r')
          | _ => parse_members fuel' r []
          end
      | r =>
          match natural r with
          | Some (n, r') => Some (VInt n, r')
          | None => None
          end
      end
  end
with parse_elements (fuel : nat) (s : list ascii) (acc : list value)
  : option (value * list ascii) :=
  match fuel with
  | O => None
  | S fuel' =>
      match parse_value fuel' s with
      | Some (v, r) =>
          match skip_ws r with
          | ","%char :: r' => parse_elements fuel' r' (acc ++ [v])
          | "]"%char :: r' => Some (VList (acc ++ [v]), r')
          | _ => None
          end
      | None => None
      end
  end
with parse_members (fuel : nat) (s : list ascii) (acc : list (value * value))
  : option (value * list ascii) :=
  match fuel with
  | O => None
  | S fuel' =>
      match skip_ws s with
      | "034"%char :: r =>
          match string_body r with
          | Some (k, r1) =>
              match skip_ws r1 with
              | ":"%char :: r2 =>
                  match parse_value fuel' r2 with
                  | Some (v, r3) =>
                      match skip_ws r3 with
                      | ","%char :: r4 => parse_members fuel' r4 (dict_store acc (VStr k) v)
                      | "}"%char :: r4 => Some (VDict (dict_store acc (VStr k) v), r4)
                      | _ => None
                      end
                  | None => None
                  end
              | _ => None
              end
          | None => None
          end
      | _ => None
      end
  end.

Definition loads (text : string) : option value :=
  let s := list_ascii_of_string text in
  match parse_value (S (2 * length s)) s with
  | Some (v, r) => match skip_ws r with [] => Some v | _ => None end
  | None => None
  end.

End Json.

(** [s] between double quotes. *)
Definition quoted (s : string) : string :=
  String "034"%char (s +:+ String "034"%char EmptyString).

(** The text [{"a": 1, "b": 2}] of the specification. *)
Definition text_a1_b2 : string :=
  "{" +:+ quoted "a" +:+ ": 1, " +:+ quoted "b" +:+ ": 2}".

(** ** Concrete collaborators

    Small interpreters on which the program is run: the arithmetic tool of
    the example, a tool that fails, one that exits, and scripted
    backends.  The state of the collaborators is the number of backend
    calls answered so far. *)
Module Demo.

Definition fn (id : nat) (name : string) : value :=
  VObj id true [("__name__", VStr name)].

Definition add_fn : value := fn 1 "add".
Definition boom_fn : value := fn 2 "boom".
Definition exit_fn : value := fn 3 "leave".

(** A tool call as the backend returns it: an object with a [function]
    attribute, itself an object with [name] and [arguments]. *)
Definition tool_call (name arguments : value) : value :=
  VObj 10 false [("function", VObj 11 false [("name", name); ("arguments", arguments)])].

Definition assistant (content : string) (tool_calls : value) : value :=
  VObj 12 false [("role", VStr "assistant"); ("content", VStr content);
                 ("tool_calls", tool_calls)].

Definition response (msg : value) : value := VObj 13 false [("message", msg)].

Definition add_of (kw : gmap string value) : result value :=
  match kw !! "a", kw !! "b" with
  | Some (VInt a), Some (VInt b) => Ret (VInt (a + b)%Z)
  | _, _ => Raise (Exn TypeError "add() takes the integers a and b")
  end.

(** The tools by object identity: [add], one that fails, one that asks the
    interpreter to exit. *)
Definition tools_of (id : nat) (kw : gmap string value) : result value :=
  match id with
  | 1%nat => add_of kw
  | 2%nat => Raise (Exn OtherException "boom")
  | 3%nat => Raise (Exn SystemExiting "1")
  | _ => Ret VNone
  end.

(** Tools that never ask to exit. *)
Definition calm_tools_of (id : nat) (kw : gmap string value) : result value :=
  match id with
  | 1%nat => add_of kw
  | 2%nat => Raise (Exn OtherException "boom")
  | _ => Ret VNone
  end.

(** The object 0 is the backend: called with the keyword arguments [kw],
    its [n]-th answer is [answer kw n]. *)
Definition make_with (answer : gmap string value -> nat -> value)
    (tool : nat -> gmap string value -> result value) : interp nat :=
  {| call := fun id args kw w =>
       match id with
       | O => (Ret (answer kw w), S w)
       | _ => (tool id kw, w)
       end;
     json_loads := Json.loads;
     str_compound := fun _ => Ret "<object>";
     int_max_str_digits := 4300;
     errtext := fun c _ =>
       match c with
       | TypeError => "unsupported operand"
       | AttributeError => "no such attribute"
       | ValueError => "Exceeds the limit for integer string conversion"
       | _ => "error"
       end |}.

(** A backend that does not look at what it is called with. *)
Definition make (answer : nat -> value)
    (tool : nat -> gmap string value -> result value) : interp nat :=
  make_with (fun _ => answer) tool.

Definition done : value := response (assistant "done" VNone).

(** [script] is what the backend answers at its first, second, ... call;
    past the script it answers with a plain message. *)
Definition scripted (script : list value) : interp nat :=
  make (fun n => nth n script done) tools_of.

(** A backend that asks for the tool [nope] at every turn. *)
Definition insistent : interp nat :=
  make (fun _ => response (assistant "" (VList [tool_call (VStr "nope") (VDict [])])))
       tools_of.

(** A backend that answers at once, with tools that never exit. *)
Definition calm : interp nat := make (fun _ => done) calm_tools_of.

(** A backend that tells what it was called with: the content of its
    message is the value of [think], or [-] without one, followed by [!] if
    it was handed [max_turns] or [tool_map].  Its first answer asks for the
    tool [nope]. *)
Definition echo_answer (kw : gmap string value) (n : nat) : value :=
  let said := match kw !! "think" with Some (VStr s) => s | _ => "-" end in
  let leaked := match kw !! "max_turns", kw !! "tool_map" with
                | None, None => ""
                | _, _ => "!"
                end in
  response (assistant (said +:+ leaked)
              (match n with
               | O => VList [tool_call (VStr "nope") (VDict [])]
               | _ => VNone
               end)).

Definition echo : interp nat := make_with echo_answer tools_of.

(** A message given as a mapping, which asks for the tool [nope] in a
    request that is a mapping too. *)
Definition mapping_request : value :=
  VDict [ (VStr "role", VStr "assistant");
          (VStr "content", VStr "");
          (VStr "tool_calls",
           VList [VDict [(VStr "function",
                          VDict [(VStr "name", VStr "nope");
                                 (VStr "arguments", VDict [])])]]) ].

(** A backend whose every message is [mapping_request]. *)
Definition mapping_insistent : interp nat :=
  make (fun _ => response mapping_request) tools_of.

Definition chat : value := fn 0 "chat".

Definition user (content : string) : value :=
  VDict [(VStr "role", VStr "user"); (VStr "content", VStr content)].

Definition start (transcript : list value) : state nat :=
  State {[ 7%nat := transcript ]} 0%nat [].

End Demo.

(** The named parameters [model] and [max_turns], and nothing else. *)
Definition plain_kwargs (max_turns : Z) : gmap string value :=
  {[ "model" := VStr "glm-5:cloud"; "max_turns" := VInt max_turns ]}.

(** ** The example tools

    Lines 143-160: [add], [sub], [mul] and [div], which the program entry
    hands to the loop as [tools].  Their annotations say [float], which
    Python does not enforce; the operators act on whatever comes.  On the
    values modelled here [+], [-] and [*] are Python's on integers
    (booleans counting as 0 and 1), strings and lists.  [/] gives a float,
    which is not a value of this development: what it gives for a non-zero
    divisor is left to the interpreter ([true_div]). *)
Module Calculator.

(** The integer an [int] or a [bool] is. *)
Definition as_int (v : value) : option Z :=
  match v with
  | VInt n => Some n
  | VBool b => Some (Z.b2z b)
  | _ => None
  end.

Definition repeat_string (n : Z) (s : string) : string :=
  String.concat "" (replicate (Z.to_nat n) s).

Definition repeat_list (n : Z) (xs : list value) : list value :=
  concat (replicate (Z.to_nat n) xs).

(** The texts of the errors are the interpreter's: [errtext] gives them from
    the class of the error and the operands. *)
Section Operators.
Variable errtext : exn_class -> value -> string.
Variable true_div : Z -> Z -> result value.

(** [a + b] *)
Definition py_add (a b : value) : result value :=
  match as_int a, as_int b with
  | Some x, Some y => Ret (VInt (x + y))
  | _, _ =>
      match a, b with
      | VStr s, VStr t => Ret (VStr (s +:+ t))
      | VList xs, VList ys => Ret (VList (xs ++ ys))
      | _, _ => Raise (Exn TypeError (errtext TypeError (VList [a; b])))
      end
  end.

(** [a - b] *)
Definition py_sub (a b : value) : result value :=
  match as_int a, as_int b with
  | Some x, Some y => Ret (VInt (x - y))
  | _, _ => Raise (Exn TypeError (errtext TypeError (VList [a; b])))
  end.

(** [a * b] *)
Definition py_mul (a b : value) : result value :=
  match as_int a, as_int b with
  | Some x, Some y => Ret (VInt (x * y))
  | Some n, None =>
      match b with
      | VStr s => Ret (VStr (repeat_string n s))
      | VList xs => Ret (VList (repeat_list n xs))
      | _ => Raise (Exn TypeError (errtext TypeError (VList [a; b])))
      end
  | None, Some n =>
      match a with
      | VStr s => Ret (VStr (repeat_string n s))
      | VList xs => Ret (VList (repeat_list n xs))
      | _ => Raise (Exn TypeError (errtext TypeError (VList [a; b])))
      end
  | None, None => Raise (Exn TypeError (errtext TypeError (VList [a; b])))
  end.

(** [a / b]: [ZeroDivisionError] for a zero divisor. *)
Definition py_truediv (a b : value) : result value :=
  match as_int a, as_int b with
  | Some x, Some y =>
      if (y =? 0)%Z then Raise (Exn OtherException (errtext OtherException (VList [a; b])))
      else true_div x y
  | _, _ => Raise (Exn TypeError (errtext TypeError (VList [a; b])))
  end.

(** Lines 143-145. *)
Definition add (a b : value) : result value := py_add a b.

(** Lines 148-150. *)
Definition sub (a b : value) : result value := py_sub a b.

(** Lines 153-155. *)
Definition mul (a b : value) : result value := py_mul a b.

(** Lines 158-160. *)
Definition div (a b : value) : result value := py_truediv a b.

(** The arguments of a call bound to the parameters [(a, b)]: positional
    ones first, the rest by name; [None] when one is missing, given twice
    or unknown. *)
Definition bind_a_b (args : list value) (kw : gmap string value) : option (value * value) :=
  match args with
  | [] =>
      match kw !! "a", kw !! "b" with
      | Some a, Some b => if decide (size kw = 2%nat) then Some (a, b) else None
      | _, _ => None
      end
  | [a] =>
      match kw !! "b" with
      | Some b => if decide (size kw = 1%nat) then Some (a, b) else None
      | None => None
      end
  | [a; b] => if decide (size kw = 0%nat) then Some (a, b) else None
  | _ => None
  end.

(** What the text of a binding error may depend on: the function and the
    arguments of the call. *)
Definition call_shape (self : value) (args : list value) (kw : gmap string value) : value :=
  VList [self; VList args; VDict (map (fun kv => (VStr kv.1, kv.2)) (map_to_list kw))].

(** Calling the function [f] of two parameters. *)
Definition call_binary (f : value -> value -> result value) (self : value)
    (args : list value) (kw : gmap string value) : result value :=
  match bind_a_b args kw with
  | Some (a, b) => f a b
  | None => Raise (Exn TypeError (errtext TypeError (call_shape self args kw)))
  end.

End Operators.

(** The four function objects; of a function the program reads
    [__name__] only. *)
Definition add_fn : value := VObj 21 true [("__name__", VStr "add")].
Definition sub_fn : value := VObj 22 true [("__name__", VStr "sub")].
Definition mul_fn : value := VObj 23 true [("__name__", VStr "mul")].
Definition div_fn : value := VObj 24 true [("__name__", VStr "div")].

(** Line 169: [tools=[add, sub, mul, div]]. *)
Definition tools : list value := [add_fn; sub_fn; mul_fn; div_fn].

(** An interpreter in which the objects 21 to 24 are the four tools, the
    rest being as in [base]. *)
Definition interp_with {W : Type} (true_div : Z -> Z -> result value) (base : interp W)
  : interp W :=
  {| call := fun id args kw w =>
       match id with
       | 21%nat => (call_binary (errtext base) (add (errtext base)) add_fn args kw, w)
       | 22%nat => (call_binary (errtext base) (sub (errtext base)) sub_fn args kw, w)
       | 23%nat => (call_binary (errtext base) (mul (errtext base)) mul_fn args kw, w)
       | 24%nat => (call_binary (errtext base) (div (errtext base) true_div) div_fn args kw, w)
       | _ => call base id args kw w
       end;
     json_loads := json_loads base;
     str_compound := str_compound base;
     int_max_str_digits := int_max_str_digits base;
     errtext := errtext base |}.

End Calculator.

(** Floats are not among the values of this development.  In the concrete
    runs a quotient is kept as an opaque object, of which the program could
    only ask [str]; none of these runs divides by a non-zero number. *)
Definition no_float : Z -> Z -> result value := fun _ _ => Ret (VObj 30 false []).

(** What line 79 makes of [tools=[add, sub, mul, div]]. *)
Definition calculator_registry : list (value * value) :=
  [ (VStr "add", Calculator.add_fn); (VStr "sub", Calculator.sub_fn);
    (VStr "mul", Calculator.mul_fn); (VStr "div", Calculator.div_fn) ].

(** * Notions used in the statements *)

Section Properties.
Context {W : Type} (env : interp W).

Abbreviation run := (ollama_automatic_function_calling env).

(** A tool message as lines 108-114 and 131-137 build it. *)
Definition tool_entry (e : value) : Prop :=
  exists content tool_name,
    e = VDict [ (VStr "role", VStr "tool");
                (VStr "content", VStr content);
                (VStr "tool_name", tool_name) ].

(** [response] is what a call of the backend [client_fn] returned. *)
Definition backend_returns (client_fn response : value) : Prop :=
  exists id attrs kw w w',
    client_fn = VObj id true attrs /\ call env id [] kw w = (Ret response, w').

(** What line 97 appends: the normal form of the message of a response of
    the backend. *)
Definition assistant_entry (client_fn e : value) : Prop :=
  exists response st st',
    backend_returns client_fn response
    /\ _to_msg_dict env (getattr response "message" VNone) st = (Ret e, st').

(** The two kinds of entries the function appends. *)
Definition appended_entry (client_fn e : value) : Prop :=
  tool_entry e \/ assistant_entry client_fn e.

(** [e] is a dictionary with the key [k]. *)
Definition has_field (e : value) (k : string) : Prop :=
  match e with
  | VDict kvs => is_Some (dict_lookup kvs (VStr k))
  | _ => False
  end.

(** A Message of the transcript: a mapping with a [role], and with a
    [tool_name] when the role is ["tool"]. *)
Definition message_entry (e : value) : Prop :=
  has_field e "role"
  /\ (dict_get_str e "role" VNone = VStr "tool" -> has_field e "tool_name").

(** The backend keeps to its contract: the message of each of its responses
    is an assistant message with a role, so that its normal form is a
    Message. *)
Definition backend_contract (client_fn : value) : Prop :=
  forall e, assistant_entry client_fn e -> message_entry e.

(** [E] holds of the tool messages. *)
Definition of_tools (E : value -> Prop) : Prop := forall e, tool_entry e -> E e.

(** [E] holds of the normal forms of the backend's messages. *)
Definition of_backend (client_fn : value) (E : value -> Prop) : Prop :=
  forall e, assistant_entry client_fn e -> E e.

(** [grows messages E C k st st']: from [st] to [st'] the list at
    [messages] got entries appended, each satisfying [E], and nothing else in
    the store changed; at most [k] backend calls were made, each satisfying
    [C]. *)
Definition grows (messages : loc) (E : value -> Prop) (C : chat_call -> Prop) (k : nat)
    (st st' : state W) : Prop :=
  exists es cs,
    heap st' = alter (fun xs => xs ++ es) messages (heap st)
    /\ calls st' = calls st ++ cs
    /\ Forall E es
    /\ Forall C cs
    /\ (length cs <= k)%nat.

(** A computation all of whose runs grow the state. *)
Definition growing {A} (messages : loc) (E : value -> Prop) (C : chat_call -> Prop) (k : nat)
    (m : M W A) : Prop :=
  forall st, grows messages E C k st (m st).2.

(** The arguments every backend call of one invocation carries. *)
Definition sent (model tools options : value) (chat_kwargs : gmap string value)
    (c : chat_call) : Prop :=
  cc_model c = model /\ cc_tools c = tools /\ cc_options c = options
  /\ cc_extra c = chat_kwargs.

(** What a registry that is a dictionary, or no registry at all, holds
    under a name. *)
Definition registry_lookup (tool_map tool_name : value) : value :=
  match tool_map with
  | VDict kvs => match dict_lookup kvs tool_name with Some x => x | None => VNone end
  | _ => VNone
  end.

(** [tool_map] is a dictionary, or was never built. *)
Definition is_registry (tool_map : value) : Prop :=
  tool_map = VNone \/ exists kvs, tool_map = VDict kvs.

(** The state after [entry] has been appended to the transcript. *)
Definition appended (messages : loc) (entry : value) (st : state W) : state W :=
  State (alter (fun xs => xs ++ [entry]) messages (heap st)) (world st) (calls st).

(** A name as requests carry it: a string, or none. *)
Definition plain_name (tool_name : value) : Prop :=
  tool_name = VNone \/ exists s, tool_name = VStr s.

(** The dictionary of lines 109-113, [name] being what [str] writes for
    [tool_name]. *)
Definition not_found_entry (name : string) (tool_name : value) : value :=
  tool_message (VStr ("Tool '" +:+ name +:+ "' not found."))
               (py_or tool_name (VStr "unknown_tool")).

(** Lines 107-115: the tool-not-found message is appended, unless writing
    the name raises. *)
Definition report_missing (messages : loc) (tool_name : value) (st : state W)
  : result unit * state W :=
  match py_str env tool_name with
  | Ret name => (Ret tt, appended messages (not_found_entry name tool_name) st)
  | Raise e => (Raise e, st)
  end.

(** The dictionary of lines 132-136 when the tool raised [e]. *)
Definition failed_entry (name : string) (tool_name : value) (e : exn) : value :=
  tool_message (VStr ("Tool '" +:+ name +:+ "' execution failed: " +:+ exn_msg e)) tool_name.

(** Lines 128-137: the failure [e] is reported in a tool message, unless
    writing the name raises in the handler. *)
Definition report_failure (messages : loc) (tool_name : value) (e : exn) (st : state W)
  : result unit * state W :=
  match py_str env tool_name with
  | Ret name => (Ret tt, appended messages (failed_entry name tool_name e) st)
  | Raise e' => (Raise e', st)
  end.

(** The arguments the tool is invoked with: a text is decoded first. *)
Definition effective_arguments (tool_args : value) : value :=
  if is_str tool_args then decode_arguments env tool_args else tool_args.

(** Lines 125-137 once the callee has answered [r] and left the
    collaborators in [w]. *)
Definition tool_call_outcome (messages : loc) (tool_name : value)
    (r : result value) (w : W) (st : state W) : result unit * state W :=
  let st' := State (heap st) w (calls st) in
  match match r with Ret v => py_str env v | Raise e => Raise e end with
  | Ret content => (Ret tt, appended messages (tool_message (VStr content) tool_name) st')
  | Raise e =>
      if is_Exception e then report_failure messages tool_name e st' else (Raise e, st')
  end.

(** Whatever the state, the backend answers, its message is normalised, and
    the message carries, in its attribute [tool_calls], one request, of a
    name under which [tool_map] holds no callable. *)
Definition asks_one_missing_tool (client_fn : value) (messages : loc)
    (model tools options tool_map : value) (chat_kwargs : gmap string value) : Prop :=
  forall st, exists response st1 msg entry st2 tool_call name,
    call_backend env client_fn messages model tools options chat_kwargs st = (Ret response, st1)
    /\ attr env response "message" st1 = (Ret msg, st1)
    /\ _to_msg_dict env msg st1 = (Ret entry, st2)
    /\ getattr msg "tool_calls" VNone = VList [tool_call]
    /\ (_extract_tool_call_parts tool_call).1 = VStr name
    /\ callable (registry_lookup tool_map (VStr name)) = false.

(** The entries of a transcript made of rounds, each an assistant entry
    followed by a tool entry. *)
Definition interleave (rounds : list (value * value)) : list value :=
  flat_map (fun round => [round.1; round.2]) rounds.

(** A round of a turn whose one requested tool is missing: the normal form
    of the backend's message, then the tool-not-found message. *)
Definition not_found_round (client_fn : value) (round : value * value) : Prop :=
  assistant_entry client_fn round.1
  /\ exists name,
       round.2 = VDict [ (VStr "role", VStr "tool");
                         (VStr "content", VStr ("Tool '" +:+ name +:+ "' not found."));
                         (VStr "tool_name", py_or (VStr name) (VStr "unknown_tool")) ].

(** A response the loop can process: it has a message, the message is
    normalised without an error, and what it requests, if anything, is a
    sequence of calls whose names are strings or absent. *)
Definition well_formed_response (response : value) : Prop :=
  hasattr response "message" = true
  /\ (forall st, exists entry st',
        _to_msg_dict env (getattr response "message" VNone) st = (Ret entry, st'))
  /\ (py_truthy (getattr (getattr response "message" VNone) "tool_calls" VNone) = true ->
      exists tcs,
        py_iter (getattr (getattr response "message" VNone) "tool_calls" VNone) = Some tcs
        /\ Forall (fun tc => plain_name (_extract_tool_call_parts tc).1) tcs).

(** The backend always answers, with a well-formed response. *)
Definition answers_well (client_fn : value) : Prop :=
  forall id attrs kw w,
    client_fn = VObj id true attrs ->
    exists response w', call env id [] kw w = (Ret response, w')
                        /\ well_formed_response response.

(** No callable raises anything but an [Exception], and neither does the
    writing of a value by [str]. *)
Definition exit_free : Prop :=
  (forall id args kw w e w', call env id args kw w = (Raise e, w') -> is_Exception e = true)
  /\ (forall v e, str_compound env v = Raise e -> is_Exception e = true).

(** The loop asks the registry one thing only: what it holds under a
    name. *)
Definition same_lookups (tool_map1 tool_map2 : value) : Prop :=
  forall tool_name st,
    registry_get env tool_map1 tool_name st = registry_get env tool_map2 tool_name st.

(** The entries of an explicit mapping: no key twice. *)
Fixpoint distinct_keys (m : list (value * value)) : Prop :=
  match m with
  | [] => True
  | kv :: m' => dict_lookup m' kv.1 = None /\ distinct_keys m'
  end.

(** Every key is the name line 77 infers for its value, and a name that
    line 78 lets through. *)
Definition keyed_by_inferred_name (m : list (value * value)) : Prop :=
  Forall (fun kv => _infer_tool_name kv.2 = kv.1
                    /\ py_truthy kv.1 = true /\ hashable kv.1 = true) m.

(** The tool a registry filled from [ts] holds under [k]: the last one of
    [ts] with a non-empty inferred name equal to [k]. *)
Fixpoint last_named (ts : list value) (k : value) : option value :=
  match ts with
  | [] => None
  | t :: ts' =>
      match last_named ts' k with
      | Some t' => Some t'
      | None =>
          if py_truthy (_infer_tool_name t) && key_eqb k (_infer_tool_name t)
          then Some t else None
      end
  end.

(** Every tool that gets a name gets a hashable one. *)
Definition names_hashable (ts : list value) : Prop :=
  Forall (fun t => py_truthy (_infer_tool_name t) = true ->
                   hashable (_infer_tool_name t) = true) ts.

(** [e] answers the requested call [tc]: it is a tool message, written
    under the name of the request, or under ["unknown_tool"] in place of an
    empty name. *)
Definition answers (tc e : value) : Prop :=
  exists content,
    e = tool_message (VStr content) (_extract_tool_call_parts tc).1
    \/ e = tool_message (VStr content)
             (py_or (_extract_tool_call_parts tc).1 (VStr "unknown_tool")).

(** What the backend is given, call after call: the first call gets [xs],
    every later one what the one before got and at least one entry more,
    and the transcript ends as [ys], which extends what the last call got. *)
Fixpoint fed (xs : list value) (cs : list chat_call) (ys : list value) : Prop :=
  match cs with
  | [] => exists es, ys = xs ++ es
  | c :: cs' =>
      cc_messages c = xs
      /\ exists es, (cs' <> [] -> es <> []) /\ fed (xs ++ es) cs' ys
  end.

(** * Properties *)

(** ** The checks before the loop *)

Lemma run_model_missing client_fn messages options (kwargs : gmap string value) st :
  kwargs_get kwargs "model" VNone = VNone ->
  run client_fn messages options kwargs st = (Raise (Exn ValueError "model must be specified"), st).
Proof.
  intros Hm. unfold ollama_automatic_function_calling. rewrite Hm. reflexivity.
Qed.

(** Past the checks the function is the loop. *)
Lemma run_checked client_fn messages options (kwargs : gmap string value) tool_map n st :
  is_none (kwargs_get kwargs "model" VNone) = false ->
  init_tool_map env (kwargs_get kwargs "tool_map" VNone) (kwargs_get kwargs "tools" VNone)
    = Ret tool_map ->
  callable client_fn = true ->
  range_len env (kwargs_get kwargs "max_turns" (VInt 20)) st = (Ret n, st) ->
  run client_fn messages options kwargs st =
    (let* last_response :=
       chat_loop env n client_fn messages (kwargs_get kwargs "model" VNone)
         (kwargs_get kwargs "tools" VNone) options tool_map (chat_kwargs_of kwargs) VNone in
     ret (last_response, messages)) st.
Proof.
  intros Hm Ht Hc Hn. unfold ollama_automatic_function_calling.
  rewrite Hm, Ht, Hc. cbn [negb]. unfold bind at 1. unfold lift_result at 1.
  unfold bind at 1. rewrite Hn. reflexivity.
Qed.

Lemma run_not_callable client_fn messages options (kwargs : gmap string value) tool_map st :
  is_none (kwargs_get kwargs "model" VNone) = false ->
  init_tool_map env (kwargs_get kwargs "tool_map" VNone) (kwargs_get kwargs "tools" VNone)
    = Ret tool_map ->
  callable client_fn = false ->
  run client_fn messages options kwargs st =
    (Raise (Exn ValueError "client_fn must be a callable"), st).
Proof.
  intros Hm Ht Hc. unfold ollama_automatic_function_calling.
  rewrite Hm, Ht, Hc. reflexivity.
Qed.

(** Until the loop starts nothing is called and nothing is appended. *)
Lemma run_before_loop client_fn messages options (kwargs : gmap string value) st :
  (exists tool_map n,
      run client_fn messages options kwargs st =
        (let* last_response :=
           chat_loop env n client_fn messages (kwargs_get kwargs "model" VNone)
             (kwargs_get kwargs "tools" VNone) options tool_map (chat_kwargs_of kwargs) VNone in
         ret (last_response, messages)) st
      /\ callable client_fn = true
      /\ range_len env (kwargs_get kwargs "max_turns" (VInt 20)) st = (Ret n, st))
  \/ (exists e, run client_fn messages options kwargs st = (Raise e, st)).
Proof.
  destruct (is_none (kwargs_get kwargs "model" VNone)) eqn:Hm.
  { right. eexists. unfold ollama_automatic_function_calling. rewrite Hm. reflexivity. }
  destruct (init_tool_map env (kwargs_get kwargs "tool_map" VNone)
              (kwargs_get kwargs "tools" VNone)) as [tm|e] eqn:Ht.
  2:{ right. exists e. unfold ollama_automatic_function_calling. rewrite Hm, Ht. reflexivity. }
  destruct (callable client_fn) eqn:Hc.
  2:{ right. eexists. apply (run_not_callable _ _ _ _ tm); assumption. }
  destruct (range_len env (kwargs_get kwargs "max_turns" (VInt 20)) st) as [[n|e] st'] eqn:Hn.
  - assert (st' = st) as ->.
    { unfold range_len in Hn. destruct (kwargs_get kwargs "max_turns" (VInt 20));
        cbv [ret raise_about raise] in Hn; congruence. }
    left. exists tm, n. split; [apply run_checked; assumption|].
    split; first [assumption | reflexivity].
  - assert (st' = st) as ->.
    { unfold range_len in Hn. destruct (kwargs_get kwargs "max_turns" (VInt 20));
        cbv [ret raise_about raise] in Hn; congruence. }
    right. exists e. unfold ollama_automatic_function_calling.
    rewrite Hm, Ht, Hc. cbn [negb]. unfold bind at 1. unfold lift_result at 1.
    unfold bind at 1. rewrite Hn. reflexivity.
Qed.

(** ** What a computation may do to the transcript and to the call log *)

Lemma alter_append_nil (l : loc) (h : gmap loc (list value)) :
  alter (fun xs => xs ++ []) l h = h.
Proof. apply alter_id. intros x _. apply app_nil_r. Qed.

Lemma alter_append_app (l : loc) (es1 es2 : list value) (h : gmap loc (list value)) :
  alter (fun xs => xs ++ es2) l (alter (fun xs => xs ++ es1) l h)
  = alter (fun xs => xs ++ (es1 ++ es2)) l h.
Proof.
  rewrite alter_alter_eq. apply alter_ext. intros x _. cbn. symmetry. apply app_assoc.
Qed.

Lemma grows_refl messages E C st : grows messages E C 0 st st.
Proof.
  exists [], []. rewrite alter_append_nil, app_nil_r. repeat split; auto.
Qed.

Lemma grows_world messages E C st st' :
  heap st' = heap st -> calls st' = calls st -> grows messages E C 0 st st'.
Proof.
  intros Hh Hc. exists [], []. rewrite alter_append_nil, app_nil_r. repeat split; auto.
Qed.

Lemma grows_trans messages E C k1 k2 st1 st2 st3 :
  grows messages E C k1 st1 st2 -> grows messages E C k2 st2 st3 ->
  grows messages E C (k1 + k2) st1 st3.
Proof.
  intros (es1 & cs1 & Hh1 & Hc1 & He1 & HC1 & Hk1) (es2 & cs2 & Hh2 & Hc2 & He2 & HC2 & Hk2).
  exists (es1 ++ es2), (cs1 ++ cs2).
  rewrite Hh2, Hh1, Hc2, Hc1, alter_append_app, <- app_assoc, length_app.
  repeat split; try apply Forall_app; auto. lia.
Qed.

Lemma grows_le messages E C k k' st st' :
  (k <= k')%nat -> grows messages E C k st st' -> grows messages E C k' st st'.
Proof.
  intros Hk (es & cs & Hh & Hc & He & HC & Hl). exists es, cs. repeat split; auto. lia.
Qed.

Lemma growing_ret {A} messages E C (a : A) : growing messages E C 0 (ret a).
Proof. intros st. apply grows_refl. Qed.

Lemma growing_raise {A} messages E C e : growing messages E C 0 (raise e : M W A).
Proof. intros st. apply grows_refl. Qed.

Lemma growing_raise_about {A} messages E C c v :
  growing messages E C 0 (raise_about env c v : M W A).
Proof. intros st. apply grows_refl. Qed.

Lemma growing_bind {A B} messages E C k1 k2 (m : M W A) (f : A -> M W B) :
  growing messages E C k1 m -> (forall a, growing messages E C k2 (f a)) ->
  growing messages E C (k1 + k2) (bind m f).
Proof.
  intros Hm Hf st. unfold bind. specialize (Hm st).
  destruct (m st) as [[a|e] st1]; cbn in *.
  - eapply grows_trans; [exact Hm | apply Hf].
  - eapply grows_le; [|exact Hm]. lia.
Qed.

Lemma growing_try_except {A} messages E C (m : M W A) h :
  growing messages E C 0 m -> (forall e, growing messages E C 0 (h e)) ->
  growing messages E C 0 (try_except m h).
Proof.
  intros Hm Hh st. unfold try_except. specialize (Hm st).
  destruct (m st) as [[a|e] st1]; cbn in *; [exact Hm|].
  destruct (is_Exception e); [|exact Hm].
  change 0%nat with (0 + 0)%nat. eapply grows_trans; [exact Hm | apply Hh].
Qed.

Lemma growing_call_value messages E C f args kw :
  growing messages E C 0 (call_value env f args kw).
Proof.
  intros st. unfold call_value. destruct f; try apply grows_refl.
  destruct call0; [|apply grows_refl].
  destruct (call env id args kw (world st)) as [r w]. cbn. apply grows_world; reflexivity.
Qed.

Lemma growing_append messages (E : value -> Prop) C x :
  E x -> growing messages E C 0 (append messages x).
Proof.
  intros Hx st. exists [x], []. cbn. rewrite app_nil_r. repeat split; auto.
Qed.

Lemma growing_bind_ret {A B} messages E C k1 k2 (m : M W A) (f : A -> M W B) :
  growing messages E C k1 m ->
  (forall a st st', m st = (Ret a, st') -> growing messages E C k2 (f a)) ->
  growing messages E C (k1 + k2) (bind m f).
Proof.
  intros Hm Hf st. unfold bind. specialize (Hm st).
  destruct (m st) as [[a|e] st1] eqn:Hst; cbn in *.
  - eapply grows_trans; [exact Hm | eapply Hf; exact Hst].
  - eapply grows_le; [|exact Hm]. lia.
Qed.

Lemma growing_attr messages E C v a : growing messages E C 0 (attr env v a).
Proof.
  unfold attr. destruct (hasattr v a); [apply growing_ret | apply growing_raise_about].
Qed.

Lemma growing_to_msg_dict messages E C msg : growing messages E C 0 (_to_msg_dict env msg).
Proof.
  unfold _to_msg_dict. destruct (hasattr msg "model_dump"); [apply growing_call_value|].
  destruct (is_dict msg); apply growing_ret.
Qed.

Lemma growing_registry_get messages E C tool_map tool_name :
  growing messages E C 0 (registry_get env tool_map tool_name).
Proof.
  unfold registry_get. destruct (py_truthy tool_map); [|apply growing_ret].
  destruct tool_map; try apply growing_raise_about.
  - destruct (hashable tool_name); [apply growing_ret | apply growing_raise_about].
  - destruct (hasattr _ "get"); [apply growing_call_value | apply growing_raise_about].
Qed.

Lemma growing_lift_result {A} messages E C (r : result A) :
  growing messages E C 0 (lift_result r).
Proof. intros st. apply grows_refl. Qed.

Lemma growing_invoke_tool messages E C tool_name tool_fn tool_args :
  growing messages E C 0 (invoke_tool env tool_name tool_fn tool_args).
Proof.
  unfold invoke_tool. apply growing_try_except.
  - destruct (kwargs_of _); [|apply growing_raise_about].
    apply (growing_bind _ _ _ 0 0); [apply growing_call_value|].
    intros r. apply growing_lift_result.
  - intros e. apply (growing_bind _ _ _ 0 0); [apply growing_lift_result|].
    intros name. apply growing_ret.
Qed.

Lemma tool_message_entry content tool_name : tool_entry (tool_message (VStr content) tool_name).
Proof. exists content, tool_name. reflexivity. Qed.

Lemma growing_handle_tool_call messages E C tool_map tool_call :
  of_tools E -> growing messages E C 0 (handle_tool_call env messages tool_map tool_call).
Proof.
  intros HT.
  unfold handle_tool_call. destruct (_extract_tool_call_parts tool_call) as [tool_name tool_args].
  apply (growing_bind _ _ _ 0 0); [apply growing_registry_get|]. intros tool_fn.
  destruct (negb (callable tool_fn)).
  - apply (growing_bind _ _ _ 0 0); [apply growing_lift_result|]. intros name.
    apply growing_append, HT, tool_message_entry.
  - apply (growing_bind _ _ _ 0 0); [apply growing_invoke_tool|]. intros content.
    apply growing_append, HT, tool_message_entry.
Qed.

Lemma growing_run_tool_calls messages E C tool_map tool_calls :
  of_tools E -> growing messages E C 0 (run_tool_calls env messages tool_map tool_calls).
Proof.
  intros HT. induction tool_calls as [|tool_call rest IH]; cbn [run_tool_calls].
  - apply growing_ret.
  - apply (growing_bind _ _ _ 0 0); [apply growing_handle_tool_call, HT | intros _; exact IH].
Qed.

Lemma call_backend_returns client_fn messages model tools options chat_kwargs st response st' :
  call_backend env client_fn messages model tools options chat_kwargs st = (Ret response, st') ->
  backend_returns client_fn response.
Proof.
  unfold call_backend. destruct client_fn; try (cbv [raise_about raise]; discriminate).
  destruct call0; [|cbv [raise_about raise]; discriminate].
  destruct (call env id [] _ (world st)) as [r w] eqn:Hcall. intros [= -> _].
  eexists id, attrs, _, _, _. split; [reflexivity | exact Hcall].
Qed.

Lemma growing_call_backend messages E client_fn model tools options chat_kwargs :
  growing messages E (sent model tools options chat_kwargs) 1
    (call_backend env client_fn messages model tools options chat_kwargs).
Proof.
  intros st. unfold call_backend. destruct client_fn;
    try (eapply grows_le; [|apply grows_refl]; lia).
  destruct call0; [|eapply grows_le; [|apply grows_refl]; lia].
  destruct (call env id [] _ (world st)) as [r w] eqn:Hcall. cbn.
  eexists [], [_]. cbn. rewrite alter_append_nil.
  repeat split; auto. repeat constructor.
Qed.

Lemma growing_chat_turn messages E client_fn model tools options tool_map chat_kwargs :
  of_tools E -> of_backend client_fn E ->
  growing messages E (sent model tools options chat_kwargs) 1
    (chat_turn env client_fn messages model tools options tool_map chat_kwargs).
Proof.
  intros HT HB. unfold chat_turn.
  apply (growing_bind_ret _ _ _ 1 0); [apply growing_call_backend|].
  intros response st0 st0' Hresponse. apply call_backend_returns in Hresponse.
  apply (growing_bind_ret _ _ _ 0 0); [apply growing_attr|].
  intros assistant_msg st1 st1' Hattr.
  assert (Hmsg : assistant_msg = getattr response "message" VNone).
  { unfold attr in Hattr. destruct (hasattr response "message");
      cbv [ret raise_about raise] in Hattr; congruence. }
  apply (growing_bind_ret _ _ _ 0 0); [apply growing_to_msg_dict|]. intros entry st st' Hentry.
  apply (growing_bind _ _ _ 0 0).
  { apply growing_append, HB. exists response, st, st'. rewrite <- Hmsg. auto. }
  intros _. destruct (negb (py_truthy _)); [apply growing_ret|].
  destruct (py_iter _); [|apply growing_raise_about].
  apply (growing_bind _ _ _ 0 0); [apply growing_run_tool_calls, HT | intros _; apply growing_ret].
Qed.

Lemma growing_chat_loop n messages E client_fn model tools options tool_map chat_kwargs last :
  of_tools E -> of_backend client_fn E ->
  growing messages E (sent model tools options chat_kwargs) n
    (chat_loop env n client_fn messages model tools options tool_map chat_kwargs last).
Proof.
  intros HT HB. revert last. induction n as [|n IH]; intros last; cbn [chat_loop].
  - apply growing_ret.
  - apply (growing_bind _ _ _ 1 n); [apply growing_chat_turn; assumption|]. intros turn.
    destruct (turn.2); [|apply IH].
    intros st. eapply grows_le; [|apply grows_refl]. lia.
Qed.

Lemma range_len_pure max_turns st r st' :
  range_len env max_turns st = (r, st') -> st' = st.
Proof.
  unfold range_len. destruct max_turns; cbv [ret raise_about raise]; congruence.
Qed.

Lemma range_len_int z st n st' :
  range_len env (VInt z) st = (Ret n, st') -> n = Z.to_nat z.
Proof. cbv [range_len ret]. congruence. Qed.

(** The whole function: at most [len(range(max_turns))] backend calls, all
    with the same arguments, and a transcript that only grows. *)
Lemma run_grows (E : value -> Prop) client_fn messages options (kwargs : gmap string value) st :
  of_tools E -> of_backend client_fn E ->
  exists n,
    (forall z, kwargs_get kwargs "max_turns" (VInt 20) = VInt z -> (n <= Z.to_nat z)%nat)
    /\ grows messages E
         (sent (kwargs_get kwargs "model" VNone) (kwargs_get kwargs "tools" VNone) options
               (chat_kwargs_of kwargs))
         n st (run client_fn messages options kwargs st).2.
Proof.
  intros HT HB.
  destruct (run_before_loop client_fn messages options kwargs st)
    as [(tm & n & Hrun & _ & Hn) | (e & Hrun)].
  - exists n. split.
    + intros z Hz. rewrite Hz in Hn. apply range_len_int in Hn. lia.
    + rewrite Hrun. replace n with (n + 0)%nat at 1 by lia.
      apply (growing_bind _ _ _ n 0);
        [apply growing_chat_loop; assumption | intros a; apply growing_ret].
  - exists 0%nat. split; [intros; lia|]. rewrite Hrun. apply grows_refl.
Qed.

(** The calls of an invocation, whatever is appended. *)
Lemma run_calls client_fn messages options (kwargs : gmap string value) st :
  exists n cs,
    (forall z, kwargs_get kwargs "max_turns" (VInt 20) = VInt z -> (n <= Z.to_nat z)%nat)
    /\ calls (run client_fn messages options kwargs st).2 = calls st ++ cs
    /\ Forall (sent (kwargs_get kwargs "model" VNone) (kwargs_get kwargs "tools" VNone) options
                    (chat_kwargs_of kwargs)) cs
    /\ (length cs <= n)%nat.
Proof.
  destruct (run_grows (fun _ => True) client_fn messages options kwargs st)
    as (n & Hn & es & cs & _ & Hc & _ & Hsent & Hlen); [intros e _; exact I ..|].
  exists n, cs. auto.
Qed.

(** The function hands back the reference it was given. *)
Lemma run_returns_messages client_fn messages options (kwargs : gmap string value) st r :
  (run client_fn messages options kwargs st).1 = Ret r -> r.2 = messages.
Proof.
  destruct (run_before_loop client_fn messages options kwargs st)
    as [(tm & n & Hrun & _ & _) | (e & Hrun)]; rewrite Hrun; [|discriminate].
  unfold bind. destruct (chat_loop _ _ _ _ _ _ _ _ _ _ _) as [[a|e] st1]; cbn; [|discriminate].
  intros [= <-]. reflexivity.
Qed.

(** ** One turn *)

Lemma call_value_state f args kw st r st' :
  call_value env f args kw st = (r, st') -> heap st' = heap st /\ calls st' = calls st.
Proof.
  unfold call_value. destruct f; try (cbv [raise_about raise]; intros [= _ <-]; auto).
  destruct call0; [|cbv [raise_about raise]; intros [= _ <-]; auto].
  destruct (call env id args kw (world st)) as [r' w]. intros [= _ <-]. auto.
Qed.

Lemma to_msg_dict_state msg st r st' :
  _to_msg_dict env msg st = (r, st') -> heap st' = heap st /\ calls st' = calls st.
Proof.
  unfold _to_msg_dict. destruct (hasattr msg "model_dump"); [apply call_value_state|].
  destruct (is_dict msg); cbv [ret]; intros [= _ <-]; auto.
Qed.

Lemma call_backend_state client_fn messages model tools options chat_kwargs st r st' :
  call_backend env client_fn messages model tools options chat_kwargs st = (r, st') ->
  heap st' = heap st
  /\ (callable client_fn = true ->
      calls st' = calls st ++ [ChatCall model tools (default [] (heap st !! messages))
                                        options chat_kwargs]).
Proof.
  unfold call_backend. destruct client_fn;
    try (cbv [raise_about raise]; intros [= _ <-]; split; [reflexivity | discriminate]).
  destruct call0; [|cbv [raise_about raise]; intros [= _ <-]; split; [reflexivity | discriminate]].
  destruct (call env id [] _ (world st)) as [r' w]. intros [= _ <-]. auto.
Qed.

Lemma call_backend_callable client_fn messages model tools options chat_kwargs st a st' :
  call_backend env client_fn messages model tools options chat_kwargs st = (Ret a, st') ->
  callable client_fn = true.
Proof.
  unfold call_backend. destruct client_fn; try (cbv [raise_about raise]; discriminate).
  destruct call0; [reflexivity | cbv [raise_about raise]; discriminate].
Qed.

(** A turn whose assistant message asks for no tool ends the function. *)
Lemma chat_turn_final client_fn messages model tools options tool_map chat_kwargs
    st response st1 msg entry st2 :
  call_backend env client_fn messages model tools options chat_kwargs st = (Ret response, st1) ->
  attr env response "message" st1 = (Ret msg, st1) ->
  _to_msg_dict env msg st1 = (Ret entry, st2) ->
  py_truthy (getattr msg "tool_calls" VNone) = false ->
  chat_turn env client_fn messages model tools options tool_map chat_kwargs st
  = (Ret (response, true),
     State (alter (fun xs => xs ++ [entry]) messages (heap st2)) (world st2) (calls st2)).
Proof.
  intros Hb Ha Hd Ht. unfold chat_turn.
  unfold bind at 1. rewrite Hb. unfold bind at 1. rewrite Ha.
  unfold bind at 1. rewrite Hd. unfold bind at 1. unfold append at 1.
  unfold py_or. rewrite Ht. reflexivity.
Qed.

(** ** The claims *)

(** C2.  With [max_turns = N] one invocation makes at most [N] backend
    calls (none when [N] is negative).  When the first response carries no
    tool-call request, and its message is normalised to [entry], the function
    returns [(response, messages)] at once: one backend call has been made
    and the transcript has grown by [entry] alone. *)
Theorem turn_budget_and_immediate_return
    client_fn messages options (kwargs : gmap string value) st N :
  kwargs_get kwargs "max_turns" (VInt 20) = VInt N ->
  let out := run client_fn messages options kwargs st in
  let model := kwargs_get kwargs "model" VNone in
  let tools := kwargs_get kwargs "tools" VNone in
  (exists cs, calls out.2 = calls st ++ cs /\ (Z.of_nat (length cs) <= Z.max 0 N)%Z)
  /\ (forall tool_map response st1 msg entry st2,
        is_none model = false ->
        init_tool_map env (kwargs_get kwargs "tool_map" VNone) tools = Ret tool_map ->
        (0 < N)%Z ->
        call_backend env client_fn messages model tools options (chat_kwargs_of kwargs) st
          = (Ret response, st1) ->
        attr env response "message" st1 = (Ret msg, st1) ->
        _to_msg_dict env msg st1 = (Ret entry, st2) ->
        py_truthy (getattr msg "tool_calls" VNone) = false ->
        out.1 = Ret (response, messages)
        /\ calls out.2 =
             calls st ++ [ChatCall model tools (default [] (heap st !! messages)) options
                                   (chat_kwargs_of kwargs)]
        /\ heap out.2 = alter (fun xs => xs ++ [entry]) messages (heap st)).
Proof.
  intros HN out model tools. split.
  - destruct (run_calls client_fn messages options kwargs st)
      as (n & cs & Hn & Hc & _ & Hlen).
    exists cs. split; [exact Hc|]. specialize (Hn N HN). lia.
  - intros tool_map response st1 msg entry st2 Hm Ht Hpos Hb Ha Hd Hno.
    pose proof (call_backend_callable _ _ _ _ _ _ _ _ _ Hb) as Hcall.
    destruct (call_backend_state _ _ _ _ _ _ _ _ _ Hb) as [Hh1 Hc1].
    destruct (to_msg_dict_state _ _ _ _ Hd) as [Hh2 Hc2].
    assert (Hrun : out = (Ret (response, messages),
              State (alter (fun xs => xs ++ [entry]) messages (heap st2))
                    (world st2) (calls st2))).
    { unfold out. rewrite (run_checked _ _ _ _ tool_map (Z.to_nat N)); try assumption.
      2:{ rewrite HN. reflexivity. }
      destruct (Z.to_nat N) as [|n'] eqn:HnN; [lia|]. cbn [chat_loop].
      unfold bind at 1. unfold bind at 1.
      fold model tools.
      rewrite (chat_turn_final _ _ _ _ _ _ _ _ _ _ _ _ _ Hb Ha Hd Hno). reflexivity. }
    rewrite Hrun. cbn. rewrite Hh2, Hh1, Hc2, (Hc1 Hcall). auto.
Qed.

Lemma reserved_spec (k : string) :
  k ∈ reserved <->
  k = "model" \/ k = "tools" \/ k = "messages" \/ k = "options"
  \/ k = "max_turns" \/ k = "tool_map".
Proof. unfold reserved. rewrite !elem_of_union, !elem_of_singleton. tauto. Qed.

Lemma chat_kwargs_lookup (kwargs : gmap string value) k v :
  chat_kwargs_of kwargs !! k = Some v <-> kwargs !! k = Some v /\ k ∉ reserved.
Proof. unfold chat_kwargs_of. apply map_lookup_filter_Some. Qed.

(** In the keyword arguments of a backend call, every name but the four
    the call expression writes comes from the extras. *)
Lemma call_kwargs_extra c (k : string) :
  k <> "model" -> k <> "tools" -> k <> "messages" -> k <> "options" ->
  call_kwargs c !! k = cc_extra c !! k.
Proof.
  intros H1 H2 H3 H4. unfold call_kwargs.
  rewrite !lookup_insert_ne by congruence. reflexivity.
Qed.

(** C10.  With [max_turns] zero or negative the function calls no one and
    changes nothing: the state it leaves is the state it found, transcript
    included.  Once the checks before the loop are passed it returns
    [(None, messages)]. *)
Theorem no_turn_returns_none
    client_fn messages options (kwargs : gmap string value) st N :
  kwargs_get kwargs "max_turns" (VInt 20) = VInt N ->
  (N <= 0)%Z ->
  let out := run client_fn messages options kwargs st in
  out.2 = st
  /\ (forall r, out.1 = Ret r -> r = (VNone, messages))
  /\ (forall tool_map,
        is_none (kwargs_get kwargs "model" VNone) = false ->
        init_tool_map env (kwargs_get kwargs "tool_map" VNone)
          (kwargs_get kwargs "tools" VNone) = Ret tool_map ->
        callable client_fn = true ->
        out.1 = Ret (VNone, messages)).
Proof.
  intros HN Hle out.
  assert (Hloop : forall tool_map,
    (let* last_response :=
       chat_loop env (Z.to_nat N) client_fn messages (kwargs_get kwargs "model" VNone)
         (kwargs_get kwargs "tools" VNone) options tool_map (chat_kwargs_of kwargs) VNone in
     ret (last_response, messages)) st = (Ret (VNone, messages), st)).
  { intros tool_map. replace (Z.to_nat N) with 0%nat by lia. reflexivity. }
  split; [|split].
  - unfold out. destruct (run_before_loop client_fn messages options kwargs st)
      as [(tm & n & Hrun & _ & Hn) | (e & Hrun)]; rewrite Hrun; [|reflexivity].
    rewrite HN in Hn. apply range_len_int in Hn. subst n. rewrite Hloop. reflexivity.
  - intros r. unfold out.
    destruct (run_before_loop client_fn messages options kwargs st)
      as [(tm & n & Hrun & _ & Hn) | (e & Hrun)]; rewrite Hrun; [|discriminate].
    rewrite HN in Hn. apply range_len_int in Hn. subst n. rewrite Hloop. cbn. congruence.
  - intros tool_map Hm Ht Hc. unfold out.
    rewrite (run_checked _ _ _ _ tool_map (Z.to_nat N)); try assumption.
    + rewrite Hloop. reflexivity.
    + rewrite HN. reflexivity.
Qed.

(** ** One requested call *)

Lemma registry_get_lookup tool_map tool_name st :
  is_registry tool_map -> hashable tool_name = true ->
  registry_get env tool_map tool_name st = (Ret (registry_lookup tool_map tool_name), st).
Proof.
  intros [-> | [kvs ->]] Hh; [reflexivity|].
  unfold registry_get, registry_lookup. destruct kvs as [|kv kvs]; [reflexivity|].
  cbn [py_truthy]. rewrite Hh. reflexivity.
Qed.

Lemma handle_tool_call_missing messages tool_map tool_call tool_name tool_args st tool_fn st1 :
  _extract_tool_call_parts tool_call = (tool_name, tool_args) ->
  registry_get env tool_map tool_name st = (Ret tool_fn, st1) ->
  callable tool_fn = false ->
  handle_tool_call env messages tool_map tool_call st = report_missing messages tool_name st1.
Proof.
  intros Hx Hg Hc. unfold handle_tool_call, report_missing. rewrite Hx.
  unfold bind at 1. rewrite Hg, Hc. cbn [negb]. unfold bind, lift_result.
  destruct (py_str env tool_name); reflexivity.
Qed.

(** [str] writes a string as it is, and [None] for no name. *)
Lemma py_str_plain tool_name :
  plain_name tool_name ->
  py_str env tool_name = Ret (match tool_name with VStr s => s | _ => "None" end).
Proof. intros [-> | [s ->]]; reflexivity. Qed.

Lemma plain_name_hashable tool_name : plain_name tool_name -> hashable tool_name = true.
Proof. intros [-> | [s ->]]; reflexivity. Qed.

Lemma run_tool_calls_cons messages tool_map tool_call rest st st' :
  handle_tool_call env messages tool_map tool_call st = (Ret tt, st') ->
  run_tool_calls env messages tool_map (tool_call :: rest) st
  = run_tool_calls env messages tool_map rest st'.
Proof. intros H. cbn [run_tool_calls]. unfold bind at 1. rewrite H. reflexivity. Qed.

(** C5 (as amended).  A requested call whose name, a string or none, finds
    no callable in the registry, be the registry a dictionary or never
    built, gets the tool message whose content is
    ["Tool '<name>' not found."], with [None] for the name when there is
    none, and whose [tool_name] is the name, or ["unknown_tool"] when the
    name is absent or empty.  Nothing is raised and the next requested call
    of the turn is processed. *)
Theorem tool_not_found_message
    messages tool_map tool_call rest tool_name tool_args st :
  _extract_tool_call_parts tool_call = (tool_name, tool_args) ->
  is_registry tool_map ->
  plain_name tool_name ->
  callable (registry_lookup tool_map tool_name) = false ->
  exists content field,
    let st' := appended messages
                 (VDict [ (VStr "role", VStr "tool");
                          (VStr "content", VStr content);
                          (VStr "tool_name", field) ]) st in
    handle_tool_call env messages tool_map tool_call st = (Ret tt, st')
    /\ run_tool_calls env messages tool_map (tool_call :: rest) st
       = run_tool_calls env messages tool_map rest st'
    /\ (tool_name = VNone ->
        content = "Tool 'None' not found." /\ field = VStr "unknown_tool")
    /\ (tool_name = VStr "" ->
        content = "Tool '' not found." /\ field = VStr "unknown_tool")
    /\ (forall s, tool_name = VStr s -> s <> "" ->
        content = "Tool '" +:+ s +:+ "' not found." /\ field = VStr s).
Proof.
  intros Hx Hr Hp Hc.
  exists ("Tool '" +:+ match tool_name with VStr s => s | _ => "None" end +:+ "' not found."),
         (py_or tool_name (VStr "unknown_tool")).
  intros st'.
  assert (Hstep : handle_tool_call env messages tool_map tool_call st = (Ret tt, st')).
  { rewrite (handle_tool_call_missing messages tool_map tool_call tool_name tool_args st
               (registry_lookup tool_map tool_name) st Hx
               (registry_get_lookup _ _ _ Hr (plain_name_hashable _ Hp)) Hc).
    unfold report_missing. rewrite (py_str_plain _ Hp). reflexivity. }
  split; [exact Hstep|]. split; [apply run_tool_calls_cons, Hstep|].
  split; [intros ->; split; reflexivity|]. split; [intros ->; split; reflexivity|].
  intros s -> Hs. split; [reflexivity|]. unfold py_or. cbn [py_truthy].
  destruct (String.eqb_spec s ""); [contradiction | reflexivity].
Qed.

Lemma resolve_callable_callable fn :
  callable fn = true -> callable (_resolve_callable fn) = true.
Proof.
  intros H. unfold _resolve_callable.
  destruct (callable (getattr fn "__wrapped__" VNone)) eqn:E; assumption.
Qed.

Lemma callable_inv v : callable v = true -> exists id attrs, v = VObj id true attrs.
Proof. destruct v; try discriminate. cbn. intros ->. eauto. Qed.

Lemma handle_tool_call_found
    messages tool_map tool_call tool_name tool_args st tool_fn st1 kw id attrs :
  _extract_tool_call_parts tool_call = (tool_name, tool_args) ->
  registry_get env tool_map tool_name st = (Ret tool_fn, st1) ->
  callable tool_fn = true ->
  _resolve_callable tool_fn = VObj id true attrs ->
  kwargs_of (py_or (effective_arguments tool_args) (VDict [])) = Some kw ->
  handle_tool_call env messages tool_map tool_call st
  = tool_call_outcome messages tool_name
      (call env id [] kw (world st1)).1 (call env id [] kw (world st1)).2 st1.
Proof.
  intros Hx Hg Hc Hr Hk. unfold handle_tool_call. rewrite Hx.
  unfold bind at 1. rewrite Hg, Hc. cbn [negb].
  unfold bind at 1. unfold invoke_tool, try_except. fold (effective_arguments tool_args).
  rewrite Hk, Hr. unfold bind at 1. unfold call_value.
  unfold tool_call_outcome, report_failure.
  destruct (call env id [] kw (world st1)) as [[v|e] w]; cbn [fst snd].
  - unfold lift_result at 1. destruct (py_str env v) as [content|e]; [reflexivity|].
    destruct (is_Exception e); [|reflexivity].
    unfold bind, lift_result. destruct (py_str env tool_name); reflexivity.
  - destruct (is_Exception e); [|reflexivity].
    unfold bind, lift_result. destruct (py_str env tool_name); reflexivity.
Qed.

(** Arguments that are no mapping: the [TypeError] of the call is caught
    like any failure of the tool. *)
Lemma handle_tool_call_bad_arguments
    messages tool_map tool_call tool_name tool_args st tool_fn st1 :
  _extract_tool_call_parts tool_call = (tool_name, tool_args) ->
  registry_get env tool_map tool_name st = (Ret tool_fn, st1) ->
  callable tool_fn = true ->
  kwargs_of (py_or (effective_arguments tool_args) (VDict [])) = None ->
  handle_tool_call env messages tool_map tool_call st
  = report_failure messages tool_name
      (Exn TypeError (errtext env TypeError (effective_arguments tool_args))) st1.
Proof.
  intros Hx Hg Hc Hk. unfold handle_tool_call. rewrite Hx.
  unfold bind at 1. rewrite Hg, Hc. cbn [negb].
  unfold bind at 1. unfold invoke_tool, try_except. fold (effective_arguments tool_args).
  rewrite Hk. unfold raise_about, raise. cbn [is_Exception exn_cls].
  unfold report_failure, bind, lift_result. destruct (py_str env tool_name); reflexivity.
Qed.

(** C1 (as amended).  The registry entry [tool_fn] found under the name is
    callable and is invoked, through [_resolve_callable], with the keyword
    arguments [kw]; [name] is the name as [str] writes it, a string name
    being written as it is.  If the call returns [v] and [str] writes [v]
    as [content], the entry [{role: tool, content, tool_name}] is appended.
    If the call raises an exception [e] that derives from [Exception], or
    returns a value that [str] cannot write and raises such an [e] about,
    the entry whose content is ["Tool '<name>' execution failed: <str(e)>"]
    is appended.  In these cases nothing is raised and the remaining calls of
    the turn are processed.  An exception that does not derive from
    [Exception], raised by the call or by [str] about its result, is not
    caught.  What [str] raises about an integer derives from [Exception]. *)
Theorem tool_failure_isolated
    messages tool_map tool_call rest tool_name tool_args st tool_fn st1 kw id attrs name :
  _extract_tool_call_parts tool_call = (tool_name, tool_args) ->
  registry_get env tool_map tool_name st = (Ret tool_fn, st1) ->
  callable tool_fn = true ->
  _resolve_callable tool_fn = VObj id true attrs ->
  kwargs_of (py_or (effective_arguments tool_args) (VDict [])) = Some kw ->
  py_str env tool_name = Ret name ->
  let failed := fun (e : exn) (w : W) =>
    appended messages
      (VDict [ (VStr "role", VStr "tool");
               (VStr "content",
                VStr ("Tool '" +:+ name +:+ "' execution failed: " +:+ exn_msg e));
               (VStr "tool_name", tool_name) ])
      (State (heap st1) w (calls st1)) in
  (forall v w content,
     call env id [] kw (world st1) = (Ret v, w) ->
     py_str env v = Ret content ->
     let st' := appended messages
                  (VDict [ (VStr "role", VStr "tool");
                           (VStr "content", VStr content);
                           (VStr "tool_name", tool_name) ])
                  (State (heap st1) w (calls st1)) in
     handle_tool_call env messages tool_map tool_call st = (Ret tt, st')
     /\ run_tool_calls env messages tool_map (tool_call :: rest) st
        = run_tool_calls env messages tool_map rest st')
  /\ (forall e w,
     call env id [] kw (world st1) = (Raise e, w) ->
     is_Exception e = true ->
     handle_tool_call env messages tool_map tool_call st = (Ret tt, failed e w)
     /\ run_tool_calls env messages tool_map (tool_call :: rest) st
        = run_tool_calls env messages tool_map rest (failed e w))
  /\ (forall v w e,
     call env id [] kw (world st1) = (Ret v, w) ->
     py_str env v = Raise e ->
     is_Exception e = true ->
     handle_tool_call env messages tool_map tool_call st = (Ret tt, failed e w)
     /\ run_tool_calls env messages tool_map (tool_call :: rest) st
        = run_tool_calls env messages tool_map rest (failed e w))
  /\ (forall e w,
     call env id [] kw (world st1) = (Raise e, w) ->
     is_Exception e = false ->
     handle_tool_call env messages tool_map tool_call st
     = (Raise e, State (heap st1) w (calls st1)))
  /\ (forall v w e,
     call env id [] kw (world st1) = (Ret v, w) ->
     py_str env v = Raise e ->
     is_Exception e = false ->
     handle_tool_call env messages tool_map tool_call st
     = (Raise e, State (heap st1) w (calls st1)))
  /\ (forall s, py_str env (VStr s) = Ret s)
  /\ (forall n e, py_str env (VInt n) = Raise e -> is_Exception e = true).
Proof.
  intros Hx Hg Hc Hr Hk Hname failed.
  pose proof (handle_tool_call_found messages _ _ _ _ _ _ _ _ _ _ Hx Hg Hc Hr Hk) as Hstep.
  unfold tool_call_outcome, report_failure in Hstep. rewrite Hname in Hstep.
  split; [|split; [|split; [|split; [|split; [|split]]]]].
  - intros v w content Hcall Hv st'. rewrite Hcall in Hstep. cbn [fst snd] in Hstep.
    rewrite Hv in Hstep. split; [exact Hstep | apply run_tool_calls_cons, Hstep].
  - intros e w Hcall He. rewrite Hcall in Hstep. cbn [fst snd] in Hstep. rewrite He in Hstep.
    split; [exact Hstep | apply run_tool_calls_cons, Hstep].
  - intros v w e Hcall Hv He. rewrite Hcall in Hstep. cbn [fst snd] in Hstep.
    rewrite Hv, He in Hstep. split; [exact Hstep | apply run_tool_calls_cons, Hstep].
  - intros e w Hcall He. rewrite Hcall in Hstep. cbn [fst snd] in Hstep. rewrite He in Hstep.
    exact Hstep.
  - intros v w e Hcall Hv He. rewrite Hcall in Hstep. cbn [fst snd] in Hstep.
    rewrite Hv, He in Hstep. exact Hstep.
  - reflexivity.
  - intros n e. cbn [py_str]. destruct (_ && _)%bool; [|discriminate].
    intros [= <-]. reflexivity.
Qed.

(** C6.  Arguments that arrive as a text are decoded before the tool is
    invoked, to whatever value the decoder gives.  When the text decodes to
    a mapping, the call goes on exactly as with that mapping as keyword
    arguments; when decoding fails, it goes on exactly as with no argument
    at all: the decode error is not raised and leaves no trace.  On the two
    texts of the specification the decoder
    of the JSON fragment gives the mapping [{a: 1, b: 2}] and the empty
    mapping. *)
Theorem textual_arguments_decoded
    messages tool_map tool_call tool_name text st tool_fn st1 id attrs :
  _extract_tool_call_parts tool_call = (tool_name, VStr text) ->
  registry_get env tool_map tool_name st = (Ret tool_fn, st1) ->
  callable tool_fn = true ->
  _resolve_callable tool_fn = VObj id true attrs ->
  (forall kvs kw,
      json_loads env text = Some (VDict kvs) -> kwargs_of (VDict kvs) = Some kw ->
      effective_arguments (VStr text) = VDict kvs
      /\ handle_tool_call env messages tool_map tool_call st
         = tool_call_outcome messages tool_name
             (call env id [] kw (world st1)).1 (call env id [] kw (world st1)).2 st1)
  /\ (json_loads env text = None ->
      effective_arguments (VStr text) = VDict []
      /\ handle_tool_call env messages tool_map tool_call st
         = tool_call_outcome messages tool_name
             (call env id [] ∅ (world st1)).1 (call env id [] ∅ (world st1)).2 st1)
  /\ (forall v, json_loads env text = Some v -> effective_arguments (VStr text) = v)
  /\ decode_arguments (Demo.scripted []) (VStr text_a1_b2)
     = VDict [(VStr "a", VInt 1); (VStr "b", VInt 2)]
  /\ decode_arguments (Demo.scripted []) (VStr "not json") = VDict [].
Proof.
  intros Hx Hg Hc Hr. split; [|split; [|split; [|split]]].
  - intros kvs kw Hj Hk.
    assert (He : effective_arguments (VStr text) = VDict kvs).
    { unfold effective_arguments, decode_arguments. cbn [is_str]. rewrite Hj. reflexivity. }
    split; [exact He|].
    eapply handle_tool_call_found; try eassumption.
    rewrite He. unfold py_or. destruct kvs; [|exact Hk].
    cbn in Hk |- *. exact Hk.
  - intros Hj.
    assert (He : effective_arguments (VStr text) = VDict []).
    { unfold effective_arguments, decode_arguments. cbn [is_str]. rewrite Hj. reflexivity. }
    split; [exact He|].
    eapply handle_tool_call_found; try eassumption.
    rewrite He. reflexivity.
  - intros v Hj. unfold effective_arguments, decode_arguments. cbn [is_str].
    rewrite Hj. reflexivity.
  - vm_compute. reflexivity.
  - vm_compute. reflexivity.
Qed.

(** ** A backend that keeps asking for a tool nobody registered *)

Lemma chat_turn_missing client_fn messages model tools options tool_map chat_kwargs :
  is_registry tool_map ->
  asks_one_missing_tool client_fn messages model tools options tool_map chat_kwargs ->
  forall st, exists response round st',
    chat_turn env client_fn messages model tools options tool_map chat_kwargs st
      = (Ret (response, false), st')
    /\ not_found_round client_fn round
    /\ heap st' = alter (fun xs => xs ++ [round.1; round.2]) messages (heap st)
    /\ length (calls st') = S (length (calls st))
    /\ (exists st1,
          call_backend env client_fn messages model tools options chat_kwargs st
          = (Ret response, st1)).
Proof.
  intros Hreg Hask st.
  destruct (Hask st)
    as (response & st1 & msg & entry & st2 & tc & name & Hb & Ha & Hd & Htc & Hn & Hc).
  destruct (_extract_tool_call_parts tc) as [name' args] eqn:Hx. cbn [fst] in Hn. subst name'.
  destruct (call_backend_state _ _ _ _ _ _ _ _ _ Hb) as [Hh1 Hc1].
  destruct (to_msg_dict_state _ _ _ _ Hd) as [Hh2 Hc2].
  pose proof (call_backend_callable _ _ _ _ _ _ _ _ _ Hb) as Hcall.
  assert (Hmsg : msg = getattr response "message" VNone).
  { unfold attr in Ha. destruct (hasattr response "message");
      cbv [ret raise_about raise] in Ha; congruence. }
  exists response, (entry, not_found_entry name (VStr name)).
  eexists. split; [|split; [|split; [|split]]]; [| | | |exists st1; exact Hb].
  - unfold chat_turn.
    unfold bind at 1. rewrite Hb. unfold bind at 1. rewrite Ha.
    unfold bind at 1. rewrite Hd. unfold bind at 1. unfold append at 1.
    rewrite Htc. cbn [py_or py_truthy negb py_iter].
    unfold bind at 1. cbn [run_tool_calls]. unfold bind at 1.
    rewrite (handle_tool_call_missing messages tool_map tc (VStr name) args _
               (registry_lookup tool_map (VStr name)) _ Hx
               (registry_get_lookup tool_map (VStr name) _ Hreg eq_refl) Hc).
    reflexivity.
  - split; [|exists name; reflexivity].
    exists response, st1, st2. split; [|rewrite <- Hmsg; exact Hd].
    eapply call_backend_returns, Hb.
  - cbn. rewrite alter_alter_eq, Hh2, Hh1. apply alter_ext. intros xs _. cbn.
    rewrite <- app_assoc. reflexivity.
  - cbn. rewrite Hc2, (Hc1 Hcall), length_app. cbn. lia.
Qed.

Lemma chat_loop_missing client_fn messages model tools options tool_map chat_kwargs :
  is_registry tool_map ->
  asks_one_missing_tool client_fn messages model tools options tool_map chat_kwargs ->
  forall n last st, exists last' rounds st',
    chat_loop env n client_fn messages model tools options tool_map chat_kwargs last st
      = (Ret last', st')
    /\ length rounds = n
    /\ Forall (not_found_round client_fn) rounds
    /\ heap st' = alter (fun xs => xs ++ interleave rounds) messages (heap st)
    /\ length (calls st') = (length (calls st) + n)%nat
    /\ (n = 0%nat -> last' = last)
    /\ ((0 < n)%nat -> exists st0 st1,
          call_backend env client_fn messages model tools options chat_kwargs st0
          = (Ret last', st1)).
Proof.
  intros Hreg Hask n. induction n as [|n IH]; intros last st.
  - exists last, [], st. cbn. rewrite alter_append_nil.
    repeat split; auto. lia.
  - destruct (chat_turn_missing _ _ _ _ _ _ _ Hreg Hask st)
      as (response & round & st1 & Hturn & Hround & Hh1 & Hc1 & Hresp).
    destruct (IH response st1)
      as (last' & rounds & st2 & Hloop & Hlen & Hall & Hh2 & Hc2 & Hzero & Hlater).
    exists last', (round :: rounds), st2. split; [|split; [|split; [|split; [|split; [|split]]]]].
    + cbn [chat_loop]. unfold bind at 1. rewrite Hturn. cbn [fst snd]. exact Hloop.
    + cbn. lia.
    + constructor; assumption.
    + rewrite Hh2, Hh1, alter_alter_eq. apply alter_ext. intros xs _. cbn.
      rewrite <- app_assoc. reflexivity.
    + lia.
    + discriminate.
    + intros _. destruct n as [|n'].
      * rewrite (Hzero eq_refl). destruct Hresp as [st1' Hresp]. eauto.
      * apply Hlater. lia.
Qed.

(** When every message of the backend carries, in its attribute
    [tool_calls], one request for a name the registry does not hold, an
    invocation with [max_turns = N >= 0] makes exactly [N] backend calls and
    returns the pair of the last response ([None] when [N] is zero) and the
    transcript, without raising; the transcript has gained [N] rounds, each
    the normal form of the backend's message followed by the tool-not-found
    message for the name. *)
Lemma exhausted_budget_returns
    client_fn messages options (kwargs : gmap string value) st N tool_map :
  kwargs_get kwargs "max_turns" (VInt 20) = VInt N ->
  (0 <= N)%Z ->
  is_none (kwargs_get kwargs "model" VNone) = false ->
  init_tool_map env (kwargs_get kwargs "tool_map" VNone) (kwargs_get kwargs "tools" VNone)
    = Ret tool_map ->
  is_registry tool_map ->
  asks_one_missing_tool client_fn messages (kwargs_get kwargs "model" VNone)
    (kwargs_get kwargs "tools" VNone) options tool_map (chat_kwargs_of kwargs) ->
  let out := run client_fn messages options kwargs st in
  exists last_response rounds,
    out.1 = Ret (last_response, messages)
    /\ length rounds = Z.to_nat N
    /\ Forall (not_found_round client_fn) rounds
    /\ heap out.2 = alter (fun xs => xs ++ interleave rounds) messages (heap st)
    /\ length (calls out.2) = (length (calls st) + Z.to_nat N)%nat
    /\ (N = 0%Z -> last_response = VNone)
    /\ ((0 < N)%Z -> exists st0 st1,
          call_backend env client_fn messages (kwargs_get kwargs "model" VNone)
            (kwargs_get kwargs "tools" VNone) options (chat_kwargs_of kwargs) st0
          = (Ret last_response, st1)).
Proof.
  intros HN Hpos Hm Ht Hreg Hask out.
  assert (Hcall : callable client_fn = true).
  { destruct (Hask st) as (response & st1 & _ & _ & _ & _ & _ & Hb & _).
    eapply call_backend_callable, Hb. }
  destruct (chat_loop_missing _ _ _ _ _ _ _ Hreg Hask (Z.to_nat N) VNone st)
    as (last' & rounds & st' & Hloop & Hlen & Hall & Hh & Hc & Hzero & Hlater).
  assert (Hrun : out = (Ret (last', messages), st')).
  { unfold out. rewrite (run_checked _ _ _ _ tool_map (Z.to_nat N));
      [| assumption | assumption | assumption | rewrite HN; reflexivity].
    unfold bind. rewrite Hloop. reflexivity. }
  exists last', rounds. rewrite Hrun. cbn [fst snd].
  split; [reflexivity|]. split; [exact Hlen|]. split; [exact Hall|].
  split; [exact Hh|]. split; [exact Hc|]. split.
  - intros ->. apply Hzero. reflexivity.
  - intros HN0. apply Hlater. lia.
Qed.

(** ** The transcript *)

Lemma tool_entry_message e : tool_entry e -> message_entry e.
Proof.
  intros (content & tool_name & ->).
  split; [eexists; reflexivity | intros _; eexists; reflexivity].
Qed.

(** C9.  Across one invocation the transcript only grows: the list at
    [messages] is, at the end, what it was with entries appended, in the
    order they were appended, no other list of the store is touched, and the
    reference returned is the one received.  Each appended entry is a tool
    message built by the function, or the normal form of the message of a
    response of the backend.  When the backend keeps to its contract, its
    messages being assistant messages with a role, every appended entry has
    its [role] set, and every entry whose role is ["tool"] carries
    [tool_name].  For an opaque message the function sets the role itself,
    to ["assistant"] when the message has none; a message that is a mapping
    is appended as it is. *)
Theorem transcript_append_only
    client_fn messages options (kwargs : gmap string value) st :
  let out := run client_fn messages options kwargs st in
  exists es,
    heap out.2 = alter (fun xs => xs ++ es) messages (heap st)
    /\ (forall xs, heap st !! messages = Some xs -> heap out.2 !! messages = Some (xs ++ es))
    /\ (forall l, l <> messages -> heap out.2 !! l = heap st !! l)
    /\ (forall r, out.1 = Ret r -> r.2 = messages)
    /\ Forall (fun e =>
          (exists content tool_name,
              e = VDict [ (VStr "role", VStr "tool");
                          (VStr "content", VStr content);
                          (VStr "tool_name", tool_name) ])
          \/ assistant_entry client_fn e) es
    /\ (backend_contract client_fn ->
        Forall (fun e =>
          has_field e "role"
          /\ (dict_get_str e "role" VNone = VStr "tool" -> has_field e "tool_name")) es)
    /\ (forall msg st1, hasattr msg "model_dump" = false -> is_dict msg = false ->
          _to_msg_dict env msg st1
          = (Ret (VDict [ (VStr "role", getattr msg "role" (VStr "assistant"));
                          (VStr "content", getattr msg "content" (VStr "")) ]), st1))
    /\ (forall msg st1, is_dict msg = true -> _to_msg_dict env msg st1 = (Ret msg, st1)).
Proof.
  intros out.
  destruct (run_grows
              (fun e => appended_entry client_fn e
                        /\ (backend_contract client_fn -> message_entry e))
              client_fn messages options kwargs st)
    as (n & _ & es & cs & Hh & _ & Hes & _ & _).
  { intros e He. split; [left; exact He | intros _; apply tool_entry_message, He]. }
  { intros e He. split; [right; exact He | intros Hc; apply Hc, He]. }
  exists es. fold out in Hh. split; [exact Hh|]. split; [|split; [|split; [|split; [|split]]]].
  - intros xs Hxs. rewrite Hh, lookup_alter_eq, Hxs. reflexivity.
  - intros l Hl. rewrite Hh, lookup_alter_ne by congruence. reflexivity.
  - intros r. apply run_returns_messages.
  - eapply Forall_impl; [exact Hes|]. intros e [He _]. exact He.
  - intros Hc. eapply Forall_impl; [exact Hes|]. intros e [_ He]. exact (He Hc).
  - split.
    + intros msg st1 Hd Hi. unfold _to_msg_dict. rewrite Hd, Hi. reflexivity.
    + intros msg st1 Hi. destruct msg; try discriminate. reflexivity.
Qed.

(** ** When the function returns *)

Lemma py_str_exception v e :
  exit_free -> py_str env v = Raise e -> is_Exception e = true.
Proof.
  intros [_ Hs]. destruct v as [|[]|n|s|xs|kvs|id c attrs]; cbn [py_str];
    try discriminate; try apply Hs.
  destruct (_ && _)%bool; [|discriminate]. intros [= <-]. reflexivity.
Qed.

Lemma handle_tool_call_returns messages tool_map tool_call st :
  is_registry tool_map -> exit_free ->
  plain_name (_extract_tool_call_parts tool_call).1 ->
  exists st', handle_tool_call env messages tool_map tool_call st = (Ret tt, st').
Proof.
  intros Hreg Hex Hp.
  destruct (_extract_tool_call_parts tool_call) as [name args] eqn:Hx. cbn [fst] in Hp.
  pose proof (registry_get_lookup tool_map name st Hreg (plain_name_hashable _ Hp)) as Hg.
  pose proof (py_str_plain _ Hp) as Hname.
  destruct (callable (registry_lookup tool_map name)) eqn:Hc.
  - destruct (kwargs_of (py_or (effective_arguments args) (VDict []))) as [kw|] eqn:Hk.
    + destruct (callable_inv _ (resolve_callable_callable _ Hc)) as (id & attrs & Hr).
      rewrite (handle_tool_call_found messages _ _ _ _ _ _ _ _ _ _ Hx Hg Hc Hr Hk).
      unfold tool_call_outcome, report_failure. rewrite Hname.
      destruct (call env id [] kw (world st)) as [[v|e] w] eqn:Hcall; cbn [fst snd].
      * destruct (py_str env v) as [content|e] eqn:Hv; [eauto|].
        rewrite (py_str_exception _ _ Hex Hv). eauto.
      * rewrite (proj1 Hex _ _ _ _ _ _ Hcall). eauto.
    + rewrite (handle_tool_call_bad_arguments messages _ _ _ _ _ _ _ Hx Hg Hc Hk).
      unfold report_failure. rewrite Hname. eauto.
  - rewrite (handle_tool_call_missing messages _ _ _ _ _ _ _ Hx Hg Hc).
    unfold report_missing. rewrite Hname. eauto.
Qed.

Lemma run_tool_calls_returns messages tool_map tool_calls :
  is_registry tool_map -> exit_free ->
  Forall (fun tc => plain_name (_extract_tool_call_parts tc).1) tool_calls ->
  forall st, exists st', run_tool_calls env messages tool_map tool_calls st = (Ret tt, st').
Proof.
  intros Hreg Hex Hall. induction Hall as [|tc rest Htc _ IH]; intros st.
  - exists st. reflexivity.
  - destruct (handle_tool_call_returns messages tool_map tc st Hreg Hex Htc) as [st1 H1].
    destruct (IH st1) as [st2 H2]. exists st2.
    rewrite (run_tool_calls_cons _ _ _ _ _ _ H1). exact H2.
Qed.

Lemma chat_turn_returns messages id attrs model tools options tool_map chat_kwargs :
  is_registry tool_map -> exit_free -> answers_well (VObj id true attrs) ->
  forall st, exists turn st',
    chat_turn env (VObj id true attrs) messages model tools options tool_map chat_kwargs st
    = (Ret turn, st').
Proof.
  intros Hreg Hex Hans st.
  destruct (Hans id attrs
              (call_kwargs (ChatCall model tools (default [] (heap st !! messages))
                                     options chat_kwargs)) (world st) eq_refl)
    as (response & w' & Hcall & Hmsg & Hnorm & Htcs).
  unfold chat_turn. unfold bind at 1. unfold call_backend. rewrite Hcall.
  unfold bind at 1. unfold attr. rewrite Hmsg. unfold ret at 1.
  unfold bind at 1.
  destruct (Hnorm (State (heap st) w'
              (calls st ++ [ChatCall model tools (default [] (heap st !! messages))
                                     options chat_kwargs])))
    as (entry & st2 & Hd).
  rewrite Hd. unfold bind at 1. unfold append at 1.
  unfold py_or at 1 2.
  destruct (py_truthy (getattr (getattr response "message" VNone) "tool_calls" VNone)) eqn:Ht.
  - destruct (Htcs eq_refl) as (tcs & Hiter & Hall). rewrite Ht. cbn [negb]. rewrite Hiter.
    destruct (run_tool_calls_returns messages tool_map tcs Hreg Hex Hall
                (State (alter (fun xs => xs ++ [entry]) messages (heap st2))
                       (world st2) (calls st2))) as [st3 H3].
    unfold bind. rewrite H3. eauto.
  - cbn. eauto.
Qed.

Lemma chat_loop_returns messages id attrs model tools options tool_map chat_kwargs :
  is_registry tool_map -> exit_free -> answers_well (VObj id true attrs) ->
  forall n last st, exists last' st',
    chat_loop env n (VObj id true attrs) messages model tools options tool_map chat_kwargs
      last st = (Ret last', st').
Proof.
  intros Hreg Hex Hans n. induction n as [|n IH]; intros last st.
  - exists last, st. reflexivity.
  - destruct (chat_turn_returns messages id attrs model tools options tool_map chat_kwargs
                Hreg Hex Hans st) as ([response finished] & st1 & Hturn).
    cbn [chat_loop]. unfold bind at 1. rewrite Hturn. cbn [fst snd].
    destruct finished; [eexists _, _; reflexivity | apply IH].
Qed.

(** C4 (as amended).  The function raises a configuration error, with the
    state untouched and so before any backend invocation, when [model] is
    absent or [None], and, the registry once built, when [client_fn] is not
    callable; whatever the rest, a [client_fn] that is not callable is never
    called and the function raises.  An empty model identifier is not
    rejected.  Configuration errors are not the only failures to cross the
    boundary: what the backend raises reaches the caller as it is.  The
    function returns normally when the configuration is accepted, the
    registry is a mapping or was never built, [max_turns] is an integer, the
    backend always answers with a response that has a message, which is
    normalised without an error and whose requests, if any, are a sequence
    of calls with names that are strings or absent, and neither a callable
    nor the writing of a value by [str] raises anything but an
    [Exception]. *)
Theorem configuration_errors
    client_fn messages options (kwargs : gmap string value) st :
  let out := run client_fn messages options kwargs st in
  let model := kwargs_get kwargs "model" VNone in
  let tools := kwargs_get kwargs "tools" VNone in
  let explicit := kwargs_get kwargs "tool_map" VNone in
  (model = VNone -> out = (Raise (Exn ValueError "model must be specified"), st))
  /\ (callable client_fn = false -> out.2 = st /\ exists e, out.1 = Raise e)
  /\ (forall tool_map,
        is_none model = false -> init_tool_map env explicit tools = Ret tool_map ->
        callable client_fn = false ->
        out = (Raise (Exn ValueError "client_fn must be a callable"), st))
  /\ (forall s tool_map n response st1 msg entry st2,
        model = VStr s -> init_tool_map env explicit tools = Ret tool_map ->
        range_len env (kwargs_get kwargs "max_turns" (VInt 20)) st = (Ret (S n), st) ->
        call_backend env client_fn messages model tools options (chat_kwargs_of kwargs) st
          = (Ret response, st1) ->
        attr env response "message" st1 = (Ret msg, st1) ->
        _to_msg_dict env msg st1 = (Ret entry, st2) ->
        py_truthy (getattr msg "tool_calls" VNone) = false ->
        out.1 = Ret (response, messages))
  /\ (forall tool_map n e st',
        is_none model = false -> init_tool_map env explicit tools = Ret tool_map ->
        callable client_fn = true ->
        range_len env (kwargs_get kwargs "max_turns" (VInt 20)) st = (Ret (S n), st) ->
        call_backend env client_fn messages model tools options (chat_kwargs_of kwargs) st
          = (Raise e, st') ->
        out = (Raise e, st'))
  /\ (forall tool_map N,
        is_none model = false -> init_tool_map env explicit tools = Ret tool_map ->
        is_registry tool_map ->
        callable client_fn = true ->
        kwargs_get kwargs "max_turns" (VInt 20) = VInt N ->
        (forall id attrs kw w,
            client_fn = VObj id true attrs ->
            exists response w',
              call env id [] kw w = (Ret response, w')
              /\ hasattr response "message" = true
              /\ (forall st0, exists entry st0',
                    _to_msg_dict env (getattr response "message" VNone) st0
                    = (Ret entry, st0'))
              /\ (py_truthy (getattr (getattr response "message" VNone) "tool_calls" VNone)
                  = true ->
                  exists tcs,
                    py_iter (getattr (getattr response "message" VNone) "tool_calls" VNone)
                    = Some tcs
                    /\ Forall (fun tc =>
                          (_extract_tool_call_parts tc).1 = VNone
                          \/ exists name, (_extract_tool_call_parts tc).1 = VStr name) tcs)) ->
        (forall id args kw w e w',
            call env id args kw w = (Raise e, w') -> is_Exception e = true) ->
        (forall v e, str_compound env v = Raise e -> is_Exception e = true) ->
        exists r, out.1 = Ret r).
Proof.
  intros out model tools explicit. split; [|split; [|split; [|split; [|split]]]].
  - intros Hm. apply run_model_missing, Hm.
  - intros Hc. unfold out.
    destruct (run_before_loop client_fn messages options kwargs st)
      as [(tm & n & _ & Hc' & _) | (e & Hrun)]; [congruence|].
    rewrite Hrun. eauto.
  - intros tool_map Hm Ht Hc. eapply run_not_callable; eassumption.
  - intros s tool_map n response st1 msg entry st2 Hm Ht Hn Hb Ha Hd Hno. unfold out.
    pose proof (call_backend_callable _ _ _ _ _ _ _ _ _ Hb) as Hcall.
    rewrite (run_checked _ _ _ _ tool_map (S n)); try assumption.
    2:{ fold model. rewrite Hm. reflexivity. }
    cbn [chat_loop]. unfold bind at 1. unfold bind at 1. fold model tools.
    rewrite (chat_turn_final _ _ _ _ _ _ _ _ _ _ _ _ _ Hb Ha Hd Hno). reflexivity.
  - intros tool_map n e st' Hm Ht Hc Hn Hb. unfold out.
    rewrite (run_checked _ _ _ _ tool_map (S n)); try assumption.
    cbn [chat_loop]. unfold bind at 1. unfold bind at 1. unfold chat_turn.
    unfold bind at 1. fold model tools. rewrite Hb. reflexivity.
  - intros tool_map N Hm Ht Hreg Hc HN Hans Hex1 Hex2.
    destruct (callable_inv _ Hc) as (id & attrs & ->).
    destruct (chat_loop_returns messages id attrs model tools options tool_map
                (chat_kwargs_of kwargs) Hreg (conj Hex1 Hex2) Hans (Z.to_nat N) VNone st)
      as (last & st' & Hloop).
    exists (last, messages). unfold out.
    rewrite (run_checked _ _ _ _ tool_map (Z.to_nat N)); try assumption.
    + unfold bind. fold model tools. rewrite Hloop. reflexivity.
    + rewrite HN. reflexivity.
Qed.

(** ** Explicit and inferred registries *)

Lemma handle_tool_call_ext messages tool_map1 tool_map2 tool_call st :
  same_lookups tool_map1 tool_map2 ->
  handle_tool_call env messages tool_map1 tool_call st
  = handle_tool_call env messages tool_map2 tool_call st.
Proof.
  intros H. unfold handle_tool_call.
  destruct (_extract_tool_call_parts tool_call) as [name args].
  unfold bind at 1 3. rewrite H. reflexivity.
Qed.

Lemma run_tool_calls_ext messages tool_map1 tool_map2 tool_calls :
  same_lookups tool_map1 tool_map2 ->
  forall st, run_tool_calls env messages tool_map1 tool_calls st
             = run_tool_calls env messages tool_map2 tool_calls st.
Proof.
  intros H. induction tool_calls as [|tc rest IH]; intros st; [reflexivity|].
  cbn [run_tool_calls]. unfold bind.
  rewrite (handle_tool_call_ext _ _ _ _ _ H).
  destruct (handle_tool_call env messages tool_map2 tc st) as [[[]|e] st1]; [apply IH | reflexivity].
Qed.

Lemma chat_turn_ext client_fn messages model tools options tool_map1 tool_map2 chat_kwargs st :
  same_lookups tool_map1 tool_map2 ->
  chat_turn env client_fn messages model tools options tool_map1 chat_kwargs st
  = chat_turn env client_fn messages model tools options tool_map2 chat_kwargs st.
Proof.
  intros H. unfold chat_turn, bind.
  destruct (call_backend _ _ _ _ _ _ _ st) as [[response|e] st1]; [|reflexivity].
  destruct (attr env response "message" st1) as [[msg|e] st2]; [|reflexivity].
  destruct (_to_msg_dict env msg st2) as [[entry|e] st3]; [|reflexivity].
  destruct (append messages entry st3) as [[[]|e] st4]; [|reflexivity].
  destruct (negb _); [reflexivity|].
  destruct (py_iter _) as [tcs|]; [|reflexivity].
  rewrite (run_tool_calls_ext _ _ _ _ H). reflexivity.
Qed.

Lemma chat_loop_ext client_fn messages model tools options tool_map1 tool_map2 chat_kwargs :
  same_lookups tool_map1 tool_map2 ->
  forall n last st,
    chat_loop env n client_fn messages model tools options tool_map1 chat_kwargs last st
    = chat_loop env n client_fn messages model tools options tool_map2 chat_kwargs last st.
Proof.
  intros H n. induction n as [|n IH]; intros last st; [reflexivity|].
  cbn [chat_loop]. unfold bind. rewrite (chat_turn_ext _ _ _ _ _ _ _ _ _ H).
  destruct (chat_turn _ _ _ _ _ _ tool_map2 _ st) as [[turn|e] st1]; [|reflexivity].
  destruct (turn.2); [reflexivity | apply IH].
Qed.

Lemma key_eqb_sym a b : key_eqb a b = key_eqb b a.
Proof.
  destruct a, b; cbn; try reflexivity.
  - destruct b, b0; reflexivity.
  - apply Z.eqb_sym.
  - apply String.eqb_sym.
  - apply Nat.eqb_sym.
Qed.

Lemma dict_lookup_app kvs1 kvs2 k :
  dict_lookup (kvs1 ++ kvs2) k
  = match dict_lookup kvs1 k with Some x => Some x | None => dict_lookup kvs2 k end.
Proof.
  induction kvs1 as [|[k' v'] kvs1 IH]; cbn; [reflexivity|].
  destruct (key_eqb k k'); [reflexivity | exact IH].
Qed.

Lemma dict_store_fresh kvs k v :
  dict_lookup kvs k = None -> dict_store kvs k v = kvs ++ [(k, v)].
Proof.
  induction kvs as [|[k' v'] kvs IH]; cbn; [reflexivity|].
  destruct (key_eqb k k'); [discriminate|]. intros H. rewrite IH by exact H. reflexivity.
Qed.

Lemma dict_lookup_None_In kvs k kv :
  dict_lookup kvs k = None -> In kv kvs -> key_eqb k kv.1 = false.
Proof.
  induction kvs as [|[k' v'] kvs IH]; cbn; [contradiction|].
  destruct (key_eqb k k') eqn:E; [discriminate|].
  intros H [<- | Hin]; [exact E | apply IH; assumption].
Qed.

Lemma build_tool_map_fresh m :
  keyed_by_inferred_name m -> distinct_keys m ->
  forall acc,
    (forall kv, In kv m -> dict_lookup acc kv.1 = None) ->
    build_tool_map env (map snd m) acc = Ret (acc ++ m).
Proof.
  intros Hk. induction Hk as [|[k v] m (Hname & Htrue & Hhash) _ IH]; intros Hd acc Hacc.
  - cbn. rewrite app_nil_r. reflexivity.
  - cbn in Hd, Hname, Htrue, Hhash. destruct Hd as [Hfresh Hd].
    cbn [map snd build_tool_map]. rewrite Hname, Htrue, Hhash.
    rewrite dict_store_fresh by (apply (Hacc (k, v)); left; reflexivity).
    rewrite (IH Hd).
    + rewrite <- app_assoc. reflexivity.
    + intros kv Hin. rewrite dict_lookup_app, (Hacc kv) by (right; exact Hin).
      cbn. rewrite key_eqb_sym, (dict_lookup_None_In _ _ _ Hfresh Hin). reflexivity.
Qed.

Lemma key_eqb_trans a b c : key_eqb a b = true -> key_eqb a c = key_eqb b c.
Proof.
  destruct a, b; cbn; try discriminate; intros H; destruct c; cbn; try reflexivity.
  - destruct b, b0; try discriminate; reflexivity.
  - destruct b, b0; try discriminate; reflexivity.
  - apply Z.eqb_eq in H. subst n. destruct b, b0; reflexivity.
  - apply Z.eqb_eq in H. subst n. reflexivity.
  - apply Z.eqb_eq in H. subst n. destruct b, b0; reflexivity.
  - apply Z.eqb_eq in H. subst n. reflexivity.
  - apply Z.eqb_eq in H. subst n0. destruct b; reflexivity.
  - apply Z.eqb_eq in H. subst n0. reflexivity.
  - apply String.eqb_eq in H. subst s0. reflexivity.
  - apply Nat.eqb_eq in H. subst id0. reflexivity.
Qed.

Lemma dict_lookup_None_intro kvs k :
  (forall kv, In kv kvs -> key_eqb k kv.1 = false) -> dict_lookup kvs k = None.
Proof.
  induction kvs as [|[k' v'] kvs IH]; cbn; [reflexivity|]. intros H.
  pose proof (H (k', v') (or_introl eq_refl)) as E. cbn in E. rewrite E.
  apply IH. intros kv Hin. apply H. right. exact Hin.
Qed.

Lemma dict_lookup_None_perm kvs kvs' k :
  Permutation kvs kvs' -> dict_lookup kvs k = None -> dict_lookup kvs' k = None.
Proof.
  intros Hp H. apply dict_lookup_None_intro. intros kv Hin.
  eapply dict_lookup_None_In; [exact H|]. eapply Permutation_in; [symmetry; exact Hp | exact Hin].
Qed.

Lemma distinct_keys_perm kvs kvs' :
  Permutation kvs kvs' -> distinct_keys kvs -> distinct_keys kvs'.
Proof.
  induction 1 as [|x l l' Hp IH|[k1 v1] [k2 v2] l|l l' l'' _ IH1 _ IH2]; cbn.
  - auto.
  - intros [Hx Hd]. split; [eapply dict_lookup_None_perm; eassumption | auto].
  - destruct (key_eqb k2 k1) eqn:E; [intros [? _]; discriminate|].
    intros [Hy [Hx Hd]]. rewrite key_eqb_sym, E. auto.
  - auto.
Qed.

Lemma dict_lookup_perm kvs kvs' k :
  Permutation kvs kvs' -> distinct_keys kvs -> dict_lookup kvs k = dict_lookup kvs' k.
Proof.
  induction 1 as [|[k' v'] l l' Hp IH|[k1 v1] [k2 v2] l|l l' l'' Hp1 IH1 Hp2 IH2]; cbn.
  - reflexivity.
  - intros [_ Hd]. rewrite IH by exact Hd. reflexivity.
  - intros [H21 _]. destruct (key_eqb k2 k1) eqn:E21; [discriminate|].
    destruct (key_eqb k k1) eqn:E1, (key_eqb k k2) eqn:E2; try reflexivity.
    rewrite key_eqb_sym in E2. rewrite (key_eqb_trans _ _ k1 E2) in E21. congruence.
  - intros Hd. rewrite IH1 by exact Hd. apply IH2. eapply distinct_keys_perm; eassumption.
Qed.

Lemma same_lookups_perm m m' :
  Permutation m m' -> distinct_keys m -> same_lookups (VDict m) (VDict m').
Proof.
  intros Hp Hd name st. unfold registry_get.
  rewrite (dict_lookup_perm m m' name Hp Hd).
  pose proof (Permutation_length Hp) as Hlen.
  destruct m, m'; try discriminate Hlen; reflexivity.
Qed.

Lemma same_lookups_empty : same_lookups (VDict []) VNone.
Proof. intros name st. reflexivity. Qed.

Lemma init_tool_map_list ts :
  ts <> [] ->
  init_tool_map env VNone (VList ts)
  = match build_tool_map env ts [] with
    | Ret kvs => Ret (VDict kvs)
    | Raise e => Raise e
    end.
Proof. destruct ts; [contradiction | reflexivity]. Qed.

(** The registry line 79 fills from the tools [ts], when their names are
    the keys of [m]. *)
Lemma keyed_entries m :
  keyed_by_inferred_name m -> map (fun t => (_infer_tool_name t, t)) (map snd m) = m.
Proof.
  induction 1 as [|[k v] m (Hname & _) _ IH]; cbn; [reflexivity|].
  cbn in Hname. rewrite Hname, IH. reflexivity.
Qed.

Lemma init_tool_map_inferred ts m :
  Permutation ts (map snd m) ->
  keyed_by_inferred_name m -> distinct_keys m ->
  exists built,
    init_tool_map env VNone (VList ts) = Ret built
    /\ same_lookups (VDict m) built
    /\ (forall tool_name, registry_lookup (VDict m) tool_name = registry_lookup built tool_name).
Proof.
  intros Hp Hk Hd.
  set (m' := map (fun t => (_infer_tool_name t, t)) ts).
  assert (Hpm : Permutation m m').
  { rewrite <- (keyed_entries m Hk). symmetry. apply Permutation_map. exact Hp. }
  assert (Hk' : keyed_by_inferred_name m').
  { eapply Permutation_Forall; [exact Hpm | exact Hk]. }
  assert (Hd' : distinct_keys m') by (eapply distinct_keys_perm; eassumption).
  assert (Hts : map snd m' = ts).
  { unfold m'. rewrite map_map. cbn. apply map_id. }
  destruct ts as [|t ts].
  - symmetry in Hpm. apply Permutation_nil in Hpm. subst m.
    exists VNone. split; [reflexivity|]. split; [apply same_lookups_empty | reflexivity].
  - exists (VDict m'). split; [|split].
    + rewrite init_tool_map_list by discriminate. rewrite <- Hts.
      rewrite (build_tool_map_fresh m' Hk' Hd' []); [reflexivity|].
      intros kv' _. reflexivity.
    + apply same_lookups_perm; assumption.
    + intros tool_name. cbn. rewrite (dict_lookup_perm m m' tool_name Hpm Hd). reflexivity.
Qed.

Lemma init_tool_map_explicit tool_map tools :
  is_none tool_map = false -> init_tool_map env tool_map tools = Ret tool_map.
Proof. intros H. unfold init_tool_map. rewrite H. reflexivity. Qed.

Lemma kwargs_get_insert_ne (kwargs : gmap string value) k k' v d :
  k <> k' -> kwargs_get (<[k := v]> kwargs) k' d = kwargs_get kwargs k' d.
Proof. intros H. unfold kwargs_get. rewrite lookup_insert_ne by exact H. reflexivity. Qed.

Lemma kwargs_get_insert_eq (kwargs : gmap string value) k v d :
  kwargs_get (<[k := v]> kwargs) k d = v.
Proof. unfold kwargs_get. rewrite lookup_insert_eq. reflexivity. Qed.

Lemma chat_kwargs_of_insert (kwargs : gmap string value) k v :
  k ∈ reserved -> chat_kwargs_of (<[k := v]> kwargs) = chat_kwargs_of kwargs.
Proof.
  intros Hk. apply map_eq. intros i. apply option_eq. intros x.
  rewrite !chat_kwargs_lookup. destruct (decide (k = i)) as [<- | Hne].
  - tauto.
  - rewrite lookup_insert_ne by exact Hne. tauto.
Qed.

(** C7.  Let the explicit mapping [m] hold each tool under the name the
    function would infer for it, and let [tools] list those same tools, in
    any order.  The registry the function builds from [tools] alone answers
    every lookup as [m] does, resolves to the same callables, and the whole
    invocation with [tool_map = m] is the invocation without it: same
    result, same transcript, same calls.  When an explicit mapping is given
    it is the registry, whatever [tools] is: no name is inferred. *)
Theorem explicit_mapping_equivalent
    client_fn messages options (kwargs : gmap string value) st ts m :
  kwargs_get kwargs "tool_map" VNone = VNone ->
  kwargs_get kwargs "tools" VNone = VList ts ->
  Permutation ts (map snd m) ->
  keyed_by_inferred_name m ->
  distinct_keys m ->
  (exists built,
      init_tool_map env VNone (VList ts) = Ret built
      /\ (forall tool_name st',
            registry_get env (VDict m) tool_name st' = registry_get env built tool_name st')
      /\ (forall tool_name,
            _resolve_callable (registry_lookup (VDict m) tool_name)
            = _resolve_callable (registry_lookup built tool_name)))
  /\ run client_fn messages options (<["tool_map" := VDict m]> kwargs) st
     = run client_fn messages options kwargs st
  /\ (forall tool_map tools,
        is_none tool_map = false -> init_tool_map env tool_map tools = Ret tool_map).
Proof.
  intros Htm Htools Hp Hk Hd.
  destruct (init_tool_map_inferred ts m Hp Hk Hd) as (built & Hbuilt & Hsame & Hlook).
  split; [|split].
  - exists built. split; [exact Hbuilt|]. split; [exact Hsame|].
    intros tool_name. rewrite Hlook. reflexivity.
  - unfold ollama_automatic_function_calling.
    rewrite kwargs_get_insert_eq.
    rewrite !kwargs_get_insert_ne by discriminate.
    rewrite Htm, Htools.
    rewrite chat_kwargs_of_insert by (apply reserved_spec; auto 10).
    destruct (is_none (kwargs_get kwargs "model" VNone)); [reflexivity|].
    rewrite init_tool_map_explicit by reflexivity. rewrite Hbuilt.
    unfold bind, lift_result.
    destruct (negb (callable client_fn)); [reflexivity|].
    destruct (range_len env (kwargs_get kwargs "max_turns" (VInt 20)) st) as [[n|e] st1];
      [|reflexivity].
    rewrite (chat_loop_ext _ _ _ _ _ _ _ _ Hsame). reflexivity.
  - apply init_tool_map_explicit.
Qed.

(** ** Further properties of the registry *)

Lemma dict_lookup_store kvs k' v k :
  dict_lookup (dict_store kvs k' v) k
  = if key_eqb k k' then Some v else dict_lookup kvs k.
Proof.
  induction kvs as [|[k2 v2] kvs IH]; cbn; [reflexivity|].
  destruct (key_eqb k' k2) eqn:E; cbn.
  - pose proof (key_eqb_trans k' k2 k E) as Ht.
    rewrite (key_eqb_sym k k'), Ht, (key_eqb_sym k2 k).
    destruct (key_eqb k k2); reflexivity.
  - rewrite IH. destruct (key_eqb k k2) eqn:E2; [|reflexivity].
    destruct (key_eqb k k') eqn:E1; [|reflexivity].
    rewrite key_eqb_sym in E1. rewrite (key_eqb_trans k' k k2 E1) in E. congruence.
Qed.

Lemma build_tool_map_lookup ts :
  names_hashable ts ->
  forall acc, exists reg,
    build_tool_map env ts acc = Ret reg
    /\ forall k, dict_lookup reg k
                 = match last_named ts k with
                   | Some t => Some t
                   | None => dict_lookup acc k
                   end.
Proof.
  induction 1 as [|t ts Ht _ IH]; intros acc.
  - exists acc. split; reflexivity.
  - cbn [build_tool_map last_named].
    destruct (py_truthy (_infer_tool_name t)) eqn:Hn.
    + rewrite (Ht eq_refl).
      destruct (IH (dict_store acc (_infer_tool_name t) t)) as (reg & Hb & Hl).
      exists reg. split; [exact Hb|]. intros k. rewrite Hl, dict_lookup_store. cbn [andb].
      destruct (last_named ts k); [reflexivity|].
      destruct (key_eqb k (_infer_tool_name t)); reflexivity.
    + destruct (IH acc) as (reg & Hb & Hl). exists reg. split; [exact Hb|].
      intros k. rewrite Hl. cbn [andb]. destruct (last_named ts k); reflexivity.
Qed.

(** X1.  When no tool has an unhashable name, lines 76-79 build a registry
    that holds, under every key, the last tool of the list whose inferred
    name is non-empty and equal to the key: a later tool of the same name
    replaces an earlier one, and a tool without a name is left out. *)
Theorem registry_holds_last_named ts :
  names_hashable ts ->
  exists reg,
    build_tool_map env ts [] = Ret reg
    /\ (forall k, dict_lookup reg k = last_named ts k)
    /\ (forall k t, dict_lookup reg k = Some t ->
          In t ts /\ py_truthy (_infer_tool_name t) = true
          /\ key_eqb k (_infer_tool_name t) = true).
Proof.
  intros Hh. destruct (build_tool_map_lookup ts Hh []) as (reg & Hb & Hl).
  assert (Hl' : forall k, dict_lookup reg k = last_named ts k).
  { intros k. rewrite Hl. destruct (last_named ts k); reflexivity. }
  exists reg. split; [exact Hb|]. split; [exact Hl'|].
  intros k t. rewrite Hl'. clear. induction ts as [|t' ts IH]; cbn; [discriminate|].
  destruct (last_named ts k) as [t2|].
  - intros [= ->]. destruct (IH eq_refl) as (Hin & Hrest). split; [right; exact Hin | exact Hrest].
  - destruct (py_truthy (_infer_tool_name t')) eqn:Hn; cbn; [|discriminate].
    destruct (key_eqb k (_infer_tool_name t')) eqn:Hk; [|discriminate].
    intros [= <-]. auto.
Qed.

(** ** What one requested call leaves behind *)

Lemma registry_get_state tool_map tool_name st r st' :
  registry_get env tool_map tool_name st = (r, st') ->
  heap st' = heap st /\ calls st' = calls st.
Proof.
  unfold registry_get. destruct (py_truthy tool_map);
    [|cbv [ret]; intros [= _ <-]; auto].
  destruct tool_map; try (cbv [raise_about raise]; intros [= _ <-]; auto).
  - destruct (hashable tool_name); cbv [ret raise_about raise]; intros [= _ <-]; auto.
  - destruct (hasattr _ "get"); [apply call_value_state|].
    cbv [raise_about raise]; intros [= _ <-]; auto.
Qed.

Lemma invoke_tool_state tool_name tool_fn tool_args st r st' :
  invoke_tool env tool_name tool_fn tool_args st = (r, st') ->
  heap st' = heap st /\ calls st' = calls st.
Proof.
  unfold invoke_tool, try_except.
  assert (Hh : forall e (st1 : state W) r' st1',
             (let* name := lift_result (py_str env tool_name) in
              ret ("Tool '" +:+ name +:+ "' execution failed: " +:+ exn_msg e)) st1
             = (r', st1') -> st1' = st1).
  { intros e st1 r' st1'. unfold bind, lift_result, ret.
    destruct (py_str env tool_name); intros [= _ <-]; reflexivity. }
  destruct (kwargs_of _) as [kw|].
  - unfold bind at 1.
    destruct (call_value env (_resolve_callable tool_fn) [] kw st) as [[v|e] st1] eqn:Hc;
      apply call_value_state in Hc.
    + unfold lift_result at 1. destruct (py_str env v) as [content|e].
      * intros [= _ <-]. exact Hc.
      * destruct (is_Exception e); [|intros [= _ <-]; exact Hc].
        intros H. apply Hh in H. subst st'. exact Hc.
    + destruct (is_Exception e); [|intros [= _ <-]; exact Hc].
      intros H. apply Hh in H. subst st'. exact Hc.
  - cbv [raise_about raise]. cbn [is_Exception exn_cls].
    intros H. apply Hh in H. subst st'. auto.
Qed.

Lemma handle_tool_call_effect messages tool_map tool_call st :
  calls (handle_tool_call env messages tool_map tool_call st).2 = calls st
  /\ match (handle_tool_call env messages tool_map tool_call st).1 with
     | Ret _ =>
         exists e, answers tool_call e
           /\ heap (handle_tool_call env messages tool_map tool_call st).2
              = alter (fun xs => xs ++ [e]) messages (heap st)
     | Raise _ => heap (handle_tool_call env messages tool_map tool_call st).2 = heap st
     end.
Proof.
  destruct (handle_tool_call env messages tool_map tool_call st) as [r st'] eqn:H.
  cbn [fst snd]. unfold handle_tool_call in H. unfold answers.
  destruct (_extract_tool_call_parts tool_call) as [name args]. cbn [fst].
  unfold bind in H.
  destruct (registry_get env tool_map name st) as [[tool_fn|e] st1] eqn:Hg;
    apply registry_get_state in Hg; destruct Hg as [Hh1 Hc1].
  2:{ injection H as <- <-. auto. }
  destruct (negb (callable tool_fn)).
  - unfold lift_result in H. destruct (py_str env name) as [text|e].
    + unfold append in H. injection H as <- <-. cbn [heap calls]. rewrite Hh1, Hc1.
      split; [reflexivity|]. eexists. split; [|reflexivity]. eexists. right. reflexivity.
    + injection H as <- <-. auto.
  - destruct (invoke_tool env name tool_fn _ st1) as [[content|e] st2] eqn:Hi;
      apply invoke_tool_state in Hi; destruct Hi as [Hh2 Hc2].
    + unfold append in H. injection H as <- <-. cbn [heap calls].
      rewrite Hh2, Hh1, Hc2, Hc1. split; [reflexivity|]. eexists. split; [|reflexivity].
      eexists. left. reflexivity.
    + injection H as <- <-. rewrite Hh2, Hh1, Hc2, Hc1. auto.
Qed.

Lemma run_tool_calls_effect messages tool_map tool_calls :
  forall st,
    calls (run_tool_calls env messages tool_map tool_calls st).2 = calls st
    /\ exists es,
         heap (run_tool_calls env messages tool_map tool_calls st).2
         = alter (fun xs => xs ++ es) messages (heap st)
         /\ match (run_tool_calls env messages tool_map tool_calls st).1 with
            | Ret _ => Forall2 answers tool_calls es
            | Raise _ =>
                (length es < length tool_calls)%nat
                /\ Forall2 answers (take (length es) tool_calls) es
            end.
Proof.
  induction tool_calls as [|tc rest IH]; intros st.
  - cbn. split; [reflexivity|]. exists []. rewrite alter_append_nil. split; [reflexivity|].
    constructor.
  - cbn [run_tool_calls]. unfold bind.
    pose proof (handle_tool_call_effect messages tool_map tc st) as [Hc Hh].
    destruct (handle_tool_call env messages tool_map tc st) as [[[]|e] st1]; cbn in Hc, Hh.
    + destruct Hh as (e1 & Hans & Hh). destruct (IH st1) as [Hc2 (es & Hh2 & Hr)].
      split; [congruence|]. exists (e1 :: es). split.
      { rewrite Hh2, Hh, alter_append_app. reflexivity. }
      destruct (run_tool_calls env messages tool_map rest st1).1.
      * constructor; assumption.
      * destruct Hr as [Hlt Hr]. cbn. split; [lia|]. constructor; assumption.
    + cbn. split; [exact Hc|]. exists []. rewrite alter_append_nil. split; [exact Hh|].
      split; [cbn; lia | constructor].
Qed.

(** X8.  The requested calls of a turn are answered one by one and in
    order: when their processing ends normally the transcript has gained
    exactly one tool message per requested call, the [i]-th for the [i]-th
    call; when it ends with an exception, the calls before the one that
    raised have their message and no later call has one.  No backend call
    is made meanwhile. *)
Theorem one_tool_message_per_call messages tool_map tool_calls st :
  let out := run_tool_calls env messages tool_map tool_calls st in
  calls out.2 = calls st
  /\ exists es,
       heap out.2 = alter (fun xs => xs ++ es) messages (heap st)
       /\ (forall u, out.1 = Ret u ->
             length es = length tool_calls /\ Forall2 answers tool_calls es)
       /\ (forall e, out.1 = Raise e ->
             (length es < length tool_calls)%nat
             /\ Forall2 answers (take (length es) tool_calls) es).
Proof.
  intros out. destruct (run_tool_calls_effect messages tool_map tool_calls st)
    as [Hc (es & Hh & Hr)].
  split; [exact Hc|]. exists es. split; [exact Hh|]. fold out in Hr.
  destruct out.1 as [u|e]; split; try discriminate.
  - intros _ _. split; [|exact Hr]. symmetry. eapply Forall2_length, Hr.
  - intros _ _. exact Hr.
Qed.

(** ** What the backend is given *)

Lemma chat_turn_effect client_fn messages model tools options tool_map chat_kwargs st :
  callable client_fn = true ->
  exists es,
    calls (chat_turn env client_fn messages model tools options tool_map chat_kwargs st).2
    = calls st ++ [ChatCall model tools (default [] (heap st !! messages)) options chat_kwargs]
    /\ heap (chat_turn env client_fn messages model tools options tool_map chat_kwargs st).2
       = alter (fun xs => xs ++ es) messages (heap st)
    /\ (forall x,
          (chat_turn env client_fn messages model tools options tool_map chat_kwargs st).1
          = Ret x -> es <> []).
Proof.
  intros Hcall.
  destruct (chat_turn env client_fn messages model tools options tool_map chat_kwargs st)
    as [r st'] eqn:H.
  cbn [fst snd]. unfold chat_turn, bind in H.
  destruct (call_backend env client_fn messages model tools options chat_kwargs st)
    as [[response|e] st1] eqn:Hb;
    apply call_backend_state in Hb; destruct Hb as [Hh1 Hc1]; specialize (Hc1 Hcall).
  2:{ injection H as <- <-. exists []. rewrite alter_append_nil. repeat split; auto; discriminate. }
  unfold attr in H. destruct (hasattr response "message").
  2:{ cbv [raise_about raise] in H. injection H as <- <-. exists [].
      rewrite alter_append_nil. repeat split; auto; discriminate. }
  unfold ret at 1 in H.
  destruct (_to_msg_dict env (getattr response "message" VNone) st1) as [[entry|e] st2] eqn:Hd;
    apply to_msg_dict_state in Hd; destruct Hd as [Hh2 Hc2].
  2:{ injection H as <- <-. exists []. rewrite alter_append_nil, Hh2, Hc2.
      repeat split; auto; discriminate. }
  unfold append at 1 in H.
  destruct (negb (py_truthy _)).
  { cbv [ret] in H. injection H as <- <-. exists [entry]. cbn [heap calls].
    rewrite Hh2, Hh1, Hc2, Hc1. repeat split; auto; discriminate. }
  destruct (py_iter _) as [tcs|].
  2:{ cbv [raise_about raise] in H. injection H as <- <-. exists [entry]. cbn [heap calls].
      rewrite Hh2, Hh1, Hc2, Hc1. repeat split; auto; discriminate. }
  match type of H with
  | context [run_tool_calls env messages tool_map tcs ?s] =>
      destruct (run_tool_calls_effect messages tool_map tcs s) as [Hc3 (es & Hh3 & _)];
      destruct (run_tool_calls env messages tool_map tcs s) as [[[]|e] st3];
      cbn [fst snd heap calls] in Hc3, Hh3
  end.
  - cbv [ret] in H. injection H as <- <-. exists (entry :: es).
    rewrite Hh3, Hc3, Hh2, Hh1, Hc2, Hc1, alter_append_app. repeat split; auto; discriminate.
  - injection H as <- <-. exists (entry :: es).
    rewrite Hh3, Hc3, Hh2, Hh1, Hc2, Hc1, alter_append_app. repeat split; auto; discriminate.
Qed.

Lemma chat_loop_fed client_fn messages model tools options tool_map chat_kwargs :
  callable client_fn = true ->
  forall n last st xs,
    heap st !! messages = Some xs ->
    exists cs ys,
      calls (chat_loop env n client_fn messages model tools options tool_map chat_kwargs
               last st).2 = calls st ++ cs
      /\ heap (chat_loop env n client_fn messages model tools options tool_map chat_kwargs
                 last st).2 !! messages = Some ys
      /\ fed xs cs ys.
Proof.
  intros Hcall n. induction n as [|n IH]; intros last st xs Hxs.
  - exists [], xs. cbn. rewrite app_nil_r. repeat split; auto. exists []. rewrite app_nil_r.
    reflexivity.
  - cbn [chat_loop]. unfold bind.
    destruct (chat_turn_effect client_fn messages model tools options tool_map chat_kwargs st
                Hcall) as (es & Hc & Hh & Hne).
    rewrite Hxs in Hc. cbn [default] in Hc.
    destruct (chat_turn env client_fn messages model tools options tool_map chat_kwargs st)
      as [[turn|e] st1]; cbn [fst snd] in Hc, Hh, Hne.
    2:{ eexists [_], (xs ++ es). cbn [fst snd]. split; [exact Hc|]. split.
        - rewrite Hh, lookup_alter_eq, Hxs. reflexivity.
        - split; [reflexivity|]. exists es. split; [congruence|]. exists [].
          rewrite app_nil_r. reflexivity. }
    assert (Hxs1 : heap st1 !! messages = Some (xs ++ es)).
    { rewrite Hh, lookup_alter_eq, Hxs. reflexivity. }
    destruct (turn.2).
    + eexists [_], (xs ++ es). cbn [fst snd ret]. split; [exact Hc|]. split; [exact Hxs1|].
      split; [reflexivity|]. exists es. split; [congruence|]. exists [].
      rewrite app_nil_r. reflexivity.
    + destruct (IH turn.1 st1 (xs ++ es) Hxs1) as (cs & ys & Hc2 & Hh2 & Hfed).
      eexists (_ :: cs), ys. split; [|split; [exact Hh2|]].
      * rewrite Hc2, Hc, <- app_assoc. reflexivity.
      * split; [reflexivity|]. exists es. split; [|exact Hfed].
        intros _. apply (Hne turn). reflexivity.
Qed.

Lemma fed_between xs cs ys :
  fed xs cs ys ->
  (exists es, ys = xs ++ es)
  /\ Forall (fun c => exists before after,
                        cc_messages c = xs ++ before /\ ys = cc_messages c ++ after) cs.
Proof.
  revert xs. induction cs as [|c cs IH]; intros xs; cbn.
  - intros H. split; [exact H | constructor].
  - intros (Hc & es & _ & Hfed). destruct (IH _ Hfed) as [(es' & Hys) Hall].
    split; [exists (es ++ es'); rewrite Hys, app_assoc; reflexivity|].
    constructor.
    + exists [], (es ++ es'). rewrite Hc, app_nil_r, Hys, app_assoc. split; reflexivity.
    + eapply Forall_impl; [exact Hall|]. intros c' (b & a & Hb & Ha).
      exists (es ++ b), a. split; [rewrite Hb, app_assoc; reflexivity | exact Ha].
Qed.

Lemma run_fed client_fn messages options (kwargs : gmap string value) st xs :
  heap st !! messages = Some xs ->
  exists cs ys,
    calls (run client_fn messages options kwargs st).2 = calls st ++ cs
    /\ heap (run client_fn messages options kwargs st).2 !! messages = Some ys
    /\ fed xs cs ys.
Proof.
  intros Hxs. destruct (run_before_loop client_fn messages options kwargs st)
    as [(tm & n & Hrun & Hcall & _) | (e & Hrun)]; rewrite Hrun.
  - destruct (chat_loop_fed client_fn messages (kwargs_get kwargs "model" VNone)
                (kwargs_get kwargs "tools" VNone) options tm (chat_kwargs_of kwargs)
                Hcall n VNone st xs Hxs) as (cs & ys & Hc & Hh & Hfed).
    exists cs, ys. unfold bind.
    destruct (chat_loop env n client_fn messages _ _ options tm _ VNone st) as [[a|e] st1];
      cbn in *; auto.
  - exists [], xs. cbn. rewrite app_nil_r. repeat split; auto. exists [].
    rewrite app_nil_r. reflexivity.
Qed.

(** X7.  The backend is given the whole conversation at every call: the
    first call of an invocation receives the transcript as the caller
    supplied it, every later call what the previous one received followed by
    at least one more entry, and all of them a prefix of the transcript the
    invocation leaves. *)
Theorem backend_sees_growing_transcript
    client_fn messages options (kwargs : gmap string value) st xs :
  heap st !! messages = Some xs ->
  let out := run client_fn messages options kwargs st in
  exists cs ys,
    calls out.2 = calls st ++ cs
    /\ heap out.2 !! messages = Some ys
    /\ fed xs cs ys
    /\ (forall c cs', cs = c :: cs' -> cc_messages c = xs)
    /\ Forall (fun c => exists before after,
                          cc_messages c = xs ++ before /\ ys = cc_messages c ++ after) cs.
Proof.
  intros Hxs out.
  destruct (run_fed client_fn messages options kwargs st xs Hxs) as (cs & ys & Hc & Hh & Hfed).
  exists cs, ys.
  split; [exact Hc|]. split; [exact Hh|]. split; [exact Hfed|]. split.
  - intros c cs' ->. apply Hfed.
  - apply (fed_between xs cs ys Hfed).
Qed.

(** ** The arguments of the backend calls *)

Lemma call_kwargs_named c :
  call_kwargs c !! "model" = Some (cc_model c)
  /\ call_kwargs c !! "tools" = Some (cc_tools c)
  /\ call_kwargs c !! "messages" = Some (VList (cc_messages c))
  /\ call_kwargs c !! "options" = Some (cc_options c).
Proof.
  unfold call_kwargs. repeat split.
  - apply lookup_insert_eq.
  - rewrite lookup_insert_ne by discriminate. apply lookup_insert_eq.
  - rewrite !lookup_insert_ne by discriminate. apply lookup_insert_eq.
  - rewrite !lookup_insert_ne by discriminate. apply lookup_insert_eq.
Qed.

Lemma call_backend_call id attrs messages model tools options chat_kwargs st :
  call_backend env (VObj id true attrs) messages model tools options chat_kwargs st
  = let c := ChatCall model tools (default [] (heap st !! messages)) options chat_kwargs in
    ((call env id [] (call_kwargs c) (world st)).1,
     State (heap st) (call env id [] (call_kwargs c) (world st)).2 (calls st ++ [c])).
Proof.
  unfold call_backend. cbn zeta. destruct (call env id [] _ (world st)). reflexivity.
Qed.

Lemma chat_loop_calls n client_fn messages model tools options tool_map chat_kwargs last st :
  exists cs,
    calls (chat_loop env n client_fn messages model tools options tool_map chat_kwargs
             last st).2 = calls st ++ cs.
Proof.
  destruct (growing_chat_loop n messages (fun _ => True) client_fn model tools options tool_map
              chat_kwargs last (fun _ _ => I) (fun _ _ => I) st)
    as (es & cs & _ & Hc & _).
  exists cs. exact Hc.
Qed.

(** Once the configuration is accepted and a turn is allowed, the backend
    is called, first with the transcript as it was received. *)
Lemma run_first_call client_fn messages options (kwargs : gmap string value) st tool_map n :
  is_none (kwargs_get kwargs "model" VNone) = false ->
  init_tool_map env (kwargs_get kwargs "tool_map" VNone) (kwargs_get kwargs "tools" VNone)
    = Ret tool_map ->
  callable client_fn = true ->
  range_len env (kwargs_get kwargs "max_turns" (VInt 20)) st = (Ret (S n), st) ->
  exists cs',
    calls (run client_fn messages options kwargs st).2
    = calls st ++ ChatCall (kwargs_get kwargs "model" VNone) (kwargs_get kwargs "tools" VNone)
                           (default [] (heap st !! messages)) options (chat_kwargs_of kwargs)
                  :: cs'.
Proof.
  intros Hm Ht Hc Hn. rewrite (run_checked _ _ _ _ tool_map (S n)) by assumption.
  cbn [chat_loop]. unfold bind.
  destruct (chat_turn_effect client_fn messages (kwargs_get kwargs "model" VNone)
              (kwargs_get kwargs "tools" VNone) options tool_map (chat_kwargs_of kwargs)
              st Hc) as (es & Hcalls & _ & _).
  destruct (chat_turn env client_fn messages _ _ options tool_map _ st) as [[turn|e] st1];
    cbn [fst snd] in Hcalls |- *; [|exists []; exact Hcalls].
  destruct (turn.2); [exists []; exact Hcalls|].
  destruct (chat_loop_calls n client_fn messages (kwargs_get kwargs "model" VNone)
              (kwargs_get kwargs "tools" VNone) options tool_map (chat_kwargs_of kwargs)
              turn.1 st1) as (cs & Hcs).
  exists cs.
  destruct (chat_loop env n client_fn messages _ _ options tool_map _ turn.1 st1)
    as [[a|e] st2]; unfold ret; cbn [fst snd] in Hcs |- *;
    rewrite Hcs, Hcalls, <- app_assoc; reflexivity.
Qed.

(** C8.  The extras are the caller's named parameters minus the six
    reserved names: a non-reserved parameter is among them with its value,
    a reserved name is not.  Every turn calls the backend with keyword
    arguments made of [model], [tools], [messages] and [options], which the
    call sets itself, and of exactly these extras: the backend is handed
    every non-reserved parameter unchanged and neither [max_turns] nor
    [tool_map], and what it answers or raises when called so is what the
    turn goes on with.  Every backend call of an invocation is such a call,
    and there is one as soon as the configuration is accepted and a turn is
    allowed. *)
Theorem extra_keywords_forwarded
    client_fn messages options (kwargs : gmap string value) st :
  let out := run client_fn messages options kwargs st in
  let model := kwargs_get kwargs "model" VNone in
  let tools := kwargs_get kwargs "tools" VNone in
  let sent_at := fun st' : state W =>
    ChatCall model tools (default [] (heap st' !! messages)) options (chat_kwargs_of kwargs) in
  (forall k v, chat_kwargs_of kwargs !! k = Some v <-> kwargs !! k = Some v /\ k ∉ reserved)
  /\ (forall k, k ∈ reserved <->
         k = "model" \/ k = "tools" \/ k = "messages" \/ k = "options"
         \/ k = "max_turns" \/ k = "tool_map")
  /\ (forall k, k ∈ reserved -> chat_kwargs_of kwargs !! k = None)
  /\ (exists cs,
        calls out.2 = calls st ++ cs
        /\ Forall (fun c =>
              cc_extra c = chat_kwargs_of kwargs
              /\ (forall k, k ∉ reserved -> call_kwargs c !! k = kwargs !! k)
              /\ call_kwargs c !! "max_turns" = None
              /\ call_kwargs c !! "tool_map" = None) cs)
  /\ (forall id attrs tool_map st',
        client_fn = VObj id true attrs ->
        let answer := call env id [] (call_kwargs (sent_at st')) (world st') in
        let turn := chat_turn env client_fn messages model tools options tool_map
                      (chat_kwargs_of kwargs) st' in
        calls turn.2 = calls st' ++ [sent_at st']
        /\ (forall e, answer.1 = Raise e ->
              turn = (Raise e, State (heap st') answer.2 (calls st' ++ [sent_at st'])))
        /\ (forall response entry st2,
              answer.1 = Ret response ->
              hasattr response "message" = true ->
              _to_msg_dict env (getattr response "message" VNone)
                (State (heap st') answer.2 (calls st' ++ [sent_at st'])) = (Ret entry, st2) ->
              py_truthy (getattr (getattr response "message" VNone) "tool_calls" VNone)
              = false ->
              turn = (Ret (response, true),
                      State (alter (fun xs => xs ++ [entry]) messages (heap st2))
                            (world st2) (calls st2))))
  /\ (forall id attrs tool_map n,
        client_fn = VObj id true attrs ->
        is_none model = false ->
        init_tool_map env (kwargs_get kwargs "tool_map" VNone) tools = Ret tool_map ->
        range_len env (kwargs_get kwargs "max_turns" (VInt 20)) st = (Ret (S n), st) ->
        let answer := call env id [] (call_kwargs (sent_at st)) (world st) in
        (exists cs', calls out.2 = calls st ++ sent_at st :: cs')
        /\ (forall e, answer.1 = Raise e ->
              out = (Raise e, State (heap st) answer.2 (calls st ++ [sent_at st])))).
Proof.
  intros out model tools sent_at.
  assert (Hres : forall k, k ∈ reserved -> chat_kwargs_of kwargs !! k = None).
  { intros k Hk. destruct (chat_kwargs_of kwargs !! k) as [v|] eqn:E; [|reflexivity].
    apply chat_kwargs_lookup in E. tauto. }
  assert (Hnon : forall k, k ∉ reserved -> chat_kwargs_of kwargs !! k = kwargs !! k).
  { intros k Hk. destruct (kwargs !! k) as [v|] eqn:E.
    - apply chat_kwargs_lookup. auto.
    - destruct (chat_kwargs_of kwargs !! k) as [v|] eqn:E'; [|reflexivity].
      apply chat_kwargs_lookup in E'. destruct E' as [E' _]. congruence. }
  assert (Hturn : forall id attrs tool_map st' e,
    (call env id [] (call_kwargs (sent_at st')) (world st')).1 = Raise e ->
    chat_turn env (VObj id true attrs) messages model tools options tool_map
      (chat_kwargs_of kwargs) st'
    = (Raise e, State (heap st') (call env id [] (call_kwargs (sent_at st')) (world st')).2
                  (calls st' ++ [sent_at st']))).
  { intros id attrs tool_map st' e He. unfold chat_turn. unfold bind at 1.
    rewrite call_backend_call. cbn zeta. fold (sent_at st'). rewrite He. reflexivity. }
  split; [apply chat_kwargs_lookup|]. split; [apply reserved_spec|]. split; [exact Hres|].
  split; [|split].
  - destruct (run_calls client_fn messages options kwargs st) as (n & cs & _ & Hc & Hsent & _).
    exists cs. split; [exact Hc|].
    eapply Forall_impl; [exact Hsent|]. intros c (_ & _ & _ & Hx). cbn beta.
    split; [exact Hx|]. split; [|split].
    + intros k Hk. rewrite call_kwargs_extra, Hx.
      * apply Hnon, Hk.
      * intros ->. apply Hk, reserved_spec. auto.
      * intros ->. apply Hk, reserved_spec. auto.
      * intros ->. apply Hk, reserved_spec. auto.
      * intros ->. apply Hk, reserved_spec. auto.
    + rewrite call_kwargs_extra, Hx by discriminate. apply Hres, reserved_spec. auto 10.
    + rewrite call_kwargs_extra, Hx by discriminate. apply Hres, reserved_spec. auto 10.
  - intros id attrs tool_map st' -> answer turn. split; [|split].
    + destruct (chat_turn_effect (VObj id true attrs) messages model tools options tool_map
                  (chat_kwargs_of kwargs) st' eq_refl) as (es & Hcalls & _). exact Hcalls.
    + intros e He. apply Hturn, He.
    + intros response entry st2 Ha Hmsg Hd Hno. unfold turn.
      eapply chat_turn_final.
      * rewrite call_backend_call. cbn zeta. fold (sent_at st'). fold answer.
        rewrite Ha. reflexivity.
      * unfold attr. rewrite Hmsg. reflexivity.
      * exact Hd.
      * exact Hno.
  - intros id attrs tool_map n -> Hm Ht Hn answer. split.
    + apply (run_first_call _ _ _ _ _ tool_map n); auto.
    + intros e He. unfold out.
      rewrite (run_checked _ _ _ _ tool_map (S n)); try assumption; [|reflexivity].
      cbn [chat_loop]. unfold bind at 1. unfold bind at 1. fold model tools.
      rewrite (Hturn _ _ _ _ _ He). reflexivity.
Qed.

(** X9.  Every backend call of an invocation is made with the caller's
    [model], [tools] and [options] as they were given, the [tools] also when
    the registry comes from an explicit [tool_map], and with the transcript
    under [messages]: what the caller supplied followed by what the
    invocation had appended by then, the first call getting the supplied
    transcript itself.  The model it is called with is never [None].  As
    soon as the configuration is accepted and a turn is allowed there is
    such a call. *)
Theorem backend_arguments_constant
    client_fn messages options (kwargs : gmap string value) st xs :
  heap st !! messages = Some xs ->
  let out := run client_fn messages options kwargs st in
  exists cs ys,
    calls out.2 = calls st ++ cs
    /\ heap out.2 !! messages = Some ys
    /\ Forall (fun c =>
         call_kwargs c !! "model" = Some (kwargs_get kwargs "model" VNone)
         /\ call_kwargs c !! "tools" = Some (kwargs_get kwargs "tools" VNone)
         /\ call_kwargs c !! "options" = Some options
         /\ (exists before after,
               call_kwargs c !! "messages" = Some (VList (xs ++ before))
               /\ ys = xs ++ before ++ after)
         /\ is_none (cc_model c) = false) cs
    /\ (forall c cs', cs = c :: cs' -> call_kwargs c !! "messages" = Some (VList xs))
    /\ (forall tool_map n,
          is_none (kwargs_get kwargs "model" VNone) = false ->
          init_tool_map env (kwargs_get kwargs "tool_map" VNone)
            (kwargs_get kwargs "tools" VNone) = Ret tool_map ->
          callable client_fn = true ->
          range_len env (kwargs_get kwargs "max_turns" (VInt 20)) st = (Ret (S n), st) ->
          cs <> []).
Proof.
  intros Hxs out.
  destruct (run_fed client_fn messages options kwargs st xs Hxs) as (cs & ys & Hc & Hh & Hfed).
  destruct (run_calls client_fn messages options kwargs st) as (n & cs' & _ & Hc' & Hsent & _).
  assert (cs' = cs) as ->.
  { apply (app_inv_head (calls st)). rewrite <- Hc, <- Hc'. reflexivity. }
  exists cs, ys. split; [exact Hc|]. split; [exact Hh|]. split; [|split].
  - destruct (is_none (kwargs_get kwargs "model" VNone)) eqn:Hm.
    + assert (Hnone : kwargs_get kwargs "model" VNone = VNone).
      { destruct (kwargs_get kwargs "model" VNone); try discriminate. reflexivity. }
      rewrite (run_model_missing _ _ _ _ _ Hnone) in Hc. cbn in Hc.
      assert (cs = []) as ->.
      { apply (app_inv_head (calls st)). rewrite app_nil_r. symmetry. exact Hc. }
      constructor.
    + destruct (fed_between xs cs ys Hfed) as [_ Hbetween].
      apply Forall_forall. intros c Hin.
      pose proof (proj1 (Forall_forall _ _) Hsent c Hin) as (H1 & H2 & H3 & _).
      pose proof (proj1 (Forall_forall _ _) Hbetween c Hin) as (before & after & Hb & Ha).
      destruct (call_kwargs_named c) as (K1 & K2 & K3 & K4).
      rewrite K1, K2, K3, K4, H1, H2, H3, Hm. repeat split; auto.
      exists before, after. rewrite Hb. split; [reflexivity|].
      rewrite Ha, Hb, app_assoc. reflexivity.
  - intros c cs' ->. destruct (call_kwargs_named c) as (_ & _ & K3 & _).
    rewrite K3. destruct Hfed as [-> _]. reflexivity.
  - intros tool_map n' Hm Ht Hcall Hn ->.
    destruct (run_first_call client_fn messages options kwargs st tool_map n' Hm Ht Hcall Hn)
      as (cs' & Hfirst).
    rewrite app_nil_r in Hc. rewrite Hc in Hfirst.
    apply (f_equal length) in Hfirst. rewrite length_app in Hfirst. cbn in Hfirst. lia.
Qed.

(** ** Ill-typed configuration *)

Lemma build_tool_map_unhashable ts :
  Exists (fun t => py_truthy (_infer_tool_name t) = true
                   /\ hashable (_infer_tool_name t) = false) ts ->
  forall acc, exists t,
    In t ts /\ hashable (_infer_tool_name t) = false
    /\ build_tool_map env ts acc
       = Raise (Exn TypeError (errtext env TypeError (_infer_tool_name t))).
Proof.
  induction ts as [|t ts IH]; intros Hex acc; [inversion Hex|].
  cbn [build_tool_map].
  destruct (py_truthy (_infer_tool_name t)) eqn:Hn.
  - destruct (hashable (_infer_tool_name t)) eqn:Hh.
    + assert (Hex' : Exists (fun t => py_truthy (_infer_tool_name t) = true
                                      /\ hashable (_infer_tool_name t) = false) ts).
      { inversion Hex as [? ? [_ Hbad]|]; subst; [congruence | assumption]. }
      destruct (IH Hex' (dict_store acc (_infer_tool_name t) t)) as (t' & Hin & Hb & Hr).
      exists t'. split; [right; exact Hin | auto].
    + exists t. split; [left; reflexivity | auto].
  - assert (Hex' : Exists (fun t => py_truthy (_infer_tool_name t) = true
                                    /\ hashable (_infer_tool_name t) = false) ts).
    { inversion Hex as [? ? [Hbad _]|]; subst; [congruence | assumption]. }
    destruct (IH Hex' acc) as (t' & Hin & Hb & Hr).
    exists t'. split; [right; exact Hin | auto].
Qed.

(** X2.  With a model and no explicit [tool_map], a [tools] value that is
    non-empty and cannot be iterated, or that holds a tool whose inferred
    name is unhashable, makes the function raise [TypeError] while it builds
    the registry: the state is untouched, the backend is not called, and
    [client_fn] has not even been looked at. *)
Theorem ill_typed_tools_rejected
    client_fn messages options (kwargs : gmap string value) st :
  is_none (kwargs_get kwargs "model" VNone) = false ->
  kwargs_get kwargs "tool_map" VNone = VNone ->
  py_truthy (kwargs_get kwargs "tools" VNone) = true ->
  (py_iter (kwargs_get kwargs "tools" VNone) = None ->
     run client_fn messages options kwargs st
     = (Raise (Exn TypeError (errtext env TypeError (kwargs_get kwargs "tools" VNone))), st))
  /\ (forall ts,
        py_iter (kwargs_get kwargs "tools" VNone) = Some ts ->
        Exists (fun t => py_truthy (_infer_tool_name t) = true
                         /\ hashable (_infer_tool_name t) = false) ts ->
        exists t,
          In t ts /\ hashable (_infer_tool_name t) = false
          /\ run client_fn messages options kwargs st
             = (Raise (Exn TypeError (errtext env TypeError (_infer_tool_name t))), st)).
Proof.
  intros Hm Htm Htools. split.
  - intros Hiter. unfold ollama_automatic_function_calling.
    rewrite Hm, Htm. unfold init_tool_map. cbn [is_none andb]. rewrite Htools, Hiter.
    reflexivity.
  - intros ts Hiter Hex.
    destruct (build_tool_map_unhashable ts Hex []) as (t & Hin & Hbad & Hr).
    exists t. split; [exact Hin|]. split; [exact Hbad|].
    unfold ollama_automatic_function_calling.
    rewrite Hm, Htm. unfold init_tool_map. cbn [is_none andb]. rewrite Htools, Hiter, Hr.
    reflexivity.
Qed.

(** X10.  [max_turns] goes to [range]: a value that is neither an integer
    nor a boolean makes the function raise [TypeError] once the
    configuration is accepted, before any backend call; [False] counts as
    zero turns, and [True] as one turn, which makes exactly one backend
    call. *)
Theorem max_turns_must_be_integer
    client_fn messages options (kwargs : gmap string value) st tool_map :
  is_none (kwargs_get kwargs "model" VNone) = false ->
  init_tool_map env (kwargs_get kwargs "tool_map" VNone) (kwargs_get kwargs "tools" VNone)
    = Ret tool_map ->
  callable client_fn = true ->
  let max_turns := kwargs_get kwargs "max_turns" (VInt 20) in
  let out := run client_fn messages options kwargs st in
  ((forall n, max_turns <> VInt n) -> (forall b, max_turns <> VBool b) ->
     out = (Raise (Exn TypeError (errtext env TypeError max_turns)), st))
  /\ (max_turns = VBool false -> out = (Ret (VNone, messages), st))
  /\ (max_turns = VBool true ->
      calls out.2
      = calls st ++ [ChatCall (kwargs_get kwargs "model" VNone)
                              (kwargs_get kwargs "tools" VNone)
                              (default [] (heap st !! messages)) options
                              (chat_kwargs_of kwargs)]).
Proof.
  intros Hm Ht Hc max_turns out. split; [|split].
  - intros Hint Hbool. unfold out, ollama_automatic_function_calling.
    rewrite Hm, Ht, Hc. cbn [negb]. unfold bind, lift_result. fold max_turns.
    destruct max_turns; try reflexivity; [destruct (Hbool b) | destruct (Hint n)]; reflexivity.
  - intros Hfalse. unfold out.
    rewrite (run_checked _ _ _ _ tool_map 0%nat); try assumption; [reflexivity|].
    fold max_turns. rewrite Hfalse. reflexivity.
  - intros Htrue. unfold out.
    rewrite (run_checked _ _ _ _ tool_map 1%nat); try assumption.
    2:{ fold max_turns. rewrite Htrue. reflexivity. }
    cbn [chat_loop]. unfold bind.
    destruct (chat_turn_effect client_fn messages (kwargs_get kwargs "model" VNone)
                (kwargs_get kwargs "tools" VNone) options tool_map (chat_kwargs_of kwargs)
                st Hc) as (es & Hcalls & _ & _).
    destruct (chat_turn env client_fn messages _ _ options tool_map _ st) as [[turn|e] st1];
      cbn [fst snd] in Hcalls |- *; [|exact Hcalls].
    destruct (turn.2); exact Hcalls.
Qed.

(** X16.  A response without a [message] attribute makes the function raise
    [AttributeError] right after the backend call that returned it; nothing
    has been appended to the transcript. *)
Theorem response_without_message
    client_fn messages options (kwargs : gmap string value) st tool_map n response st1 :
  is_none (kwargs_get kwargs "model" VNone) = false ->
  init_tool_map env (kwargs_get kwargs "tool_map" VNone) (kwargs_get kwargs "tools" VNone)
    = Ret tool_map ->
  range_len env (kwargs_get kwargs "max_turns" (VInt 20)) st = (Ret (S n), st) ->
  call_backend env client_fn messages (kwargs_get kwargs "model" VNone)
    (kwargs_get kwargs "tools" VNone) options (chat_kwargs_of kwargs) st
    = (Ret response, st1) ->
  hasattr response "message" = false ->
  run client_fn messages options kwargs st
  = (Raise (Exn AttributeError (errtext env AttributeError response)), st1)
  /\ heap st1 = heap st
  /\ calls st1
     = calls st ++ [ChatCall (kwargs_get kwargs "model" VNone)
                             (kwargs_get kwargs "tools" VNone)
                             (default [] (heap st !! messages)) options
                             (chat_kwargs_of kwargs)].
Proof.
  intros Hm Ht Hn Hb Hmsg.
  pose proof (call_backend_callable _ _ _ _ _ _ _ _ _ Hb) as Hc.
  destruct (call_backend_state _ _ _ _ _ _ _ _ _ Hb) as [Hh Hcalls].
  split; [|split; [exact Hh | exact (Hcalls Hc)]].
  rewrite (run_checked _ _ _ _ tool_map (S n)); try assumption.
  cbn [chat_loop]. unfold bind at 1. unfold bind at 1. unfold chat_turn.
  unfold bind at 1. rewrite Hb. unfold bind at 1. unfold attr. rewrite Hmsg. reflexivity.
Qed.

(** ** Tools that cannot be invoked, and tools that are wrapped *)

(** X3.  A tool given as a mapping descriptor is registered under its
    [function.name] like any other, but a mapping is not callable: a request
    for that name is answered with the tool-not-found message, and nothing
    is invoked.  The message is there when [str] writes the name, as it
    does every string; when writing the name raises, that exception ends
    the request with nothing appended. *)
Theorem mapping_descriptor_not_invocable
    messages ts reg tool_call tool_name tool_args t st :
  build_tool_map env ts [] = Ret reg ->
  names_hashable ts ->
  _extract_tool_call_parts tool_call = (tool_name, tool_args) ->
  hashable tool_name = true ->
  last_named ts tool_name = Some t ->
  is_dict t = true ->
  init_tool_map env VNone (VList ts) = Ret (VDict reg)
  /\ dict_lookup reg tool_name = Some t
  /\ (forall name, py_str env tool_name = Ret name ->
      handle_tool_call env messages (VDict reg) tool_call st
      = (Ret tt,
         appended messages
           (tool_message (VStr ("Tool '" +:+ name +:+ "' not found."))
                         (py_or tool_name (VStr "unknown_tool"))) st))
  /\ (forall e, py_str env tool_name = Raise e ->
      handle_tool_call env messages (VDict reg) tool_call st = (Raise e, st))
  /\ (forall s, py_str env (VStr s) = Ret s).
Proof.
  intros Hb Hh Hx Hk Hlast Hd.
  destruct (build_tool_map_lookup ts Hh []) as (reg' & Hb' & Hl).
  rewrite Hb in Hb'. injection Hb' as <-.
  assert (Hlook : dict_lookup reg tool_name = Some t).
  { rewrite Hl, Hlast. reflexivity. }
  assert (Hstep : handle_tool_call env messages (VDict reg) tool_call st
                  = report_missing messages tool_name st).
  { eapply handle_tool_call_missing; [exact Hx | |].
    + apply registry_get_lookup; [right; eauto | exact Hk].
    + cbn. rewrite Hlook. destruct t; try discriminate. reflexivity. }
  split; [|split; [exact Hlook|]].
  - rewrite init_tool_map_list; [rewrite Hb; reflexivity|].
    intros ->. discriminate Hlast.
  - unfold report_missing in Hstep. split; [|split].
    + intros name Hn. rewrite Hn in Hstep. exact Hstep.
    + intros e Hn. rewrite Hn in Hstep. exact Hstep.
    + reflexivity.
Qed.

(** X6.  A registered tool that carries a callable [__wrapped__] is not
    invoked itself: the call goes to the wrapped object, one level down and
    no further, with the keyword arguments of the request, and its result
    or failure is what the tool message reports.  A [__wrapped__] that is
    not callable is ignored. *)
Theorem decorated_tool_unwrapped
    messages tool_map tool_call tool_name tool_args st tool_fn st1 kw id attrs :
  _extract_tool_call_parts tool_call = (tool_name, tool_args) ->
  registry_get env tool_map tool_name st = (Ret tool_fn, st1) ->
  callable tool_fn = true ->
  getattr tool_fn "__wrapped__" VNone = VObj id true attrs ->
  kwargs_of (py_or (effective_arguments tool_args) (VDict [])) = Some kw ->
  _resolve_callable tool_fn = VObj id true attrs
  /\ handle_tool_call env messages tool_map tool_call st
     = tool_call_outcome messages tool_name
         (call env id [] kw (world st1)).1 (call env id [] kw (world st1)).2 st1
  /\ (forall fn, callable (getattr fn "__wrapped__" VNone) = false ->
        _resolve_callable fn = fn).
Proof.
  intros Hx Hg Hc Hw Hk.
  assert (Hr : _resolve_callable tool_fn = VObj id true attrs).
  { unfold _resolve_callable. rewrite Hw. reflexivity. }
  split; [exact Hr|]. split.
  - eapply handle_tool_call_found; eassumption.
  - intros fn Hfn. unfold _resolve_callable. rewrite Hfn. reflexivity.
Qed.

Lemma kwargs_of_non_mapping v :
  py_truthy v = true -> is_dict v = false -> kwargs_of (py_or v (VDict [])) = None.
Proof.
  intros Ht Hd. unfold py_or. rewrite Ht. destruct v; try discriminate; reflexivity.
Qed.

(** X11.  When the arguments of a request, decoded if they were a text, are
    a non-empty value that is no mapping with string keys (a JSON list, a
    number, [true]), the tool is not invoked at all: the collaborators are
    left as they were, and the tool message reports the [TypeError] of the
    call as a failed execution.  The message is there when [str] writes the
    name, as it does every string; when writing the name raises, in the
    handler, that exception ends the request with nothing appended. *)
Theorem non_mapping_arguments_reported
    messages tool_map tool_call tool_name tool_args st tool_fn st1 :
  _extract_tool_call_parts tool_call = (tool_name, tool_args) ->
  registry_get env tool_map tool_name st = (Ret tool_fn, st1) ->
  callable tool_fn = true ->
  kwargs_of (py_or (effective_arguments tool_args) (VDict [])) = None ->
  (forall name, py_str env tool_name = Ret name ->
     handle_tool_call env messages tool_map tool_call st
     = (Ret tt,
        State (alter (fun xs => xs ++
                 [tool_message
                    (VStr ("Tool '" +:+ name +:+ "' execution failed: "
                           +:+ errtext env TypeError (effective_arguments tool_args)))
                    tool_name]) messages (heap st1))
              (world st1) (calls st1)))
  /\ (forall e, py_str env tool_name = Raise e ->
      handle_tool_call env messages tool_map tool_call st = (Raise e, st1))
  /\ (forall s, py_str env (VStr s) = Ret s)
  /\ (forall v, py_truthy v = true -> is_dict v = false ->
        kwargs_of (py_or v (VDict [])) = None).
Proof.
  intros Hx Hg Hc Hk.
  pose proof (handle_tool_call_bad_arguments messages _ _ _ _ _ _ _ Hx Hg Hc Hk) as Hstep.
  unfold report_failure in Hstep.
  split; [|split; [|split; [reflexivity | exact kwargs_of_non_mapping]]].
  - intros name Hn. rewrite Hn in Hstep. exact Hstep.
  - intros e Hn. rewrite Hn in Hstep. exact Hstep.
Qed.

(** X17.  The registry is asked outside the [try] block: a request whose
    name is unhashable (a list, a mapping), met with a non-empty registry,
    makes the lookup raise [TypeError], which ends the processing of the
    turn with nothing appended for that request nor for the following ones.
    With an empty registry, or none, the same request only gets the
    tool-not-found message, in which the name is as [str] writes it; if
    [str] raises about the name, that exception ends the processing
    instead. *)
Theorem unhashable_request_name
    messages kv kvs tool_call rest tool_name tool_args st :
  _extract_tool_call_parts tool_call = (tool_name, tool_args) ->
  hashable tool_name = false ->
  run_tool_calls env messages (VDict (kv :: kvs)) (tool_call :: rest) st
  = (Raise (Exn TypeError (errtext env TypeError tool_name)), st)
  /\ (forall tool_map name, py_truthy tool_map = false ->
        py_str env tool_name = Ret name ->
        handle_tool_call env messages tool_map tool_call st
        = (Ret tt,
           appended messages
             (tool_message (VStr ("Tool '" +:+ name +:+ "' not found."))
                           (py_or tool_name (VStr "unknown_tool"))) st))
  /\ (forall tool_map e, py_truthy tool_map = false ->
        py_str env tool_name = Raise e ->
        handle_tool_call env messages tool_map tool_call st = (Raise e, st))
  /\ py_str env tool_name = str_compound env tool_name.
Proof.
  intros Hx Hh.
  assert (Hstep : forall tool_map, py_truthy tool_map = false ->
            handle_tool_call env messages tool_map tool_call st
            = report_missing messages tool_name st).
  { intros tool_map Hf. apply (handle_tool_call_missing messages tool_map tool_call
                                 tool_name tool_args st VNone st Hx); [|reflexivity].
    unfold registry_get. rewrite Hf. reflexivity. }
  split; [|split; [|split]].
  - cbn [run_tool_calls]. unfold bind at 1. unfold handle_tool_call. rewrite Hx.
    unfold bind at 1. unfold registry_get. cbn [py_truthy]. rewrite Hh. reflexivity.
  - intros tool_map name Hf Hn. rewrite (Hstep tool_map Hf). unfold report_missing.
    rewrite Hn. reflexivity.
  - intros tool_map e Hf Hn. rewrite (Hstep tool_map Hf). unfold report_missing.
    rewrite Hn. reflexivity.
  - destruct tool_name; try discriminate; reflexivity.
Qed.

(** ** The shapes of requests and of messages *)

(** X4.  [_extract_tool_call_parts] reads a request the same way whether
    the request, or its [function] part, is an object or a mapping: equal
    [function] parts, and equal [name] and [arguments] in them, give equal
    results.  The arguments it returns are never an empty value other than
    the empty mapping, and a request without a [function] part yields no
    name and no arguments. *)
Theorem tool_call_parts_shape_independent :
  (forall i c attrs kvs f,
      assoc "function" attrs = Some f -> is_none f = false ->
      dict_lookup kvs (VStr "function") = Some f ->
      _extract_tool_call_parts (VObj i c attrs) = _extract_tool_call_parts (VDict kvs))
  /\ (forall i c attrs1 attrs2 j c' fa fd,
        assoc "function" attrs1 = Some (VObj j c' fa) ->
        assoc "function" attrs2 = Some (VDict fd) ->
        assoc "name" fa = dict_lookup fd (VStr "name") ->
        assoc "arguments" fa = dict_lookup fd (VStr "arguments") ->
        _extract_tool_call_parts (VObj i c attrs1) = _extract_tool_call_parts (VObj i c attrs2))
  /\ (forall tool_call,
        py_truthy (_extract_tool_call_parts tool_call).2 = true
        \/ (_extract_tool_call_parts tool_call).2 = VDict [])
  /\ (forall tool_call,
        getattr tool_call "function" VNone = VNone -> is_dict tool_call = false ->
        _extract_tool_call_parts tool_call = (VNone, VDict []))
  /\ (forall kvs,
        dict_lookup kvs (VStr "function") = None ->
        _extract_tool_call_parts (VDict kvs) = (VNone, VDict [])).
Proof.
  split; [|split; [|split; [|split]]].
  - intros i c attrs kvs f Ha Hf Hd. unfold _extract_tool_call_parts.
    cbn [getattr is_dict dict_get_str]. rewrite Ha, Hd, Hf. cbn [andb is_none].
    destruct (is_none f) eqn:E; [discriminate | reflexivity].
  - intros i c attrs1 attrs2 j c' fa fd H1 H2 Hn Hargs. unfold _extract_tool_call_parts.
    cbn [getattr]. rewrite H1, H2. cbn [is_none andb is_dict getattr dict_get_str].
    rewrite Hn, Hargs. reflexivity.
  - intros tool_call. unfold _extract_tool_call_parts.
    match goal with
    | |- context [if is_dict ?f then _ else _] => destruct (is_dict f)
    end; cbn [snd]; unfold py_or;
      match goal with
      | |- context [if py_truthy ?a then _ else _] =>
          destruct (py_truthy a) eqn:E; [left; exact E | right; reflexivity]
      end.
  - intros tool_call Hf Hd. unfold _extract_tool_call_parts. rewrite Hf, Hd. reflexivity.
  - intros kvs Hd.
    assert (E : dict_get_str (VDict kvs) "function" (VDict []) = VDict []).
    { cbn. rewrite Hd. reflexivity. }
    unfold _extract_tool_call_parts. cbn [getattr is_none is_dict andb].
    rewrite E. reflexivity.
Qed.

(** X5.  A message without [model_dump] is normalised without calling
    anyone and without touching the state, to a mapping which a second
    normalisation leaves as it is.  An opaque message gives a mapping of
    [role] and [content] alone: the tool calls it requested are not part of
    the entry that goes to the transcript. *)
Theorem normalisation_without_dump msg st :
  hasattr msg "model_dump" = false ->
  exists d,
    _to_msg_dict env msg st = (Ret (VDict d), st)
    /\ (forall st', _to_msg_dict env (VDict d) st' = (Ret (VDict d), st'))
    /\ (is_dict msg = true -> VDict d = msg)
    /\ (is_dict msg = false ->
        d = [ (VStr "role", getattr msg "role" (VStr "assistant"));
              (VStr "content", getattr msg "content" (VStr "")) ]
        /\ dict_lookup d (VStr "tool_calls") = None).
Proof.
  intros Hd. unfold _to_msg_dict. rewrite Hd. destruct (is_dict msg) eqn:Hi.
  - destruct msg as [| | | | |kvs|]; try discriminate. exists kvs.
    repeat split; auto; discriminate.
  - eexists. split; [reflexivity|]. split; [reflexivity|]. split; [discriminate|].
    intros _. split; reflexivity.
Qed.

(** ** Without a registry *)

Lemma run_tool_calls_unregistered messages tool_map tool_calls :
  py_truthy tool_map = false ->
  forall names st,
    Forall2 (fun tc name => py_str env (_extract_tool_call_parts tc).1 = Ret name)
            tool_calls names ->
    run_tool_calls env messages tool_map tool_calls st
    = (Ret tt,
       State (alter (fun xs => xs ++ zip_with (fun tc name =>
                                        not_found_entry name (_extract_tool_call_parts tc).1)
                                      tool_calls names) messages (heap st))
             (world st) (calls st)).
Proof.
  intros Hf names st Hall. revert st.
  induction Hall as [|tc name rest names Hname _ IH]; intros st.
  - cbn. rewrite alter_append_nil. destruct st; reflexivity.
  - assert (H : handle_tool_call env messages tool_map tc st
                = (Ret tt, appended messages
                             (not_found_entry name (_extract_tool_call_parts tc).1) st)).
    { destruct (_extract_tool_call_parts tc) as [tool_name args] eqn:Hx. cbn [fst] in *.
      rewrite (handle_tool_call_missing messages tool_map tc tool_name args st VNone st Hx);
        [| unfold registry_get; rewrite Hf; reflexivity | reflexivity].
      unfold report_missing. rewrite Hname. reflexivity. }
    rewrite (run_tool_calls_cons _ _ _ _ _ _ H), IH. unfold appended.
    cbn [heap world calls zip_with]. rewrite alter_append_app. reflexivity.
Qed.

Lemma handle_tool_call_unregistered messages tool_map tool_call st :
  py_truthy tool_map = false ->
  world (handle_tool_call env messages tool_map tool_call st).2 = world st.
Proof.
  intros Hf. destruct (_extract_tool_call_parts tool_call) as [tool_name args] eqn:Hx.
  rewrite (handle_tool_call_missing messages tool_map tool_call tool_name args st VNone st Hx);
    [| unfold registry_get; rewrite Hf; reflexivity | reflexivity].
  unfold report_missing. destruct (py_str env tool_name); reflexivity.
Qed.

Lemma run_tool_calls_unregistered_world messages tool_map tool_calls :
  py_truthy tool_map = false ->
  forall st, world (run_tool_calls env messages tool_map tool_calls st).2 = world st.
Proof.
  intros Hf. induction tool_calls as [|tc rest IH]; intros st; [reflexivity|].
  cbn [run_tool_calls]. unfold bind.
  pose proof (handle_tool_call_unregistered messages tool_map tc st Hf) as Hw.
  destruct (handle_tool_call env messages tool_map tc st) as [[[]|e] st1]; cbn [snd] in Hw |- *.
  - rewrite IH. exact Hw.
  - exact Hw.
Qed.

(** X18.  When the registry is empty or was never built, no tool is ever
    invoked: the collaborators are left as they were and no backend call is
    made, and when [str] writes the names of the requests, as it does every
    string and an absent name, every requested call of the turn gets the
    tool-not-found message, in order.  This is the case when [tools] is
    absent or empty and no [tool_map] is given, and also when the caller
    gives an empty [tool_map], which is kept as it is whatever [tools]
    holds: no name is inferred then. *)
Theorem no_registry_no_invocation messages tool_map tool_calls st :
  py_truthy tool_map = false ->
  (forall names,
      Forall2 (fun tc name => py_str env (_extract_tool_call_parts tc).1 = Ret name)
              tool_calls names ->
      run_tool_calls env messages tool_map tool_calls st
      = (Ret tt,
         State (alter (fun xs => xs ++ zip_with (fun tc name =>
                                          tool_message
                                            (VStr ("Tool '" +:+ name +:+ "' not found."))
                                            (py_or (_extract_tool_call_parts tc).1
                                                   (VStr "unknown_tool")))
                                        tool_calls names) messages (heap st))
               (world st) (calls st)))
  /\ world (run_tool_calls env messages tool_map tool_calls st).2 = world st
  /\ calls (run_tool_calls env messages tool_map tool_calls st).2 = calls st
  /\ (forall s, py_str env (VStr s) = Ret s)
  /\ py_str env VNone = Ret "None"
  /\ (forall tools, init_tool_map env (VDict []) tools = Ret (VDict []))
  /\ (forall tools, py_truthy tools = false -> init_tool_map env VNone tools = Ret VNone).
Proof.
  intros Hf. split; [|split; [|split; [|split; [|split; [|split]]]]].
  - intros names Hall. apply run_tool_calls_unregistered; assumption.
  - apply run_tool_calls_unregistered_world, Hf.
  - apply run_tool_calls_effect.
  - reflexivity.
  - reflexivity.
  - intros tools. reflexivity.
  - intros tools Ht. unfold init_tool_map. rewrite Ht. reflexivity.
Qed.

End Properties.

(** * The example tools *)

(** X12.  On integers, booleans counting as 0 and 1, [add], [sub] and [mul]
    return the exact sum, difference and product, as an integer, and never
    raise; [sub] undoes [add] and [add] undoes [sub].  [div] raises
    [ZeroDivisionError] for a zero divisor; for any other divisor it is the
    division of the interpreter, [true_div] of the two integers, which gives
    a float or raises in its turn, [OverflowError] when an operand is too
    large for a float.  On two strings [add] concatenates where [sub] raises
    [TypeError]. *)
Theorem integer_arithmetic_exact errtext true_div a b x y :
  Calculator.as_int a = Some x ->
  Calculator.as_int b = Some y ->
  Calculator.add errtext a b = Ret (VInt (x + y))
  /\ Calculator.sub errtext a b = Ret (VInt (x - y))
  /\ Calculator.mul errtext a b = Ret (VInt (x * y))
  /\ Calculator.sub errtext (VInt (x + y)) b = Ret (VInt x)
  /\ Calculator.add errtext (VInt (x - y)) b = Ret (VInt x)
  /\ (y = 0%Z ->
      Calculator.div errtext true_div a b
      = Raise (Exn OtherException (errtext OtherException (VList [a; b]))))
  /\ (y <> 0%Z -> Calculator.div errtext true_div a b = true_div x y)
  /\ (forall s t,
        Calculator.add errtext (VStr s) (VStr t) = Ret (VStr (s +:+ t))
        /\ Calculator.sub errtext (VStr s) (VStr t)
           = Raise (Exn TypeError (errtext TypeError (VList [VStr s; VStr t])))).
Proof.
  intros Ha Hb.
  unfold Calculator.add, Calculator.sub, Calculator.mul, Calculator.div,
    Calculator.py_add, Calculator.py_sub, Calculator.py_mul, Calculator.py_truediv.
  rewrite Ha, Hb. cbn [Calculator.as_int].
  split; [reflexivity|]. split; [reflexivity|]. split; [reflexivity|].
  split; [f_equal; f_equal; lia|]. split; [f_equal; f_equal; lia|].
  split; [|split].
  - intros ->. reflexivity.
  - intros Hy. destruct (Z.eqb_spec y 0); [contradiction | reflexivity].
  - intros s t. split; reflexivity.
Qed.

Lemma calculator_tools_registered {W} (base : interp W) true_div :
  init_tool_map (Calculator.interp_with true_div base) VNone (VList Calculator.tools)
  = Ret (VDict calculator_registry).
Proof. reflexivity. Qed.

Lemma bind_a_b_named (kw : gmap string value) a b :
  kw !! "a" = Some a -> kw !! "b" = Some b -> size kw = 2%nat ->
  Calculator.bind_a_b [] kw = Some (a, b).
Proof.
  intros Ha Hb Hs. unfold Calculator.bind_a_b. rewrite Ha, Hb.
  destruct (decide (size kw = 2%nat)); [reflexivity | contradiction].
Qed.

(** X13.  The registry inferred from [tools=[add, sub, mul, div]] holds each
    function under its own name, and a request for [add], [sub] or [mul]
    with integer arguments [a] and [b], given as a mapping or as a text that
    decodes to one, is answered with a tool message; the state of the
    collaborators is not changed.  The content of the message is the
    decimal writing of the sum, difference or product when that integer has
    no more digits than the limit of the interpreter; when it has more,
    [str] raises [ValueError] inside the [try] block and the content is the
    execution-failed text, though the tool returned. *)
Theorem calculator_result_in_transcript {W} (base : interp W) true_div
    messages tool_call name tool_args kw x y st :
  let env := Calculator.interp_with true_div base in
  _extract_tool_call_parts tool_call = (VStr name, tool_args) ->
  kwargs_of (py_or (effective_arguments env tool_args) (VDict [])) = Some kw ->
  kw !! "a" = Some (VInt x) ->
  kw !! "b" = Some (VInt y) ->
  size kw = 2%nat ->
  let too_long := fun result : Z =>
    ((0 <? int_max_str_digits base)%Z && (int_max_str_digits base <? int_digits result)%Z)%bool in
  let answered := fun result : Z =>
    handle_tool_call env messages (VDict calculator_registry) tool_call st
    = (Ret tt,
       appended messages
         (tool_message
            (VStr (if too_long result
                   then "Tool '" +:+ name +:+ "' execution failed: "
                        +:+ errtext base ValueError (VInt result)
                   else pretty result))
            (VStr name)) st) in
  init_tool_map env VNone (VList Calculator.tools) = Ret (VDict calculator_registry)
  /\ (name = "add" -> answered (x + y)%Z)
  /\ (name = "sub" -> answered (x - y)%Z)
  /\ (name = "mul" -> answered (x * y)%Z).
Proof.
  intros env Hx Hk Ha Hb Hs too_long answered.
  pose proof (bind_a_b_named kw _ _ Ha Hb Hs) as Hbind.
  split; [reflexivity|]. unfold answered, too_long. split; [|split]; intros ->.
  - rewrite (handle_tool_call_found env messages (VDict calculator_registry) tool_call
               (VStr "add") tool_args st Calculator.add_fn st kw 21%nat
               [("__name__", VStr "add")] Hx eq_refl eq_refl eq_refl Hk).
    cbn [call env Calculator.interp_with fst snd]. unfold Calculator.call_binary.
    rewrite Hbind. unfold tool_call_outcome, report_failure.
    cbn [Calculator.add Calculator.py_add Calculator.as_int py_str int_max_str_digits errtext].
    destruct (_ && _)%bool; destruct st; reflexivity.
  - rewrite (handle_tool_call_found env messages (VDict calculator_registry) tool_call
               (VStr "sub") tool_args st Calculator.sub_fn st kw 22%nat
               [("__name__", VStr "sub")] Hx eq_refl eq_refl eq_refl Hk).
    cbn [call env Calculator.interp_with fst snd]. unfold Calculator.call_binary.
    rewrite Hbind. unfold tool_call_outcome, report_failure.
    cbn [Calculator.sub Calculator.py_sub Calculator.as_int py_str int_max_str_digits errtext].
    destruct (_ && _)%bool; destruct st; reflexivity.
  - rewrite (handle_tool_call_found env messages (VDict calculator_registry) tool_call
               (VStr "mul") tool_args st Calculator.mul_fn st kw 23%nat
               [("__name__", VStr "mul")] Hx eq_refl eq_refl eq_refl Hk).
    cbn [call env Calculator.interp_with fst snd]. unfold Calculator.call_binary.
    rewrite Hbind. unfold tool_call_outcome, report_failure.
    cbn [Calculator.mul Calculator.py_mul Calculator.as_int py_str int_max_str_digits errtext].
    destruct (_ && _)%bool; destruct st; reflexivity.
Qed.

(** X14.  A request for [div] with an integer dividend and the divisor 0
    does not stop the loop: the [ZeroDivisionError] of the tool becomes the
    execution-failed tool message and the remaining requests of the turn
    are processed. *)
Theorem division_by_zero_reported {W} (base : interp W) true_div
    messages tool_call rest tool_args kw x st :
  let env := Calculator.interp_with true_div base in
  _extract_tool_call_parts tool_call = (VStr "div", tool_args) ->
  kwargs_of (py_or (effective_arguments env tool_args) (VDict [])) = Some kw ->
  kw !! "a" = Some (VInt x) ->
  kw !! "b" = Some (VInt 0) ->
  size kw = 2%nat ->
  let st' :=
    appended messages
      (tool_message
         (VStr ("Tool 'div' execution failed: "
                +:+ errtext base OtherException (VList [VInt x; VInt 0])))
         (VStr "div")) st in
  handle_tool_call env messages (VDict calculator_registry) tool_call st = (Ret tt, st')
  /\ run_tool_calls env messages (VDict calculator_registry) (tool_call :: rest) st
     = run_tool_calls env messages (VDict calculator_registry) rest st'.
Proof.
  intros env Hx Hk Ha Hb Hs st'.
  pose proof (bind_a_b_named kw _ _ Ha Hb Hs) as Hbind.
  assert (H : handle_tool_call env messages (VDict calculator_registry) tool_call st
              = (Ret tt, st')).
  { rewrite (handle_tool_call_found env messages (VDict calculator_registry) tool_call
               (VStr "div") tool_args st Calculator.div_fn st kw 24%nat
               [("__name__", VStr "div")] Hx eq_refl eq_refl eq_refl Hk).
    cbn [call env Calculator.interp_with fst snd]. unfold Calculator.call_binary.
    rewrite Hbind. reflexivity. }
  split; [exact H | apply run_tool_calls_cons, H].
Qed.

(** X15.  A request for one of the four tools whose arguments do not bind to
    the parameters [a] and [b], one missing or one too many, does not stop
    the loop either: the function body is not run, and the [TypeError] of
    the call becomes the execution-failed tool message. *)
Theorem unbound_arguments_reported {W} (base : interp W) true_div
    messages tool_call name fn tool_args kw st :
  let env := Calculator.interp_with true_div base in
  _extract_tool_call_parts tool_call = (VStr name, tool_args) ->
  kwargs_of (py_or (effective_arguments env tool_args) (VDict [])) = Some kw ->
  In (VStr name, fn) calculator_registry ->
  kw !! "a" = None \/ kw !! "b" = None \/ size kw <> 2%nat ->
  Calculator.bind_a_b [] kw = None
  /\ handle_tool_call env messages (VDict calculator_registry) tool_call st
     = (Ret tt,
        appended messages
          (tool_message
             (VStr ("Tool '" +:+ name +:+ "' execution failed: "
                    +:+ errtext base TypeError (Calculator.call_shape fn [] kw)))
             (VStr name)) st).
Proof.
  intros env Hx Hk Hin Hbad.
  assert (Hbind : Calculator.bind_a_b [] kw = None).
  { unfold Calculator.bind_a_b.
    destruct (kw !! "a") as [a|]; [|reflexivity].
    destruct (kw !! "b") as [b|]; [|reflexivity].
    destruct (decide (size kw = 2%nat)) as [Hs|]; [|reflexivity].
    destruct Hbad as [H|[H|H]]; [discriminate | discriminate | contradiction]. }
  split; [exact Hbind|].
  destruct Hin as [[= <- <-]|[[= <- <-]|[[= <- <-]|[[= <- <-]|[]]]]].
  - rewrite (handle_tool_call_found env messages (VDict calculator_registry) tool_call
               (VStr "add") tool_args st Calculator.add_fn st kw 21%nat
               [("__name__", VStr "add")] Hx eq_refl eq_refl eq_refl Hk).
    cbn [call env Calculator.interp_with fst snd]. unfold Calculator.call_binary.
    rewrite Hbind. reflexivity.
  - rewrite (handle_tool_call_found env messages (VDict calculator_registry) tool_call
               (VStr "sub") tool_args st Calculator.sub_fn st kw 22%nat
               [("__name__", VStr "sub")] Hx eq_refl eq_refl eq_refl Hk).
    cbn [call env Calculator.interp_with fst snd]. unfold Calculator.call_binary.
    rewrite Hbind. reflexivity.
  - rewrite (handle_tool_call_found env messages (VDict calculator_registry) tool_call
               (VStr "mul") tool_args st Calculator.mul_fn st kw 23%nat
               [("__name__", VStr "mul")] Hx eq_refl eq_refl eq_refl Hk).
    cbn [call env Calculator.interp_with fst snd]. unfold Calculator.call_binary.
    rewrite Hbind. reflexivity.
  - rewrite (handle_tool_call_found env messages (VDict calculator_registry) tool_call
               (VStr "div") tool_args st Calculator.div_fn st kw 24%nat
               [("__name__", VStr "div")] Hx eq_refl eq_refl eq_refl Hk).
    cbn [call env Calculator.interp_with fst snd]. unfold Calculator.call_binary.
    rewrite Hbind. reflexivity.
Qed.

(** * The program on concrete runs *)

Example json_loads_object :
  Json.loads text_a1_b2 = Some (VDict [(VStr "a", VInt 1); (VStr "b", VInt 2)]).
Proof. vm_compute. reflexivity. Qed.

Example json_loads_not_json : Json.loads "not json" = None.
Proof. vm_compute. reflexivity. Qed.

Example json_loads_nested :
  Json.loads ("[1, -20, {" +:+ quoted "k" +:+ ": [true, null]}, " +:+ quoted "s" +:+ "] ")
  = Some (VList [VInt 1; VInt (-20);
                 VDict [(VStr "k", VList [VBool true; VNone])]; VStr "s"]).
Proof. vm_compute. reflexivity. Qed.

Example json_loads_trailing : Json.loads "[1, 2] x" = None.
Proof. vm_compute. reflexivity. Qed.

(** The end-to-end scenario: the first turn asks for [add(a=4, b=7)], the
    second one answers; the transcript ends with four entries. *)
Example end_to_end :
  let env := Demo.scripted
    [Demo.response (Demo.assistant ""
       (VList [Demo.tool_call (VStr "add") (VDict [(VStr "a", VInt 4); (VStr "b", VInt 7)])]))] in
  let kwargs : gmap string value :=
    {[ "model" := VStr "glm-5:cloud"; "tools" := VList [Demo.add_fn] ]} in
  let out := ollama_automatic_function_calling env Demo.chat 7%nat VNone kwargs
               (Demo.start [Demo.user "4+7?"]) in
  out.1 = Ret (Demo.response (Demo.assistant "done" VNone), 7%nat)
  /\ heap out.2 !! 7%nat =
       Some [ Demo.user "4+7?";
              VDict [(VStr "role", VStr "assistant"); (VStr "content", VStr "")];
              tool_message (VStr "11") (VStr "add");
              VDict [(VStr "role", VStr "assistant"); (VStr "content", VStr "done")] ]
  /\ length (calls out.2) = 2%nat.
Proof. vm_compute. auto. Qed.

(** A message that is a mapping is not asked for its requests: line 99
    reads the attribute [tool_calls], which a dictionary does not have, and
    the function returns after the first turn. *)
Example mapping_message_requests_unread :
  let msg := VDict [ (VStr "role", VStr "assistant");
                     (VStr "tool_calls",
                      VList [Demo.tool_call (VStr "add") (VDict [])]) ] in
  let kwargs : gmap string value :=
    {[ "model" := VStr "glm-5:cloud"; "tools" := VList [Demo.add_fn] ]} in
  let out := ollama_automatic_function_calling
               (Demo.scripted [Demo.response msg; Demo.response msg]) Demo.chat 7%nat VNone
               kwargs (Demo.start []) in
  out.1 = Ret (Demo.response msg, 7%nat)
  /\ heap out.2 !! 7%nat = Some [msg]
  /\ length (calls out.2) = 1%nat.
Proof. vm_compute. auto. Qed.

Lemma turn_budget_and_immediate_return_witness :
  let env := Demo.scripted [] in
  let st := Demo.start [Demo.user "hi"] in
  let out := ollama_automatic_function_calling env Demo.chat 7%nat VNone (plain_kwargs 3) st in
  kwargs_get (plain_kwargs 3) "max_turns" (VInt 20) = VInt 3
  /\ (exists cs, calls out.2 = calls st ++ cs /\ (Z.of_nat (length cs) <= Z.max 0 3)%Z)
  /\ out.1 = Ret (Demo.done, 7%nat)
  /\ length (calls out.2) = 1%nat
  /\ heap out.2 !! 7%nat
     = Some [ Demo.user "hi";
              VDict [(VStr "role", VStr "assistant"); (VStr "content", VStr "done")] ].
Proof.
  intros env st out.
  assert (H : kwargs_get (plain_kwargs 3) "max_turns" (VInt 20) = VInt 3) by reflexivity.
  destruct (turn_budget_and_immediate_return env Demo.chat 7%nat VNone (plain_kwargs 3) st 3 H)
    as [H1 H2].
  split; [exact H|]. split; [exact H1|].
  edestruct H2 as (Ha & Hb & Hc);
    [reflexivity | reflexivity | reflexivity | reflexivity | reflexivity | reflexivity
     | reflexivity |].
  split; [exact Ha|]. fold out in Hb, Hc. rewrite Hb, Hc. split; reflexivity.
Defined.

Lemma no_turn_returns_none_witness :
  let st := Demo.start [Demo.user "hi"] in
  let out := ollama_automatic_function_calling (Demo.scripted []) Demo.chat 7%nat VNone
               (plain_kwargs (-2)) st in
  (-2 <= 0)%Z /\ out.2 = st /\ out.1 = Ret (VNone, 7%nat).
Proof.
  intros st out.
  assert (Hle : (-2 <= 0)%Z) by lia.
  destruct (no_turn_returns_none (Demo.scripted []) Demo.chat 7%nat VNone (plain_kwargs (-2))
              st (-2) eq_refl Hle) as (H1 & _ & H3).
  split; [exact Hle|]. split; [exact H1|]. apply (H3 VNone); reflexivity.
Defined.

Lemma extra_keywords_forwarded_witness :
  let kwargs : gmap string value :=
    {[ "model" := VStr "glm-5:cloud"; "think" := VStr "low"; "max_turns" := VInt 2 ]} in
  let st := Demo.start [Demo.user "hi"] in
  let out := ollama_automatic_function_calling Demo.echo Demo.chat 7%nat VNone kwargs st in
  chat_kwargs_of kwargs !! "think" = Some (VStr "low")
  /\ chat_kwargs_of kwargs !! "max_turns" = None
  /\ (exists c cs',
        calls out.2 = c :: cs'
        /\ call_kwargs c !! "think" = Some (VStr "low")
        /\ call_kwargs c !! "max_turns" = None
        /\ (call Demo.echo 0 [] (call_kwargs c) 0%nat).1
           = Ret (Demo.response
                    (Demo.assistant "low" (VList [Demo.tool_call (VStr "nope") (VDict [])]))))
  /\ length (calls out.2) = 2%nat
  /\ heap out.2 !! 7%nat
     = Some [ Demo.user "hi";
              VDict [(VStr "role", VStr "assistant"); (VStr "content", VStr "low")];
              tool_message (VStr "Tool 'nope' not found.") (VStr "nope");
              VDict [(VStr "role", VStr "assistant"); (VStr "content", VStr "low")] ].
Proof.
  intros kwargs st out.
  destruct (extra_keywords_forwarded Demo.echo Demo.chat 7%nat VNone kwargs st)
    as (H1 & H2 & H3 & (cs & Hc & Hall) & _ & H6).
  assert (Hthink : "think" ∉ reserved).
  { rewrite H2. intros [H|[H|[H|[H|[H|H]]]]]; discriminate H. }
  split; [|split; [|split; [|split]]].
  - apply H1. split; [reflexivity | exact Hthink].
  - apply H3, H2. auto 10.
  - destruct (H6 0%nat [("__name__", VStr "chat")] VNone 1%nat)
      as [(cs' & Hfirst) _]; [reflexivity | reflexivity | reflexivity | reflexivity |].
    eexists _, cs'. split; [exact Hfirst|].
    rewrite Hfirst in Hc. apply app_inv_head in Hc. subst cs.
    apply Forall_cons in Hall. destruct Hall as [(_ & Hk & Hm & _) _].
    split; [rewrite (Hk "think" Hthink); reflexivity|]. split; [exact Hm|].
    vm_compute. reflexivity.
  - vm_compute. reflexivity.
  - vm_compute. reflexivity.
Defined.

Lemma insistent_contract : backend_contract Demo.insistent Demo.chat.
Proof.
  intros e (response & st & st' & (id & attrs & kw & w & w' & Hid & Hcall) & Hd).
  injection Hid as <- <-. cbn in Hcall. injection Hcall as <- _.
  cbn in Hd. injection Hd as <- _.
  split; [eexists; reflexivity | discriminate].
Defined.

Lemma transcript_append_only_witness :
  let st := Demo.start [Demo.user "hi"] in
  let out := ollama_automatic_function_calling Demo.insistent Demo.chat 7%nat VNone
               (plain_kwargs 2) st in
  exists es, heap out.2 !! 7%nat = Some ([Demo.user "hi"] ++ es)
             /\ heap out.2 !! 8%nat = heap st !! 8%nat
             /\ Forall (fun e =>
                   has_field e "role"
                   /\ (dict_get_str e "role" VNone = VStr "tool" -> has_field e "tool_name")) es
             /\ es = [ VDict [(VStr "role", VStr "assistant"); (VStr "content", VStr "")];
                       tool_message (VStr "Tool 'nope' not found.") (VStr "nope");
                       VDict [(VStr "role", VStr "assistant"); (VStr "content", VStr "")];
                       tool_message (VStr "Tool 'nope' not found.") (VStr "nope") ].
Proof.
  intros st out.
  destruct (transcript_append_only Demo.insistent Demo.chat 7%nat VNone (plain_kwargs 2) st)
    as (es & _ & Hx & Hl & _ & _ & Hes & _).
  exists es. pose proof (Hx [Demo.user "hi"] eq_refl) as Hes'.
  split; [exact Hes'|]. split; [apply Hl; discriminate|].
  split; [exact (Hes insistent_contract)|].
  assert (H : Some ([Demo.user "hi"] ++ es)
              = Some ([Demo.user "hi"] ++
                      [ VDict [(VStr "role", VStr "assistant"); (VStr "content", VStr "")];
                        tool_message (VStr "Tool 'nope' not found.") (VStr "nope");
                        VDict [(VStr "role", VStr "assistant"); (VStr "content", VStr "")];
                        tool_message (VStr "Tool 'nope' not found.") (VStr "nope") ])).
  { rewrite <- Hes'. vm_compute. reflexivity. }
  injection H as H. exact H.
Defined.

Lemma tool_not_found_message_witness :
  let st := Demo.start [] in
  let tc := Demo.tool_call VNone (VDict []) in
  handle_tool_call Demo.insistent 7%nat VNone tc st
  = (Ret tt,
     appended 7%nat
       (VDict [ (VStr "role", VStr "tool");
                (VStr "content", VStr "Tool 'None' not found.");
                (VStr "tool_name", VStr "unknown_tool") ]) st).
Proof.
  intros st tc.
  destruct (tool_not_found_message Demo.insistent 7%nat VNone tc [] VNone (VDict []) st)
    as (content & field & H & _ & Hnone & _);
    [reflexivity | left; reflexivity | left; reflexivity | reflexivity |].
  destruct (Hnone eq_refl) as [-> ->]. exact H.
Defined.

Lemma tool_failure_isolated_witness :
  let st := Demo.start [] in
  let tool_map := VDict [(VStr "boom", Demo.boom_fn); (VStr "add", Demo.add_fn)] in
  handle_tool_call (Demo.scripted []) 7%nat tool_map
    (Demo.tool_call (VStr "boom") (VDict [])) st
  = (Ret tt,
     appended 7%nat
       (VDict [ (VStr "role", VStr "tool");
                (VStr "content", VStr "Tool 'boom' execution failed: boom");
                (VStr "tool_name", VStr "boom") ]) st)
  /\ handle_tool_call (Demo.scripted []) 7%nat tool_map
       (Demo.tool_call (VStr "add") (VDict [(VStr "a", VInt 4); (VStr "b", VInt 7)])) st
     = (Ret tt,
        appended 7%nat
          (VDict [ (VStr "role", VStr "tool");
                   (VStr "content", VStr "11");
                   (VStr "tool_name", VStr "add") ]) st).
Proof.
  intros st tool_map. split.
  - destruct (tool_failure_isolated (Demo.scripted []) 7%nat tool_map
                (Demo.tool_call (VStr "boom") (VDict [])) [] (VStr "boom")
                (VDict []) st Demo.boom_fn st ∅ 2%nat [("__name__", VStr "boom")] "boom")
      as (_ & H & _);
      [reflexivity | reflexivity | reflexivity | reflexivity | reflexivity | reflexivity |].
    destruct (H (Exn OtherException "boom") 0%nat) as [Hh _]; [reflexivity | reflexivity |].
    exact Hh.
  - destruct (tool_failure_isolated (Demo.scripted []) 7%nat tool_map
                (Demo.tool_call (VStr "add") (VDict [(VStr "a", VInt 4); (VStr "b", VInt 7)]))
                [] (VStr "add") (VDict [(VStr "a", VInt 4); (VStr "b", VInt 7)]) st
                Demo.add_fn st (list_to_map [("a", VInt 4); ("b", VInt 7)]) 1%nat
                [("__name__", VStr "add")] "add")
      as (H & _);
      [reflexivity | reflexivity | reflexivity | reflexivity | reflexivity | reflexivity |].
    destruct (H (VInt 11) 0%nat "11") as [Hh _]; [reflexivity | reflexivity |].
    exact Hh.
Defined.

Lemma textual_arguments_decoded_witness :
  let st := Demo.start [] in
  let tool_map := VDict [(VStr "add", Demo.add_fn)] in
  handle_tool_call (Demo.scripted []) 7%nat tool_map
    (Demo.tool_call (VStr "add") (VStr text_a1_b2)) st
  = (Ret tt, appended 7%nat (tool_message (VStr "3") (VStr "add")) st)
  /\ handle_tool_call (Demo.scripted []) 7%nat tool_map
       (Demo.tool_call (VStr "add") (VStr "not json")) st
     = (Ret tt,
        appended 7%nat
          (tool_message
             (VStr "Tool 'add' execution failed: add() takes the integers a and b")
             (VStr "add")) st).
Proof.
  intros st tool_map. split.
  - destruct (textual_arguments_decoded (Demo.scripted []) 7%nat tool_map
                (Demo.tool_call (VStr "add") (VStr text_a1_b2)) (VStr "add") text_a1_b2
                st Demo.add_fn st 1%nat [("__name__", VStr "add")])
      as (H & _); [reflexivity | reflexivity | reflexivity | reflexivity |].
    destruct (H [(VStr "a", VInt 1); (VStr "b", VInt 2)]
                (list_to_map [("a", VInt 1); ("b", VInt 2)])) as [_ Hh];
      [vm_compute; reflexivity | reflexivity |].
    rewrite Hh. reflexivity.
  - destruct (textual_arguments_decoded (Demo.scripted []) 7%nat tool_map
                (Demo.tool_call (VStr "add") (VStr "not json")) (VStr "add") "not json"
                st Demo.add_fn st 1%nat [("__name__", VStr "add")])
      as (_ & H & _); [reflexivity | reflexivity | reflexivity | reflexivity |].
    destruct H as [_ Hh]; [vm_compute; reflexivity|].
    rewrite Hh. reflexivity.
Defined.

Lemma insistent_asks_one_missing_tool model tools options chat_kwargs :
  asks_one_missing_tool Demo.insistent Demo.chat 7%nat model tools options VNone chat_kwargs.
Proof.
  intros st. eexists _, _, _, _, _, _, _.
  split; [reflexivity|]. split; [reflexivity|]. split; [reflexivity|].
  split; [reflexivity|]. split; reflexivity.
Defined.

(** A backend that asks for a missing tool in the attribute [tool_calls] of
    an opaque message exhausts the budget of two turns. *)
Lemma insistent_exhausts_budget :
  let st := Demo.start [Demo.user "hi"] in
  let out := ollama_automatic_function_calling Demo.insistent Demo.chat 7%nat VNone
               (plain_kwargs 2) st in
  (0 <= 2)%Z
  /\ exists last_response rounds,
       out.1 = Ret (last_response, 7%nat)
       /\ length rounds = 2%nat
       /\ Forall (not_found_round Demo.insistent Demo.chat) rounds
       /\ heap out.2 = alter (fun xs => xs ++ interleave rounds) 7%nat (heap st)
       /\ length (calls out.2) = 2%nat.
Proof.
  intros st out.
  assert (Hpos : (0 <= 2)%Z) by lia.
  split; [exact Hpos|].
  destruct (exhausted_budget_returns Demo.insistent Demo.chat 7%nat VNone (plain_kwargs 2) st 2
           VNone eq_refl Hpos eq_refl eq_refl (or_introl eq_refl)
           (insistent_asks_one_missing_tool _ _ _ _))
    as (last_response & rounds & H1 & H2 & H3 & H4 & H5 & _).
  exists last_response, rounds. auto.
Defined.

Lemma explicit_mapping_equivalent_witness :
  let kwargs : gmap string value :=
    {[ "model" := VStr "glm-5:cloud"; "tools" := VList [Demo.boom_fn; Demo.add_fn] ]} in
  let m := [(VStr "add", Demo.add_fn); (VStr "boom", Demo.boom_fn)] in
  let st := Demo.start [Demo.user "hi"] in
  ollama_automatic_function_calling (Demo.scripted []) Demo.chat 7%nat VNone
    (<["tool_map" := VDict m]> kwargs) st
  = ollama_automatic_function_calling (Demo.scripted []) Demo.chat 7%nat VNone kwargs st.
Proof.
  intros kwargs m st.
  destruct (explicit_mapping_equivalent (Demo.scripted []) Demo.chat 7%nat VNone kwargs st
              [Demo.boom_fn; Demo.add_fn] m)
    as (_ & H & _).
  - reflexivity.
  - reflexivity.
  - apply perm_swap.
  - repeat constructor.
  - repeat split.
  - exact H.
Defined.

Lemma calm_answers_well : answers_well Demo.calm Demo.chat.
Proof.
  intros id attrs kw w [= <- <-]. eexists _, _. split; [reflexivity|].
  split; [reflexivity|]. split.
  - intros st. eexists _, _. reflexivity.
  - discriminate.
Defined.

Lemma calm_exit_free : exit_free Demo.calm.
Proof.
  split.
  - intros id args kw w e w'. destruct id as [|[|[|id]]]; cbn.
    + discriminate.
    + unfold Demo.add_of. destruct (kw !! "a") as [[]|]; destruct (kw !! "b") as [[]|];
        intros [= <- _]; reflexivity.
    + intros [= <- _]. reflexivity.
    + discriminate.
  - intros v e. discriminate.
Defined.

Lemma configuration_errors_witness :
  let st := Demo.start [Demo.user "hi"] in
  ollama_automatic_function_calling Demo.calm Demo.chat 7%nat VNone ∅ st
  = (Raise (Exn ValueError "model must be specified"), st)
  /\ ollama_automatic_function_calling Demo.calm (VStr "chat") 7%nat VNone (plain_kwargs 3) st
     = (Raise (Exn ValueError "client_fn must be a callable"), st)
  /\ (ollama_automatic_function_calling Demo.calm Demo.chat 7%nat VNone
        {[ "model" := VStr "" ]} st).1
     = Ret (Demo.done, 7%nat)
  /\ ollama_automatic_function_calling Demo.calm Demo.boom_fn 7%nat VNone (plain_kwargs 3) st
     = (Raise (Exn OtherException "boom"),
        State (heap st) 0%nat
          [ChatCall (VStr "glm-5:cloud") VNone [Demo.user "hi"] VNone
                    (chat_kwargs_of (plain_kwargs 3))])
  /\ exists r,
       (ollama_automatic_function_calling Demo.calm Demo.chat 7%nat VNone (plain_kwargs 3) st).1
       = Ret r.
Proof.
  intros st. split; [|split; [|split; [|split]]].
  - destruct (configuration_errors Demo.calm Demo.chat 7%nat VNone ∅ st) as (H & _).
    apply H. reflexivity.
  - destruct (configuration_errors Demo.calm (VStr "chat") 7%nat VNone (plain_kwargs 3) st)
      as (_ & _ & H & _).
    apply (H VNone); reflexivity.
  - destruct (configuration_errors Demo.calm Demo.chat 7%nat VNone {[ "model" := VStr "" ]} st)
      as (_ & _ & _ & H & _).
    eapply (H "" VNone 19%nat); reflexivity.
  - destruct (configuration_errors Demo.calm Demo.boom_fn 7%nat VNone (plain_kwargs 3) st)
      as (_ & _ & _ & _ & H & _).
    apply (H VNone 2%nat); reflexivity.
  - destruct (configuration_errors Demo.calm Demo.chat 7%nat VNone (plain_kwargs 3) st)
      as (_ & _ & _ & _ & _ & H).
    apply (H VNone 3); try reflexivity.
    + left. reflexivity.
    + exact calm_answers_well.
    + exact (proj1 calm_exit_free).
    + exact (proj2 calm_exit_free).
Defined.

(** ** Where the claims as written fail *)

(** C1: a tool that asks the interpreter to exit is not caught, the
    invocation ends with that exception; and when [mul] returns an integer
    of 4301 digits, which [str] refuses to write, the entry appended says
    that the execution failed, though the tool succeeded. *)
Lemma tool_exit_and_unwritable_result :
  let env := Demo.scripted
    [Demo.response (Demo.assistant "" (VList [Demo.tool_call (VStr "leave") (VDict [])]))] in
  let kwargs : gmap string value :=
    {[ "model" := VStr "glm-5:cloud"; "tools" := VList [Demo.exit_fn] ]} in
  (ollama_automatic_function_calling env Demo.chat 7%nat VNone kwargs
     (Demo.start [Demo.user "hi"])).1
  = Raise (Exn SystemExiting "1")
  /\ Calculator.mul (errtext (Demo.scripted [])) (VInt (10 ^ 4300)) (VInt 1)
     = Ret (VInt (10 ^ 4300))
  /\ handle_tool_call (Calculator.interp_with no_float (Demo.scripted [])) 7%nat
       (VDict calculator_registry)
       (Demo.tool_call (VStr "mul")
          (VDict [(VStr "a", VInt (10 ^ 4300)); (VStr "b", VInt 1)]))
       (Demo.start [])
     = (Ret tt,
        appended 7%nat
          (VDict [ (VStr "role", VStr "tool");
                   (VStr "content",
                    VStr ("Tool 'mul' execution failed: "
                          +:+ "Exceeds the limit for integer string conversion"));
                   (VStr "tool_name", VStr "mul") ])
          (Demo.start [])).
Proof.
  split; [vm_compute; reflexivity|]. split.
  - cbn [Calculator.mul Calculator.py_mul Calculator.as_int]. rewrite Z.mul_1_r. reflexivity.
  - vm_compute. reflexivity.
Qed.

(** C3: every message of the backend is a mapping that asks, in its key
    [tool_calls], for the tool [nope], which nobody registered; three turns
    are allowed.  Line 99 reads the requests with [getattr], which finds
    nothing on a mapping: the function makes one backend call, appends the
    message and returns, where three calls and three rounds of an assistant
    entry and a tool-not-found entry were due.  The message is normalised
    as a mapping by [_to_msg_dict], and [_extract_tool_call_parts] would
    have read the request, a mapping too. *)
Lemma mapping_requests_end_the_loop :
  let st := Demo.start [Demo.user "hi"] in
  let out := ollama_automatic_function_calling Demo.mapping_insistent Demo.chat 7%nat VNone
               (plain_kwargs 3) st in
  out.1 = Ret (Demo.response Demo.mapping_request, 7%nat)
  /\ length (calls out.2) = 1%nat
  /\ heap out.2 !! 7%nat = Some [Demo.user "hi"; Demo.mapping_request]
  /\ dict_get_str Demo.mapping_request "tool_calls" VNone
     = VList [VDict [(VStr "function",
                      VDict [(VStr "name", VStr "nope"); (VStr "arguments", VDict [])])]]
  /\ _extract_tool_call_parts
       (VDict [(VStr "function",
                VDict [(VStr "name", VStr "nope"); (VStr "arguments", VDict [])])])
     = (VStr "nope", VDict [])
  /\ getattr Demo.mapping_request "tool_calls" VNone = VNone.
Proof. vm_compute. auto 10. Qed.

(** C4: an empty model identifier is accepted, and the failure of a backend
    reaches the caller though it is no configuration error. *)
Lemma empty_model_and_backend_failure :
  let st := Demo.start [Demo.user "hi"] in
  (ollama_automatic_function_calling (Demo.scripted []) Demo.chat 7%nat VNone
     {[ "model" := VStr "" ]} st).1
  = Ret (Demo.done, 7%nat)
  /\ (ollama_automatic_function_calling (Demo.scripted []) Demo.boom_fn 7%nat VNone
        {[ "model" := VStr "glm-5:cloud" ]} st).1
     = Raise (Exn OtherException "boom").
Proof. split; vm_compute; reflexivity. Qed.

(** C5: for a call without a name the content names [None], not
    [unknown_tool]. *)
Lemma absent_name_content :
  let out := handle_tool_call (Demo.scripted []) 7%nat VNone
               (Demo.tool_call VNone (VDict [])) (Demo.start []) in
  out.1 = Ret tt
  /\ heap out.2 !! 7%nat
     = Some [ VDict [ (VStr "role", VStr "tool");
                      (VStr "content", VStr "Tool 'None' not found.");
                      (VStr "tool_name", VStr "unknown_tool") ] ]
  /\ "Tool 'None' not found." <> "Tool 'unknown_tool' not found.".
Proof. split; [|split]; [vm_compute; reflexivity | vm_compute; reflexivity | discriminate]. Qed.

(** A backend that breaks its contract: its message, a mapping without
    [role], is appended as it is. *)
Example mapping_without_role_appended :
  let msg := VDict [(VStr "content", VStr "hi")] in
  let out := ollama_automatic_function_calling (Demo.scripted [Demo.response msg]) Demo.chat
               7%nat VNone {[ "model" := VStr "glm-5:cloud" ]} (Demo.start []) in
  out.1 = Ret (Demo.response msg, 7%nat)
  /\ heap out.2 !! 7%nat = Some [msg]
  /\ ~ has_field msg "role".
Proof.
  split; [|split]; [vm_compute; reflexivity | vm_compute; reflexivity |].
  cbn. intros [x Hx]. discriminate Hx.
Qed.

(** ** Further properties on concrete runs *)

Lemma registry_holds_last_named_witness :
  let ts := [Demo.fn 1 "add"; VNone; Demo.fn 5 "add"; Demo.fn 2 "boom"] in
  names_hashable ts
  /\ exists reg,
       build_tool_map (Demo.scripted []) ts [] = Ret reg
       /\ dict_lookup reg (VStr "add") = Some (Demo.fn 5 "add")
       /\ dict_lookup reg (VStr "sub") = None.
Proof.
  intros ts.
  assert (H : names_hashable ts) by (repeat constructor).
  split; [exact H|].
  destruct (registry_holds_last_named (Demo.scripted []) ts H) as (reg & Hb & Hl & _).
  exists reg. split; [exact Hb|]. split; rewrite Hl; reflexivity.
Defined.

Lemma ill_typed_tools_rejected_witness :
  let st := Demo.start [Demo.user "hi"] in
  let bad := VDict [(VStr "function", VDict [(VStr "name", VList [VInt 1])])] in
  let kwargs1 : gmap string value := {[ "model" := VStr "glm-5:cloud"; "tools" := VInt 5 ]} in
  let kwargs2 : gmap string value :=
    {[ "model" := VStr "glm-5:cloud"; "tools" := VList [Demo.add_fn; bad] ]} in
  ollama_automatic_function_calling (Demo.scripted []) Demo.chat 7%nat VNone kwargs1 st
  = (Raise (Exn TypeError "unsupported operand"), st)
  /\ exists t,
       ollama_automatic_function_calling (Demo.scripted []) Demo.chat 7%nat VNone kwargs2 st
       = (Raise (Exn TypeError (errtext (Demo.scripted []) TypeError (_infer_tool_name t))), st).
Proof.
  intros st bad kwargs1 kwargs2. split.
  - destruct (ill_typed_tools_rejected (Demo.scripted []) Demo.chat 7%nat VNone kwargs1 st)
      as [H _]; [reflexivity | reflexivity | reflexivity |].
    apply H. reflexivity.
  - destruct (ill_typed_tools_rejected (Demo.scripted []) Demo.chat 7%nat VNone kwargs2 st)
      as [_ H]; [reflexivity | reflexivity | reflexivity |].
    destruct (H [Demo.add_fn; bad]) as (t & _ & _ & Hr).
    + reflexivity.
    + apply Exists_cons_tl. apply Exists_cons_hd. split; reflexivity.
    + exists t. exact Hr.
Defined.

Lemma mapping_descriptor_not_invocable_witness :
  let descriptor :=
    VDict [ (VStr "type", VStr "function");
            (VStr "function", VDict [(VStr "name", VStr "add")]) ] in
  let st := Demo.start [] in
  handle_tool_call (Demo.scripted []) 7%nat (VDict [(VStr "add", descriptor)])
    (Demo.tool_call (VStr "add") (VDict [])) st
  = (Ret tt,
     appended 7%nat (tool_message (VStr "Tool 'add' not found.") (VStr "add")) st).
Proof.
  intros descriptor st.
  destruct (mapping_descriptor_not_invocable (Demo.scripted []) 7%nat [descriptor]
              [(VStr "add", descriptor)] (Demo.tool_call (VStr "add") (VDict []))
              (VStr "add") (VDict []) descriptor st) as (_ & _ & H & _);
    [reflexivity | repeat constructor | reflexivity | reflexivity | reflexivity
     | reflexivity |].
  apply (H "add"). reflexivity.
Defined.

Lemma decorated_tool_unwrapped_witness :
  let wrapper := VObj 9 true [("__name__", VStr "add"); ("__wrapped__", Demo.add_fn)] in
  let st := Demo.start [] in
  handle_tool_call (Demo.scripted []) 7%nat (VDict [(VStr "add", wrapper)])
    (Demo.tool_call (VStr "add") (VDict [(VStr "a", VInt 1); (VStr "b", VInt 2)])) st
  = (Ret tt, appended 7%nat (tool_message (VStr "3") (VStr "add")) st).
Proof.
  intros wrapper st.
  destruct (decorated_tool_unwrapped (Demo.scripted []) 7%nat (VDict [(VStr "add", wrapper)])
              (Demo.tool_call (VStr "add") (VDict [(VStr "a", VInt 1); (VStr "b", VInt 2)]))
              (VStr "add") (VDict [(VStr "a", VInt 1); (VStr "b", VInt 2)]) st wrapper st
              (list_to_map [("a", VInt 1); ("b", VInt 2)]) 1%nat [("__name__", VStr "add")])
    as (_ & H & _); [reflexivity | reflexivity | reflexivity | reflexivity | reflexivity |].
  rewrite H. reflexivity.
Defined.

Lemma backend_sees_growing_transcript_witness :
  let st := Demo.start [Demo.user "hi"] in
  let out := ollama_automatic_function_calling Demo.insistent Demo.chat 7%nat VNone
               (plain_kwargs 2) st in
  exists cs ys,
    calls out.2 = calls st ++ cs
    /\ heap out.2 !! 7%nat = Some ys
    /\ fed [Demo.user "hi"] cs ys.
Proof.
  intros st out.
  destruct (backend_sees_growing_transcript Demo.insistent Demo.chat 7%nat VNone
              (plain_kwargs 2) st [Demo.user "hi"] eq_refl)
    as (cs & ys & H1 & H2 & H3 & _).
  exists cs, ys. auto.
Defined.

Lemma backend_arguments_constant_witness :
  let st := Demo.start [Demo.user "hi"] in
  let kwargs : gmap string value :=
    {[ "model" := VStr "glm-5:cloud"; "tools" := VList [Demo.add_fn];
       "max_turns" := VInt 2 ]} in
  let out := ollama_automatic_function_calling Demo.insistent Demo.chat 7%nat
               (VDict [(VStr "temperature", VInt 1)]) kwargs st in
  exists c cs',
    calls out.2 = c :: cs'
    /\ call_kwargs c !! "model" = Some (VStr "glm-5:cloud")
    /\ call_kwargs c !! "tools" = Some (VList [Demo.add_fn])
    /\ call_kwargs c !! "options" = Some (VDict [(VStr "temperature", VInt 1)])
    /\ call_kwargs c !! "messages" = Some (VList [Demo.user "hi"])
    /\ length cs' = 1%nat.
Proof.
  intros st kwargs out.
  destruct (backend_arguments_constant Demo.insistent Demo.chat 7%nat
              (VDict [(VStr "temperature", VInt 1)]) kwargs st [Demo.user "hi"] eq_refl)
    as (cs & ys & Hc & _ & Hall & Hfirst & Hne).
  destruct cs as [|c cs'].
  { exfalso. apply (Hne (VDict [(VStr "add", Demo.add_fn)]) 1%nat); reflexivity. }
  exists c, cs'. split; [exact Hc|].
  apply Forall_cons in Hall. destruct Hall as [(H1 & H2 & H3 & _) _].
  split; [exact H1|]. split; [exact H2|]. split; [exact H3|].
  split; [apply (Hfirst c cs'); reflexivity|].
  assert (Hlen : length (calls out.2) = 2%nat) by (vm_compute; reflexivity).
  fold out in Hc. rewrite Hc in Hlen. cbn in Hlen. lia.
Defined.

Lemma one_tool_message_per_call_witness :
  let st := Demo.start [] in
  let tcs := [Demo.tool_call (VStr "nope") (VDict []); Demo.tool_call VNone (VDict [])] in
  let out := run_tool_calls (Demo.scripted []) 7%nat VNone tcs st in
  out.1 = Ret tt
  /\ exists es, heap out.2 = alter (fun xs => xs ++ es) 7%nat (heap st)
                /\ length es = 2%nat /\ Forall2 answers tcs es.
Proof.
  intros st tcs out.
  destruct (one_tool_message_per_call (Demo.scripted []) 7%nat VNone tcs st)
    as (_ & es & Hh & Hret & _).
  split; [reflexivity|]. exists es. split; [exact Hh|]. apply (Hret tt). reflexivity.
Defined.

Lemma max_turns_must_be_integer_witness :
  let st := Demo.start [Demo.user "hi"] in
  let kwargs : gmap string value :=
    {[ "model" := VStr "glm-5:cloud"; "max_turns" := VStr "3" ]} in
  ollama_automatic_function_calling (Demo.scripted []) Demo.chat 7%nat VNone kwargs st
  = (Raise (Exn TypeError "unsupported operand"), st).
Proof.
  intros st kwargs.
  destruct (max_turns_must_be_integer (Demo.scripted []) Demo.chat 7%nat VNone kwargs st VNone)
    as (H & _); [reflexivity | reflexivity | reflexivity |].
  apply H; discriminate.
Defined.

Lemma response_without_message_witness :
  let st := Demo.start [Demo.user "hi"] in
  let out := ollama_automatic_function_calling (Demo.scripted [VObj 13 false []]) Demo.chat
               7%nat VNone (plain_kwargs 3) st in
  out.1 = Raise (Exn AttributeError "no such attribute")
  /\ heap out.2 = heap st.
Proof.
  intros st out.
  destruct (response_without_message (Demo.scripted [VObj 13 false []]) Demo.chat 7%nat VNone
              (plain_kwargs 3) st VNone 2%nat (VObj 13 false [])
              (State (heap st) 1%nat
                 [ChatCall (VStr "glm-5:cloud") VNone [Demo.user "hi"] VNone
                           (chat_kwargs_of (plain_kwargs 3))]))
    as (H1 & H2 & _); [reflexivity | reflexivity | reflexivity | reflexivity | reflexivity |].
  unfold out. rewrite H1. split; [reflexivity | exact H2].
Defined.

Lemma non_mapping_arguments_reported_witness :
  let st := Demo.start [] in
  handle_tool_call (Demo.scripted []) 7%nat (VDict [(VStr "add", Demo.add_fn)])
    (Demo.tool_call (VStr "add") (VStr "[1, 2]")) st
  = (Ret tt,
     appended 7%nat
       (tool_message (VStr "Tool 'add' execution failed: unsupported operand")
                     (VStr "add")) st).
Proof.
  intros st.
  destruct (non_mapping_arguments_reported (Demo.scripted []) 7%nat
              (VDict [(VStr "add", Demo.add_fn)])
              (Demo.tool_call (VStr "add") (VStr "[1, 2]")) (VStr "add") (VStr "[1, 2]")
              st Demo.add_fn st) as [H _];
    [reflexivity | reflexivity | reflexivity | vm_compute; reflexivity |].
  rewrite (H "add" eq_refl). reflexivity.
Defined.

Lemma unhashable_request_name_witness :
  let st := Demo.start [] in
  let tc := Demo.tool_call (VList [VStr "add"]) (VDict []) in
  run_tool_calls (Demo.scripted []) 7%nat (VDict [(VStr "add", Demo.add_fn)])
    [tc; Demo.tool_call (VStr "add") (VDict [])] st
  = (Raise (Exn TypeError "unsupported operand"), st).
Proof.
  intros st tc.
  destruct (unhashable_request_name (Demo.scripted []) 7%nat (VStr "add", Demo.add_fn) [] tc
              [Demo.tool_call (VStr "add") (VDict [])] (VList [VStr "add"]) (VDict []) st)
    as [H _]; [reflexivity | reflexivity |].
  exact H.
Defined.

Lemma tool_call_parts_shape_independent_witness :
  _extract_tool_call_parts (Demo.tool_call (VStr "add") (VStr ""))
  = _extract_tool_call_parts
      (VDict [(VStr "function", VObj 11 false [("name", VStr "add"); ("arguments", VStr "")])]).
Proof.
  destruct tool_call_parts_shape_independent as (H & _).
  apply (H _ _ _ _ (VObj 11 false [("name", VStr "add"); ("arguments", VStr "")]));
    reflexivity.
Defined.

Lemma normalisation_without_dump_witness :
  exists d,
    _to_msg_dict (Demo.scripted []) (Demo.assistant "hi" (VList [VInt 1])) (Demo.start [])
    = (Ret (VDict d), Demo.start [])
    /\ dict_lookup d (VStr "tool_calls") = None.
Proof.
  destruct (normalisation_without_dump (Demo.scripted [])
              (Demo.assistant "hi" (VList [VInt 1])) (Demo.start []) eq_refl)
    as (d & H1 & _ & _ & H4).
  exists d. split; [exact H1|]. apply H4. reflexivity.
Defined.

Lemma integer_arithmetic_exact_witness :
  Calculator.add (errtext (Demo.scripted [])) (VInt 4) (VBool true) = Ret (VInt 5)
  /\ Calculator.div (errtext (Demo.scripted [])) no_float (VInt 4) (VBool false)
     = Raise (Exn OtherException "error").
Proof.
  destruct (integer_arithmetic_exact (errtext (Demo.scripted [])) no_float
              (VInt 4) (VBool true) 4 1 eq_refl eq_refl) as (H & _).
  destruct (integer_arithmetic_exact (errtext (Demo.scripted [])) no_float
              (VInt 4) (VBool false) 4 0 eq_refl eq_refl) as (_ & _ & _ & _ & _ & H' & _).
  split; [exact H | apply H'; reflexivity].
Defined.

Lemma calculator_result_in_transcript_witness :
  let env := Calculator.interp_with no_float (Demo.scripted []) in
  let st := Demo.start [] in
  handle_tool_call env 7%nat (VDict calculator_registry)
    (Demo.tool_call (VStr "mul") (VStr text_a1_b2)) st
  = (Ret tt, appended 7%nat (tool_message (VStr "2") (VStr "mul")) st).
Proof.
  intros env st.
  destruct (calculator_result_in_transcript (Demo.scripted []) no_float 7%nat
              (Demo.tool_call (VStr "mul") (VStr text_a1_b2)) "mul" (VStr text_a1_b2)
              (list_to_map [("a", VInt 1); ("b", VInt 2)]) 1 2 st)
    as (_ & _ & _ & H);
    [reflexivity | vm_compute; reflexivity | reflexivity | reflexivity | reflexivity |].
  exact (H eq_refl).
Defined.

Lemma division_by_zero_reported_witness :
  let env := Calculator.interp_with no_float (Demo.scripted []) in
  let st := Demo.start [] in
  handle_tool_call env 7%nat (VDict calculator_registry)
    (Demo.tool_call (VStr "div") (VDict [(VStr "a", VInt 4); (VStr "b", VInt 0)])) st
  = (Ret tt,
     appended 7%nat
       (tool_message (VStr "Tool 'div' execution failed: error") (VStr "div")) st).
Proof.
  intros env st.
  destruct (division_by_zero_reported (Demo.scripted []) no_float 7%nat
              (Demo.tool_call (VStr "div") (VDict [(VStr "a", VInt 4); (VStr "b", VInt 0)]))
              [] (VDict [(VStr "a", VInt 4); (VStr "b", VInt 0)])
              (list_to_map [("a", VInt 4); ("b", VInt 0)]) 4 st)
    as (H & _); [reflexivity | reflexivity | reflexivity | reflexivity | reflexivity |].
  exact H.
Defined.

Lemma unbound_arguments_reported_witness :
  let env := Calculator.interp_with no_float (Demo.scripted []) in
  let st := Demo.start [] in
  let kw : gmap string value := {[ "a" := VInt 4 ]} in
  handle_tool_call env 7%nat (VDict calculator_registry)
    (Demo.tool_call (VStr "sub") (VDict [(VStr "a", VInt 4)])) st
  = (Ret tt,
     appended 7%nat
       (tool_message (VStr "Tool 'sub' execution failed: unsupported operand")
                     (VStr "sub")) st).
Proof.
  intros env st kw.
  destruct (unbound_arguments_reported (Demo.scripted []) no_float 7%nat
              (Demo.tool_call (VStr "sub") (VDict [(VStr "a", VInt 4)])) "sub"
              Calculator.sub_fn (VDict [(VStr "a", VInt 4)]) kw st)
    as (_ & H); [reflexivity | reflexivity | right; left; reflexivity
                 | right; left; reflexivity |].
  exact H.
Defined.

Lemma no_registry_no_invocation_witness :
  let st := Demo.start [] in
  run_tool_calls (Demo.scripted []) 7%nat (VDict [])
    [Demo.tool_call (VStr "add") (VDict []); Demo.tool_call (VStr "sub") (VDict [])] st
  = (Ret tt,
     State {[ 7%nat := [ tool_message (VStr "Tool 'add' not found.") (VStr "add");
                         tool_message (VStr "Tool 'sub' not found.") (VStr "sub") ] ]}
           0%nat []).
Proof.
  intros st.
  destruct (no_registry_no_invocation (Demo.scripted []) 7%nat (VDict [])
              [Demo.tool_call (VStr "add") (VDict []); Demo.tool_call (VStr "sub") (VDict [])]
              st eq_refl) as [H _].
  rewrite (H ["add"; "sub"]); [reflexivity|]. repeat constructor.
Defined.
